(* ===== verification/_CoqProject ===== *)
-Q . S2P
JsPrelude.v
Env.v
Payload.v
Json.v
Proc.v
Auth.v
Message.v
Upload.v
Watcher.v
EventLoop.v
Footprint.v
PendingSpec.v
UserToken.v
Pipeline.v
Liveness.v
Ordering.v
Interleave.v
Termination.v
