(* ===== verification/JsPrelude.v ===== *)
(** * Verification of watsonwork-filesync (src/app.js)

    The program is one Node module, src/app.js (160 lines).  It watches a
    directory with the [watch] library and relays every new file to a
    Watson Workspace space: it authenticates with OAuth client
    credentials (or a user token), uploads the file as a multipart form,
    and posts a message that references the uploaded file.  Its parts:

    - Authenticator, [authenticateApp] (lines 23-53): user token or
      token request; exits the process on a status other than 200.
    - Message composer, [sendMessage] (lines 55-111): short name, MIME
      type, image dimensions, the message object, a second
      authentication, the post, and a response callback that logs a
      status other than 201.
    - File uploader, [uploadFile] (lines 113-143): the form, an
      authentication, [form.submit], and a ['data'] listener that calls
      [sendMessage] and removes the path from [pending].
    - Directory watcher (lines 145-161): the global [pending] array and
      the [watch.watchTree] callback, which de-duplicates creation events
      with [pending.indexOf] before starting an upload.

    They interact through callbacks on one thread: every network call
    registers a continuation that the Node event loop runs later, and
    the only shared mutable state is [pending].

    ** Files, in dependency order

    - [JsPrelude] (this file): the handler monad [St] (state passing with
      JavaScript exceptions and [process.exit]), frame conditions [keeps]
      and [preserves] with their lemmas, the JavaScript built-ins the code
      calls ([Array.prototype.indexOf/push/splice],
      [String.prototype.indexOf/replace], truthiness), the hint databases
      [js] and [js_rw] and the tactics [st_simpl], [keeps_rewrite] and
      [lookup_simpl].
    - [Env]: configuration constants (lines 8-21) as the record [config],
      the Node and network data (stats, HTTP responses), and the class
      [Libs]: the interface of mime-types, image-size and the two
      [JSON.parse] field reads, which the development takes as parameters.
    - [Payload]: the message object (lines 62-88) and
      [JSON.stringify] of the upload attributes (line 116).
    - [Proc]: the process state [proc]: [pending], the registered
      callbacks (defunctionalised closures [task] and [auth_cont]) in a
      [gmap] under fresh identifiers, the requests sent, the console and
      the run status; the primitives [console_log], [issue], [retire],
      [rearm].
    - [Auth], [Message], [Upload], [Watcher]: one Module per component,
      each operation of the source a Definition of the same name.  Auth
      and Message take the closure runner [resume] as a Section
      Variable; [Upload.resume] instantiates it with the two closures of
      the source, which ties the components together without recursion.
    - [EventLoop]: the inputs the environment delivers (watch events and
      I/O completions), [dispatch], the loop [step] (an uncaught
      exception or [process.exit] stops the process), the executable
      replay [run], [reachable] by rule induction, and the invariants of
      the whole program.
    - [Json] (after [Payload]): a JSON reader after RFC 8259 (string
      literals with their escapes, objects of string members), the
      receiving side of the upload's [attributes] part; it is a
      reference for the encoder, not code of app.js.
    - [Footprint]: which callback answers which request ([answers]),
      and the handlers' effects once for any property the primitives
      preserve, for inputs delivered to the callbacks [target_ok]
      allows; its instances are the freshness of callback identifiers
      and the typing of callbacks against the requests they answer.
    - [PendingSpec]: the abstract pending set (spec, section 3) as a
      step relation on [gset string], with completions that remove
      their path and aborted completions that end the run, and the
      refinement of the array.
    - [UserToken]: the user-token mode, by an invariant preserved by
      every operation of every component.
    - [Pipeline]: one file's pipeline through the loop, completion by
      completion, with the concrete traces that witness it.
    - [Liveness]: the whole pipeline of one file from any reachable
      state under a network that answers every request.
    - [Ordering]: the invariant that every message names a file
      uploaded before it.
    - [Interleave]: states equal up to the console, the handlers'
      independence from it, and the commutation of log-only events.
    - [Termination]: the work a state has left ([weight] of each
      registered callback, summed by [map_fold]), the cost of each
      handler, and the termination of callback turns without stimuli.

    ** What is proved (PROJECT.json lists the claims C1-C29 in order)

    - Watcher (C1, C2, C23): a creation event for a path not pending
      pushes it and starts exactly one upload; a duplicate changes
      nothing; a creation whose stat is undefined throws after the push.
    - Invariants (C3, C4, C14, C15): [pending] never holds a path
      twice; with a non-empty [USER_JWT] no token request is ever sent
      and every request carries [Bearer USER_JWT]; every callback
      answers the request sent under its identifier (the data listener
      of a file the upload of that file); every message posted names a
      file whose upload was sent before it (spec, section 5).  All by
      induction over [reachable].
    - Pipeline (C5-C8, C12, C19-C22): a refused token stops the process
      for good; the upload response removes the path from [pending]
      before the message is posted; an upload error leaves the path
      pending forever and every later creation of it is ignored; a late
      chunk of an earlier response lets a second concurrent upload of
      the same path start; every chunk of a response posts a message; an
      unknown MIME type and a transport error of the token request or of
      the post crash the process; a post refused with a status other
      than 201 is logged and the process goes on.
    - Refinement (C9): every run of the loop is a run of the abstract
      pending-set machine: a chunk whose listener returns removes its
      path, one whose listener throws keeps the set and ends the run;
      the array represents the set exactly.
    - Liveness (C10, C11): six successful answers with application
      credentials, four with a user token, complete a file's pipeline
      from any reachable state: the upload and the message are sent
      with the right token, the path leaves [pending], only the stream
      listener stays registered.
    - Interleaving (C16): notifications that only log commute with
      everything (they change nothing but the console;
      [Interleave.run_proper] for states equal up to the console).
    - Termination and bounds (C17, C18): without new files or response
      chunks the turns that run callbacks are well founded; in any run
      they number at most the work left ([Termination.measure]) plus
      three per stimulus.
    - Round trip (C13): the upload attributes read back as exactly the
      short name and the space, whatever their bytes.
    - Message (C24, C25, C29): the payload and its dimensions on both
      branches; the short name strips the folder, and only the folder,
      from the front (so a leading slash stays, unlike the spec's
      example); the image test is substring search.
    - Auth (C26, C27): the user-token short circuit, and an empty
      [USER_JWT] falling back to the exchange.
    - Removal (C28): the [indexOf]/[splice] removal of lines 134-137
      removes the path and keeps every other.  The models of
      [String.prototype.indexOf] and [Array.prototype.indexOf] are
      checked against reference definitions ([str_indexOf_first],
      [arr_indexOf_first]).

    ** Open directions

    The pipeline under interleaved creations of other files, stated up
    to a renaming of callback identifiers; the commutation of
    completions delivered to different callbacks, up to that renaming.

    ** Not modelled

    The [watch], [request], [form-data], mime-types and image-size
    libraries are not modelled: their observable contract is the input
    type of the loop and the class [Libs].  Every [console.log] call is
    kept as the values it prints; the text Node makes of them is not.  There is no fuel: every handler is a total
    structural function, and [run] consumes a finite list of inputs;
    app.js has no loop of its own besides the built-ins, so every turn
    terminates by construction; that the loop of callbacks drains is
    C17, and progress is the liveness of the pipeline.
    Strings are byte strings: JavaScript's UTF-16 code units above 255
    are out of scope, and the JSON reader of [Json] refuses [\u]
    escapes beyond one byte.  A failed [JSON.parse] and a missing field
    behind it are one exception of the model ([SyntaxError]).  The
    file stream opened at line 118 is data of the form: read errors of
    the file are not modelled. *)

From Stdlib Require Import ZArith.
From Stdlib Require Import Ascii.
From stdpp Require Import base list gmap strings.

Declare Scope js_scope.
Delimit Scope js_scope with js.
Open Scope Z_scope.

(** ** JavaScript exceptions and handler outcomes *)

(** The exceptions a handler of app.js can raise.  None of them is caught
    by the program, so each one ends the Node process. *)
Inductive exn : Type :=
  | TypeError (msg : string)     (** property read on undefined, call of a non-function *)
  | SyntaxError (msg : string)   (** JSON.parse on text that is not JSON *)
  | LibError (msg : string).     (** an exception thrown inside a library (image-size) *)

#[export] Instance exn_eq_dec : EqDecision exn.
Proof. solve_decision. Defined.

(** A run of a synchronous piece of JavaScript ends normally with a
    value, with an uncaught exception, or inside [process.exit(code)]. *)
Inductive outcome (A : Type) : Type :=
  | Ok (a : A)
  | Throw (e : exn)
  | Exit (code : Z).
Arguments Ok {A} a.
Arguments Throw {A} e.
Arguments Exit {A} code.

(** ** The handler monad: state passing with exceptions and exit *)

(** [St S A] is a synchronous JavaScript computation over the mutable
    state [S]: the state reached is kept when the code throws or exits,
    as it is in JavaScript where earlier side effects are not undone. *)
Definition St (S A : Type) : Type := S -> outcome A * S.

#[export] Instance St_ret (S : Type) : MRet (St S) := fun A a s => (Ok a, s).
#[export] Instance St_bind (S : Type) : MBind (St S) :=
  fun A B k m s =>
    match m s with
    | (Ok a, s') => k a s'
    | (Throw e, s') => (Throw e, s')
    | (Exit c, s') => (Exit c, s')
    end.

Definition throw {S A} (e : exn) : St S A := fun s => (Throw e, s).
Definition exit {S A} (code : Z) : St S A := fun s => (Exit code, s).
Definition gets {S A} (f : S -> A) : St S A := fun s => (Ok (f s), s).
Definition modify {S} (f : S -> S) : St S unit := fun s => (Ok tt, f s).

(** [when b m] is JavaScript's [if (b) { m }]. *)
Definition when {S} (b : bool) (m : St S unit) : St S unit :=
  if b then m else mret tt.

(** ** Array.prototype methods on the [pending] array *)

Section JsArray.
Context {A : Type} `{EqDecision A}.

(** [arr.indexOf(x)]: the first index holding [x], or -1, found by the
    loop k = 0, 1, ... of the ECMAScript algorithm. *)
Fixpoint arr_indexOf_from (l : list A) (x : A) (k : nat) : Z :=
  match l with
  | [] => -1
  | y :: l' => if decide (y = x) then Z.of_nat k else arr_indexOf_from l' x (S k)
  end.

Definition arr_indexOf (l : list A) (x : A) : Z := arr_indexOf_from l x 0.

(** [arr.push(x)] appends at the end. *)
Definition arr_push (l : list A) (x : A) : list A := l ++ [x].

(** [arr.splice(start, 1)]: a negative start counts from the end, a start
    past the end removes nothing. *)
Definition arr_splice1 (l : list A) (start : Z) : list A :=
  let len := Z.of_nat (length l) in
  let k := if start <? 0 then Z.max (len + start) 0 else Z.min start len in
  take (Z.to_nat k) l ++ drop (S (Z.to_nat k)) l.

(** The reference for removal of one element: the list without the first
    occurrence of [x]. *)
Fixpoint remove_first (x : A) (l : list A) : list A :=
  match l with
  | [] => []
  | y :: l' => if decide (y = x) then l' else y :: remove_first x l'
  end.
End JsArray.

(** ** String.prototype methods *)

(** [s.indexOf(sub)]: the first position at which [sub] occurs in [s], or
    -1.  The empty string occurs at 0. *)
Fixpoint str_indexOf_from (s sub : string) (k : nat) : Z :=
  if String.prefix sub s then Z.of_nat k
  else match s with
       | EmptyString => -1
       | String _ s' => str_indexOf_from s' sub (S k)
       end.

Definition str_indexOf (s sub : string) : Z := str_indexOf_from s sub 0.

(** [s.replace(pat, rep)] with a string pattern: only the first occurrence
    is replaced (ECMAScript 22.1.3.19; [rep] holds no [$] pattern here). *)
Definition str_replace (s pat rep : string) : string :=
  let i := str_indexOf s pat in
  if i =? -1 then s
  else String.substring 0 (Z.to_nat i) s +:+ rep
       +:+ String.substring (Z.to_nat i + String.length pat)
             (String.length s - (Z.to_nat i + String.length pat)) s.

(** JavaScript truthiness of a string-or-undefined value, as in
    [if (USER_JWT)]: the empty string is falsy. *)
Definition js_truthy_str (o : option string) : bool :=
  match o with
  | Some (String _ _) => true
  | _ => false
  end.

(** ** Automation shared by the components *)

Create HintDb js discriminated.
Create Rewrite HintDb js_rw.

(** [st_simpl] runs the handler monad on a concrete or symbolic state:
    it unfolds the instances and the primitive operations. *)
Ltac st_simpl :=
  cbv [mbind mret St_bind St_ret throw exit gets modify when negb] in *; cbn in *.

(** [lookup_simpl]: evaluate lookups in a chain of [insert]s and
    [delete]s on [nat] keys whose (in)equalities [lia] decides. *)
Ltac lookup_simpl :=
  repeat first [ rewrite lookup_insert_eq | rewrite lookup_delete_eq
               | rewrite lookup_insert_ne by lia | rewrite lookup_delete_ne by lia ].

(** ** Lemmas on the handler monad *)

Lemma st_bind_ret_l {S A B} (a : A) (k : A -> St S B) s :
  (mret a ≫= k) s = k a s.
Proof. reflexivity. Qed.

Lemma st_bind_ok {S A B} (m : St S A) (k : A -> St S B) s a s' :
  m s = (Ok a, s') -> (m ≫= k) s = k a s'.
Proof. intros Hm. unfold mbind, St_bind. by rewrite Hm. Qed.

Lemma st_bind_throw {S A B} (m : St S A) (k : A -> St S B) s e s' :
  m s = (Throw e, s') -> (m ≫= k) s = (Throw e, s').
Proof. intros Hm. unfold mbind, St_bind. by rewrite Hm. Qed.

Lemma st_bind_exit {S A B} (m : St S A) (k : A -> St S B) s c s' :
  m s = (Exit c, s') -> (m ≫= k) s = (Exit c, s').
Proof. intros Hm. unfold mbind, St_bind. by rewrite Hm. Qed.

Lemma st_bind_gets {S A B} (g : S -> A) (k : A -> St S B) s :
  (gets g ≫= k) s = k (g s) s.
Proof. reflexivity. Qed.

Lemma st_bind_modify {S B} (h : S -> S) (k : unit -> St S B) s :
  (modify h ≫= k) s = k tt (h s).
Proof. reflexivity. Qed.

(** The state after [m ≫= k], by cases on the outcome of [m]. *)
Lemma st_bind_state {S A B} (m : St S A) (k : A -> St S B) s :
  ((m ≫= k) s).2 = match m s with (Ok a, s') => (k a s').2 | (_, s') => s' end.
Proof. unfold mbind, St_bind. by destruct (m s) as [[]]. Qed.

#[export] Hint Rewrite @st_bind_ret_l @st_bind_gets @st_bind_modify : js_rw.

(** ** Frame conditions and invariants of handler computations *)

Section Frame.
Context {S : Type}.

(** [keeps f m]: running [m] leaves the projection [f] of the state
    unchanged, whatever the outcome. *)
Definition keeps {B A} (f : S -> B) (m : St S A) : Prop :=
  forall s, f (m s).2 = f s.

(** [preserves P m]: running [m] from a state satisfying [P] ends in a
    state satisfying [P], whatever the outcome. *)
Definition preserves {A} (P : S -> Prop) (m : St S A) : Prop :=
  forall s, P s -> P (m s).2.

Lemma keeps_ret {B A} (f : S -> B) (a : A) : keeps f (mret a).
Proof. done. Qed.

Lemma keeps_throw {B A} (f : S -> B) e : keeps f (throw (A:=A) e).
Proof. done. Qed.

Lemma keeps_exit {B A} (f : S -> B) c : keeps f (exit (A:=A) c).
Proof. done. Qed.

Lemma keeps_bind {B A C} (f : S -> B) (m : St S A) (k : A -> St S C) :
  keeps f m -> (forall a, keeps f (k a)) -> keeps f (m ≫= k).
Proof.
  intros Hm Hk s. unfold mbind, St_bind.
  specialize (Hm s). destruct (m s) as [[a|e|c] s']; cbn in *; [|done..].
  by rewrite Hk.
Qed.

Lemma keeps_gets_bind {B A C} (f : S -> B) (g : S -> A) (k : A -> St S C) :
  (forall s, f (k (g s) s).2 = f s) -> keeps f (gets g ≫= k).
Proof. intros Hk s. apply Hk. Qed.

Lemma keeps_modify {B} (f : S -> B) (h : S -> S) :
  (forall s, f (h s) = f s) -> keeps f (modify h).
Proof. intros Hh s. apply Hh. Qed.

Lemma keeps_when {B} (f : S -> B) b (m : St S unit) :
  keeps f m -> keeps f (when b m).
Proof. intros Hm. destruct b; [done|]. apply keeps_ret. Qed.

Lemma preserves_ret {A} (P : S -> Prop) (a : A) : preserves P (mret a).
Proof. by intros s. Qed.

Lemma preserves_throw {A} (P : S -> Prop) e : preserves P (throw (A:=A) e).
Proof. by intros s. Qed.

Lemma preserves_exit {A} (P : S -> Prop) c : preserves P (exit (A:=A) c).
Proof. by intros s. Qed.

Lemma preserves_bind {A C} (P : S -> Prop) (m : St S A) (k : A -> St S C) :
  preserves P m -> (forall a, preserves P (k a)) -> preserves P (m ≫= k).
Proof.
  intros Hm Hk s Hs. unfold mbind, St_bind.
  specialize (Hm s Hs). destruct (m s) as [[a|e|c] s']; cbn in *; [|done..].
  by apply Hk.
Qed.

Lemma preserves_gets_bind {A C} (P : S -> Prop) (g : S -> A) (k : A -> St S C) :
  (forall s, P s -> P (k (g s) s).2) -> preserves P (gets g ≫= k).
Proof. intros Hk s. apply Hk. Qed.

Lemma preserves_modify (P : S -> Prop) (h : S -> S) :
  (forall s, P s -> P (h s)) -> preserves P (modify h).
Proof. intros Hh s. apply Hh. Qed.

Lemma preserves_when (P : S -> Prop) b (m : St S unit) :
  preserves P m -> preserves P (when b m).
Proof. intros Hm. destruct b; [done|]. apply preserves_ret. Qed.

(** A frame condition on [f] preserves every property of [f]. *)
Lemma keeps_preserves {B A} (f : S -> B) (Q : B -> Prop) (m : St S A) :
  keeps f m -> preserves (fun s => Q (f s)) m.
Proof. intros Hm s Hs. by rewrite Hm. Qed.
End Frame.

(** [keeps_rewrite f]: replace [f (m s).2] by [f s] in the goal, leaving
    the frame condition [keeps f m] to prove first. *)
Ltac keeps_rewrite f :=
  match goal with
  | |- context [f (?m ?s).2] =>
      let Hk := fresh "Hk" in
      assert (Hk : keeps f m); [|rewrite (Hk s); clear Hk]
  end.

#[export] Hint Resolve keeps_ret keeps_throw keeps_exit keeps_bind keeps_when : js.
#[export] Hint Resolve preserves_ret preserves_throw preserves_exit preserves_bind
  preserves_when : js.

(** ** Lemmas on the array methods *)

Section JsArrayLemmas.
Context {A : Type} `{EqDecision A}.
Implicit Types (l : list A) (x y : A).

Lemma arr_indexOf_from_absent l x k :
  x ∉ l -> arr_indexOf_from l x k = -1.
Proof.
  revert k. induction l as [|y l IH]; intros k Hx; [done|].
  cbn. rewrite decide_False by set_solver. apply IH. set_solver.
Qed.

Lemma arr_indexOf_from_ge l x k :
  arr_indexOf_from l x k = -1 \/ Z.of_nat k <= arr_indexOf_from l x k.
Proof.
  revert k. induction l as [|y l IH]; intros k; cbn; [by left|].
  case_decide; [right; lia|]. destruct (IH (S k)); [by left | right; lia].
Qed.

(** indexOf finds the first occurrence: the element is there and no
    earlier index holds it. *)
Lemma arr_indexOf_from_present l x k :
  x ∈ l -> exists i, arr_indexOf_from l x k = Z.of_nat (k + i) /\
    l !! i = Some x /\ (forall j, (j < i)%nat -> l !! j <> Some x).
Proof.
  revert k. induction l as [|y l IH]; intros k Hx; [set_solver|].
  cbn. case_decide as Hy.
  - subst. exists 0%nat. split; [f_equal; lia|]. split; [done|]. intros j Hj. lia.
  - destruct (IH (S k)) as (i & Hi & Hl & Hfirst); [set_solver|].
    exists (S i). split; [rewrite Hi; f_equal; lia|]. split; [done|].
    intros [|j] Hj; cbn; [congruence|]. apply Hfirst. lia.
Qed.

Lemma arr_indexOf_neg1_iff l x : arr_indexOf l x = -1 <-> x ∉ l.
Proof.
  split; [|apply arr_indexOf_from_absent].
  intros H Hx. destruct (arr_indexOf_from_present l x 0 Hx) as (i & Hi & _).
  unfold arr_indexOf in H. lia.
Qed.

Lemma remove_first_app_absent l x y :
  x ∉ l -> remove_first x (l ++ [y]) = if decide (y = x) then l else l ++ [y].
Proof.
  induction l as [|z l IH]; intros Hx; cbn.
  - by case_decide.
  - rewrite decide_False by set_solver. rewrite IH by set_solver. by case_decide.
Qed.

Lemma remove_first_absent l x : x ∉ l -> remove_first x l = l.
Proof.
  induction l as [|y l IH]; intros Hx; cbn; [done|].
  rewrite decide_False by set_solver. f_equal. apply IH. set_solver.
Qed.

Lemma elem_of_remove_first l x y :
  y ∈ remove_first x l -> y ∈ l.
Proof.
  induction l as [|z l IH]; cbn; [done|].
  case_decide; [set_solver|]. rewrite !elem_of_cons. naive_solver.
Qed.

Lemma NoDup_remove_first l x : NoDup l -> NoDup (remove_first x l).
Proof.
  induction l as [|y l IH]; intros Hnd; cbn; [constructor|].
  apply NoDup_cons in Hnd as [Hy Hnd]. case_decide; [done|].
  constructor; [|by apply IH]. intros Hin. apply Hy. by eapply elem_of_remove_first.
Qed.

(** Under [NoDup], removing the first occurrence removes the element. *)
Lemma elem_of_remove_first_NoDup l x y :
  NoDup l -> y ∈ remove_first x l <-> y ∈ l /\ y <> x.
Proof.
  induction l as [|z l IH]; intros Hnd; cbn; [set_solver|].
  apply NoDup_cons in Hnd as [Hz Hnd]. case_decide; subst.
  - split; [intros; split; [set_solver|]; intros ->; done | set_solver].
  - rewrite !elem_of_cons, IH by done. naive_solver.
Qed.

Lemma NoDup_arr_push l x : NoDup l -> x ∉ l -> NoDup (arr_push l x).
Proof.
  intros Hnd Hx. unfold arr_push. apply NoDup_app. split; [done|].
  split; [set_solver|]. apply NoDup_singleton.
Qed.

(** The removal written in app.js, [splice] at the index found by
    [indexOf], is the removal of the first occurrence. *)
Lemma arr_splice1_indexOf l x :
  x ∈ l -> arr_splice1 l (arr_indexOf l x) = remove_first x l.
Proof.
  intros Hx. destruct (arr_indexOf_from_present l x 0 Hx) as (i & Hi & Hl & Hfirst).
  unfold arr_indexOf, arr_splice1. rewrite Hi.
  pose proof (lookup_lt_Some _ _ _ Hl) as Hlt.
  rewrite (proj2 (Z.ltb_ge _ _)) by lia. rewrite Z.min_l by lia.
  replace (Z.to_nat (Z.of_nat (0 + i))) with i by lia.
  clear Hi. revert i Hl Hfirst Hlt.
  induction l as [|y l IH]; intros [|i] Hl Hfirst Hlt; cbn in *; try lia.
  - injection Hl as ->. by rewrite decide_True.
  - rewrite decide_False; [|intros ->; by apply (Hfirst 0%nat); [lia|]].
    f_equal. apply IH; [apply list_elem_of_lookup; eauto | done | | lia].
    intros j Hj. apply (Hfirst (S j)). lia.
Qed.
End JsArrayLemmas.

#[export] Hint Resolve NoDup_remove_first NoDup_arr_push : js.

(** ** Lemmas on the string methods *)

(** stdpp makes [String.append] opaque to [simpl] and [cbn]: these
    lemmas and [str_app_cons] do the unfolding. *)
Lemma str_app_cons (x : ascii) (a b : string) : String x a +:+ b = String x (a +:+ b).
Proof. reflexivity. Qed.

Lemma str_app_assoc (a b c : string) : (a +:+ b) +:+ c = a +:+ (b +:+ c).
Proof. induction a as [|x a IH]; [done|]. by rewrite !str_app_cons, IH. Qed.

Lemma str_length_app (a b : string) :
  String.length (a +:+ b) = (String.length a + String.length b)%nat.
Proof. induction a as [|x a IH]; [done|]. rewrite str_app_cons. cbn. by rewrite IH. Qed.

#[export] Hint Rewrite str_app_cons str_app_assoc str_length_app : js_rw.

Lemma prefix_append (p r : string) : String.prefix p (p +:+ r) = true.
Proof.
  induction p as [|a p IH]; simpl; [by destruct r|].
  destruct (ascii_dec a a); [exact IH|congruence].
Qed.

Lemma prefix_spec (p s : string) :
  String.prefix p s = true <-> exists r, s = p +:+ r.
Proof.
  revert s. induction p as [|a p IH]; intros s.
  - split; [by exists s | by destruct s].
  - destruct s as [|b s]; simpl; [split; [done | by intros [r ?]]|].
    destruct (ascii_dec a b) as [->|Hab].
    + rewrite IH. split; intros [r Hr]; exists r; [subst; reflexivity | simpl in Hr; injection Hr as ->; reflexivity].
    + split; [done|]. intros [r Hr]. injection Hr as Hba _. congruence.
Qed.

Lemma str_indexOf_from_prefix (s sub : string) k :
  String.prefix sub s = true -> str_indexOf_from s sub k = Z.of_nat k.
Proof. intros H. destruct s; cbn [str_indexOf_from]; by rewrite H. Qed.

Lemma str_indexOf_prefix (p r : string) : str_indexOf (p +:+ r) p = 0.
Proof. apply str_indexOf_from_prefix, prefix_append. Qed.

Lemma substring_0_append (p r : string) :
  String.substring 0 (String.length p) (p +:+ r) = p.
Proof. induction p as [|a p IH]; simpl; [by destruct r | by rewrite IH]. Qed.

Lemma substring_all (s : string) : String.substring 0 (String.length s) s = s.
Proof. induction s as [|a s IH]; simpl; [done | by rewrite IH]. Qed.

Lemma substring_after_append (p r : string) :
  String.substring (String.length p)
    (String.length (p +:+ r) - String.length p) (p +:+ r) = r.
Proof.
  induction p as [|a p IH]; simpl.
  - rewrite Nat.sub_0_r. apply substring_all.
  - exact IH.
Qed.

(** Replacing a prefix by the empty string strips it. *)
Lemma str_replace_prefix (p r : string) : str_replace (p +:+ r) p "" = r.
Proof.
  unfold str_replace. rewrite str_indexOf_prefix. simpl -[String.substring String.length].
  rewrite substring_after_append. by destruct (p +:+ r).
Qed.

#[export] Hint Rewrite str_indexOf_prefix str_replace_prefix prefix_append : js_rw.

(** ** The built-ins against reference definitions *)

(** [sub] occurs in [s]: the reference for [String.prototype.indexOf]. *)
Definition occurs_at (s sub a : string) : Prop := exists b, s = a +:+ sub +:+ b.

Lemma occurs_at_cons (c : Ascii.ascii) s sub a :
  occurs_at (String c s) sub (String c a) <-> occurs_at s sub a.
Proof.
  split; intros [b Hb]; exists b; [by injection Hb | by rewrite Hb].
Qed.

Lemma str_indexOf_from_spec s sub k :
  (str_indexOf_from s sub k = -1 /\ forall a, ~ occurs_at s sub a) \/
  (exists a, occurs_at s sub a /\
     str_indexOf_from s sub k = Z.of_nat (k + String.length a) /\
     forall a', occurs_at s sub a' -> (String.length a <= String.length a')%nat).
Proof.
  revert k. induction s as [|c s IH]; intros k.
  - destruct (String.prefix sub "") eqn:Hp.
    + right. exists "". split; [apply prefix_spec in Hp as [b Hb]; by exists b|].
      split; [cbn [str_indexOf_from]; rewrite Hp; cbn [String.length]; lia|].
      intros a' _. cbn. lia.
    + left. split; [cbn [str_indexOf_from]; by rewrite Hp|].
      intros [|c a] [b Hb]; [|done].
      assert (String.prefix sub "" = true) as Hc by (apply prefix_spec; by exists b).
      congruence.
  - cbn [str_indexOf_from]. destruct (String.prefix sub (String c s)) eqn:Hp.
    + right. exists "". split; [apply prefix_spec in Hp as [b Hb]; by exists b|].
      split; [cbn [String.length]; lia|]. intros a' _. cbn. lia.
    + assert (Hnot0 : ~ occurs_at (String c s) sub "").
      { intros [b Hb]. assert (String.prefix sub (String c s) = true) as Hc
          by (apply prefix_spec; by exists b). congruence. }
      destruct (IH (S k)) as [[Hm Hno]|(a & Ha & Hi & Hmin)].
      * left. split; [done|]. intros [|c' a] Hocc; [done|].
        destruct Hocc as [b Hb]. injection Hb as -> Hb. apply (Hno a). by exists b.
      * right. exists (String c a). split; [by apply occurs_at_cons|].
        split; [rewrite Hi; cbn; f_equal; lia|].
        intros [|c' a'] Hocc; [done|].
        destruct Hocc as [b Hb]. injection Hb as -> Hb.
        cbn. enough (String.length a <= String.length a')%nat by lia.
        apply Hmin. by exists b.
Qed.

(** The model of [String.prototype.indexOf]: [s.indexOf(sub)] is -1 exactly when [sub] does not occur in
    [s], and otherwise the position of its first occurrence. *)
Theorem str_indexOf_first (s sub : string) :
  (str_indexOf s sub = -1 /\ forall a, ~ occurs_at s sub a) \/
  (exists a, occurs_at s sub a /\ str_indexOf s sub = Z.of_nat (String.length a) /\
     forall a', occurs_at s sub a' -> (String.length a <= String.length a')%nat).
Proof. apply (str_indexOf_from_spec s sub 0). Qed.

(** The model of [Array.prototype.indexOf]: [arr.indexOf(x)] is -1 exactly when [x] is not in the array,
    and otherwise the index of its first occurrence. *)
Theorem arr_indexOf_first {A} `{EqDecision A} (l : list A) (x : A) :
  (arr_indexOf l x = -1 /\ x ∉ l) \/
  (exists i, arr_indexOf l x = Z.of_nat i /\ l !! i = Some x /\
     forall j, (j < i)%nat -> l !! j <> Some x).
Proof.
  destruct (decide (x ∈ l)) as [Hx|Hx].
  - right. destruct (arr_indexOf_from_present l x 0 Hx) as (i & Hi & Hl & Hf). by exists i.
  - left. split; [by apply arr_indexOf_neg1_iff|done].
Qed.
