(* ===== verification/Env.v ===== *)
(** * The environment of app.js

    The configuration constants of lines 8-21 ([watsonWork], [appId],
    [appSecret], [folder], [SPACE_ID], [USER_JWT]), the data the program
    receives from Node and the network (file stats, HTTP responses), and
    the interface [Libs] of the libraries app.js calls but does not
    implement: mime-types, image-size and JSON.parse on the two response
    bodies it reads.  The development is parametric in a [Libs] instance;
    [demo_libs] is one instance used to run the model on examples. *)

From Stdlib Require Import Ascii.
From stdpp Require Import base list gmap strings.
From S2P Require Import JsPrelude.

Open Scope Z_scope.

(** ** Configuration (lines 8-21) *)

(** Line 9. *)
Definition watsonWork : string := "https://api.watsonwork.ibm.com".

(** Lines 12-21: [process.env] values are strings or [undefined]
    ([None]); [folder] and [SPACE_ID] are constants of the file. *)
Record config := mkConfig {
  appId : option string;
  appSecret : option string;
  folder : string;
  SPACE_ID : string;
  USER_JWT : option string
}.

(** ** Data delivered by Node and by the network *)

(** The [fs.Stats] fields app.js reads: [curr.size] and [curr.nlink]. *)
Record stat := mkStat { size : N; nlink : N }.

(** The callback of [request(options, (err, response, body) => ...)]:
    on a transport error [response] is undefined; otherwise it carries a
    status code and the body text. *)
Inductive http_response : Type :=
  | HttpError (err : string)
  | HttpResponse (statusCode : Z) (body : string).

(** The result of [imageSize(path)]: [{ height, width }]. *)
Record dims := mkDims { height : N; width : N }.

#[export] Instance stat_eq_dec : EqDecision stat.
Proof. solve_decision. Defined.
#[export] Instance http_response_eq_dec : EqDecision http_response.
Proof. solve_decision. Defined.
#[export] Instance dims_eq_dec : EqDecision dims.
Proof. solve_decision. Defined.

(** ** Libraries called by app.js *)

(** What app.js uses of each library, as functions of their inputs.
    [None] is the library's failure: [false] for [mime.lookup], a thrown
    exception for [imageSize] and for the [JSON.parse] field accesses.
    - [mime_lookup name]: [mime.lookup(name)] (line 61);
    - [image_size path]: [imageSize(path)] (line 64), on the file's
      contents when the handler runs;
    - [json_access_token body]: [JSON.parse(body).access_token] (line 51);
      a body without the field gives the string of [undefined];
    - [json_entry_id body]: [JSON.parse(body).entries[0].id] (line 133),
      as the string the template of line 75 prints. *)
Class Libs := {
  mime_lookup : string -> option string;
  image_size : string -> option dims;
  json_access_token : string -> option string;
  json_entry_id : string -> option string
}.

(** ** An instance to run the model on examples *)

(** The text after the last dot, as [path.extname] without the dot. *)
Fixpoint extension_of (s : string) : option string :=
  match s with
  | EmptyString => None
  | String c s' =>
      match extension_of s' with
      | Some e => Some e
      | None => if Ascii.eqb c "."%char then Some s' else None
      end
  end.

Definition demo_mime (ext : string) : option string :=
  if String.eqb ext "png" then Some "image/png"
  else if String.eqb ext "jpg" then Some "image/jpeg"
  else if String.eqb ext "txt" then Some "text/plain"
  else None.

(** mime types for png/jpg/txt, a 100x50 image everywhere, and response
    bodies that carry the token or file id as their whole text. *)
#[export] Instance demo_libs : Libs := {|
  mime_lookup := fun name => extension_of name ≫= demo_mime;
  image_size := fun _ => Some (mkDims 50 100);
  json_access_token := fun body => Some body;
  json_entry_id := fun body => Some body
|}.

(** A configuration watching [/watch] with application credentials, and
    the same with a user token. *)
Definition demo_config : config :=
  mkConfig (Some "app-id") (Some "app-secret") "/watch" "space-1" None.

Definition demo_config_jwt : config :=
  mkConfig (Some "app-id") (Some "app-secret") "/watch" "space-1" (Some "user-jwt").
