(* ===== verification/Payload.v ===== *)
(** * Payloads built by app.js

    The message object of [sendMessage] (lines 62-88): a versioned
    [appMessage] with a generic annotation carrying the
    [<$file|id|name>] markup and a file annotation with content type,
    id, name, size and image dimensions; and the [attributes] part of the
    multipart upload (line 116), [JSON.stringify({name, space})], with the
    string escaping of ECMAScript's QuoteJSONString. *)

From Stdlib Require Import Ascii.
From stdpp Require Import base list gmap strings.
From S2P Require Import JsPrelude Env.

Open Scope Z_scope.

(** ** The message object (lines 62-88) *)

Inductive annotation : Type :=
  | GenericAnnotation (version : N) (text : string)
  | FileAnnotation (contentType fileId name : string)
                   (version size height width : N).

Record message_data := mkMessageData {
  msg_type : string;
  msg_version : N;
  annotations : list annotation
}.

#[export] Instance annotation_eq_dec : EqDecision annotation.
Proof. solve_decision. Defined.
#[export] Instance message_data_eq_dec : EqDecision message_data.
Proof. solve_decision. Defined.

(** Line 62: the dimensions of a file that is not an image. *)
Definition no_dims : dims := mkDims 0 0.

(** Line 75: ["<\$file|"+fileId+"|"+shortName+">"]; [\$] is [$]. *)
Definition file_markup (fileId shortName : string) : string :=
  "<$file|" +:+ fileId +:+ "|" +:+ shortName +:+ ">".

(** Lines 68-88, [version: 1.0] being the number 1. *)
Definition messageData (fileId shortName mimeType : string) (fileSize : N)
    (d : dims) : message_data :=
  mkMessageData "appMessage" 1
    [GenericAnnotation 1 (file_markup fileId shortName);
     FileAnnotation mimeType fileId shortName 1 fileSize (height d) (width d)].

(** ** JSON.stringify of the upload attributes (line 116) *)

(** The double quote and the backslash as characters. *)
Definition dquote : ascii := "034"%char.
Definition bslash : ascii := "092"%char.

Definition hex_digit (n : nat) : ascii :=
  if (n <? 10)%nat then ascii_of_nat (48 + n) else ascii_of_nat (87 + n).

(** QuoteJSONString for one code unit: the short escapes, [\u00XX] with
    lower-case hex for the other control characters, the character
    itself otherwise. *)
Definition json_escape_char (c : ascii) : string :=
  let n := nat_of_ascii c in
  if (n =? 8)%nat then String bslash "b"
  else if (n =? 9)%nat then String bslash "t"
  else if (n =? 10)%nat then String bslash "n"
  else if (n =? 12)%nat then String bslash "f"
  else if (n =? 13)%nat then String bslash "r"
  else if (n =? 34)%nat then String bslash (String dquote "")
  else if (n =? 92)%nat then String bslash (String bslash "")
  else if (n <? 32)%nat then
    String bslash ("u00" +:+ String (hex_digit (n / 16)) (String (hex_digit (n mod 16)) ""))
  else String c "".

Fixpoint json_escape (s : string) : string :=
  match s with
  | EmptyString => ""
  | String c s' => json_escape_char c +:+ json_escape s'
  end.

Definition json_quote (s : string) : string :=
  String dquote (json_escape s +:+ String dquote "").

(** Line 116: [JSON.stringify({"name":shortName,"space":spaceId})], the
    keys in insertion order and no white space. *)
Definition attributes_json (shortName spaceId : string) : string :=
  "{" +:+ json_quote "name" +:+ ":" +:+ json_quote shortName +:+ ","
      +:+ json_quote "space" +:+ ":" +:+ json_quote spaceId +:+ "}".
