(* ===== verification/Json.v ===== *)
(** * Reading back the upload attributes

    The [attributes] part of the upload (line 116) is the text
    [JSON.stringify({"name":shortName,"space":spaceId})], which the
    files service parses as JSON.  This file holds a JSON reader for
    that text, after RFC 8259: a string literal with its escapes
    ([json_string]) and an object whose members are strings
    ([json_object]).  The reader is the receiving side, not code of
    app.js; it is the reference against which the encoder of [Payload]
    is checked: the service reads back exactly the short name and the
    space identifier, whatever characters they hold. *)

From Stdlib Require Import Ascii.
From stdpp Require Import base list strings.
From S2P Require Import JsPrelude Env Payload.

Module Json.
Local Open Scope nat_scope.

(** ** The reader *)

Definition hex_val (c : ascii) : option nat :=
  let n := nat_of_ascii c in
  if (48 <=? n)%nat && (n <=? 57)%nat then Some (n - 48)%nat
  else if (97 <=? n)%nat && (n <=? 102)%nat then Some (n - 87)%nat
  else if (65 <=? n)%nat && (n <=? 70)%nat then Some (n - 55)%nat
  else None.

(** The character a one-letter escape [\e] stands for. *)
Definition short_escape (e : ascii) : option ascii :=
  match nat_of_ascii e with
  | 34 => Some dquote | 92 => Some bslash | 47 => Some "/"%char
  | 98 => Some (ascii_of_nat 8) | 102 => Some (ascii_of_nat 12)
  | 110 => Some (ascii_of_nat 10) | 114 => Some (ascii_of_nat 13)
  | 116 => Some (ascii_of_nat 9)
  | _ => None
  end.

Definition cons_res (c : ascii) (r : option (string * string)) : option (string * string) :=
  match r with Some (v, rest) => Some (String c v, rest) | None => None end.

(** The characters of a string literal after its opening quote, up to
    and without the closing quote; with what follows it.  Control
    characters must be escaped; a [\uXXXX] escape beyond one byte is
    refused, as the model's strings are byte strings. *)
Fixpoint json_string_body (s : string) : option (string * string) :=
  match s with
  | EmptyString => None
  | String c s' =>
      if Ascii.eqb c dquote then Some (EmptyString, s')
      else if Ascii.eqb c bslash then
        match s' with
        | EmptyString => None
        | String e s'' =>
            if Ascii.eqb e "u"%char then
              match s'' with
              | String h1 (String h2 (String h3 (String h4 rest))) =>
                  match hex_val h1, hex_val h2, hex_val h3, hex_val h4 with
                  | Some a, Some b, Some c, Some d =>
                      let n := (((a * 16 + b) * 16 + c) * 16 + d)%nat in
                      if (n <? 256)%nat then cons_res (ascii_of_nat n) (json_string_body rest)
                      else None
                  | _, _, _, _ => None
                  end
              | _ => None
              end
            else match short_escape e with
                 | Some c' => cons_res c' (json_string_body s'')
                 | None => None
                 end
        end
      else if (nat_of_ascii c <? 32)%nat then None
      else cons_res c (json_string_body s')
  end.

Definition json_string (s : string) : option (string * string) :=
  match s with
  | String c s' => if Ascii.eqb c dquote then json_string_body s' else None
  | EmptyString => None
  end.

(** The members of an object after its opening brace, [fuel] bounding
    their number. *)
Fixpoint json_members (fuel : nat) (s : string) : option (list (string * string) * string) :=
  match fuel with
  | O => None
  | S fuel' =>
      match json_string s with
      | Some (k, String col r) =>
          if Ascii.eqb col ":"%char then
            match json_string r with
            | Some (v, String sep r') =>
                if Ascii.eqb sep ","%char then
                  match json_members fuel' r' with
                  | Some (ms, rest) => Some ((k, v) :: ms, rest)
                  | None => None
                  end
                else if Ascii.eqb sep "}"%char then Some ([(k, v)], r')
                else None
            | _ => None
            end
          else None
      | _ => None
      end
  end.

(** An object of string members; a member takes at least six
    characters, so the length of the text is enough fuel. *)
Definition json_object (s : string) : option (list (string * string) * string) :=
  match s with
  | String c r =>
      if Ascii.eqb c "{"%char then
        match r with
        | String c' r' => if Ascii.eqb c' "}"%char then Some ([], r') else json_members (String.length r) r
        | EmptyString => None
        end
      else None
  | EmptyString => None
  end.

(** ** Reading back what [JSON.stringify] writes *)

Lemma json_escape_cons c s : json_escape (String c s) = json_escape_char c +:+ json_escape s.
Proof. reflexivity. Qed.

(** One escaped byte reads back as that byte: a check over the 256
    bytes. *)
Lemma json_string_body_escape_char c s :
  json_string_body (json_escape_char c +:+ s) = cons_res c (json_string_body s).
Proof. destruct c as [[] [] [] [] [] [] [] []]; reflexivity. Qed.

Lemma json_string_body_escape s rest :
  json_string_body (json_escape s +:+ String dquote rest) = Some (s, rest).
Proof.
  induction s as [|c s IH]; [reflexivity|].
  by rewrite json_escape_cons, str_app_assoc, json_string_body_escape_char, IH.
Qed.

(** A quoted string reads back as itself, whatever follows it. *)
Lemma json_string_quote s rest : json_string (json_quote s +:+ rest) = Some (s, rest).
Proof.
  unfold json_quote. rewrite str_app_cons, str_app_assoc.
  exact (json_string_body_escape s rest).
Qed.

Lemma attributes_json_split shortName spaceId rest :
  attributes_json shortName spaceId +:+ rest =
    String "{" (json_quote "name" +:+ String ":" (json_quote shortName +:+ String ","
      (json_quote "space" +:+ String ":" (json_quote spaceId +:+ String "}" rest)))).
Proof. unfold attributes_json. by rewrite !str_app_assoc. Qed.

Lemma json_quote_length s : (2 <= String.length (json_quote s))%nat.
Proof. unfold json_quote. cbn. rewrite str_length_app. cbn. lia. Qed.

(** C13: the service reads the [attributes] part of the upload back as
    an object with exactly the members [name], the short name, and
    [space], the space identifier, in this order, whatever bytes they
    hold (quotes, backslashes and control characters included), and
    reads nothing past its closing brace. *)
Theorem attributes_json_roundtrip shortName spaceId rest :
  json_object (attributes_json shortName spaceId +:+ rest) =
    Some ([("name", shortName); ("space", spaceId)], rest).
Proof.
  rewrite attributes_json_split. cbn [json_object Ascii.eqb Bool.eqb].
  set (r := json_quote "name" +:+ _).
  assert (Hl : (2 <= String.length r)%nat)
    by (subst r; rewrite str_length_app; pose proof (json_quote_length "name"); lia).
  destruct (String.length r) as [|[|k]] eqn:E; [lia|lia|]. subst r.
  cbn [json_members]. rewrite json_string_quote. cbn [Ascii.eqb Bool.eqb].
  rewrite json_string_quote. cbn [Ascii.eqb Bool.eqb].
  rewrite json_string_quote. cbn [Ascii.eqb Bool.eqb].
  rewrite json_string_quote. reflexivity.
Qed.

End Json.
