(* ===== verification/Proc.v ===== *)
(** * The state of the running Node process

    app.js keeps one mutable global, the [pending] array (line 145).  The
    rest of its state lives in the event loop: the callbacks registered
    with [request], [form.submit] and [res.on('data')] that wait for I/O,
    the requests sent to the network, the console output, and whether the
    process still runs.  [proc] holds all of it; the callbacks are kept
    as data ([task], [auth_cont]), the defunctionalised closures of the
    source, under the identifier the event loop uses to deliver their
    completion.  The primitive operations on [proc] are written in the
    handler monad of [JsPrelude]. *)

From stdpp Require Import base list gmap strings.
From S2P Require Import JsPrelude Env Payload.

Open Scope Z_scope.

(** ** Closures waiting for I/O *)

(** The callback passed to [authenticateApp]: the one of [uploadFile]
    (lines 121-142), which holds the multipart form built on lines
    117-119, or the one of [sendMessage] (lines 92-110), which holds the
    message object. *)
Record form_data := mkForm {
  form_file : string;          (** [fs.createReadStream(fileName)] *)
  form_attributes : string     (** the [attributes] JSON part *)
}.

Inductive auth_cont : Type :=
  | KUpload (spaceId fileName : string) (fileSize : N) (form : form_data)
  | KMessage (spaceId : string) (msg : message_data).

(** A callback registered with the event loop. *)
Inductive task : Type :=
  | TAuth (k : auth_cont)
      (** [request(authenticationOptions, cb)] of line 45 *)
  | TSubmit (spaceId fileName : string) (fileSize : N)
      (** [form.submit(options, cb)] of line 122 *)
  | TStream (spaceId fileName : string) (fileSize : N)
      (** the ['data'] listener of line 131 on the upload response *)
  | TPost
      (** [request(sendMessageOptions, cb)] of line 103 *).

(** ** Requests sent and console output *)

Inductive request : Type :=
  | ReqToken (url : string) (user pass : option string) (grant_type : string)
      (** lines 33-43: POST with basic auth and a form body *)
  | ReqUpload (host path authorization : string) (form : form_data)
      (** lines 122-127: multipart POST *)
  | ReqMessage (url authorization : string) (json : message_data)
      (** lines 94-101: POST of the message object *).

(** What the [console.log] calls print. *)
Inductive log_entry : Type :=
  | LogText (s : string)
  | LogMessage (m : message_data)                 (** line 89 *)
  | LogStatus (code : Z)                          (** line 106 *)
  | LogErr (err : option string)                  (** line 107 *)
  | LogSendError (err : string)                   (** line 129 *)
  | LogFileEvent (what f : string) (curr prev : option stat).  (** 153-159 *)

(** The process runs until [process.exit] or an uncaught exception. *)
Inductive run_status : Type :=
  | Running
  | Exited (code : Z)
  | Crashed (e : exn).

#[export] Instance form_data_eq_dec : EqDecision form_data.
Proof. solve_decision. Defined.
#[export] Instance auth_cont_eq_dec : EqDecision auth_cont.
Proof. solve_decision. Defined.
#[export] Instance task_eq_dec : EqDecision task.
Proof. solve_decision. Defined.
#[export] Instance request_eq_dec : EqDecision request.
Proof. solve_decision. Defined.
#[export] Instance log_entry_eq_dec : EqDecision log_entry.
Proof. solve_decision. Defined.
#[export] Instance run_status_eq_dec : EqDecision run_status.
Proof. solve_decision. Defined.

Record proc := mkProc {
  pending : list string;
  tasks : gmap nat task;
  next_task : nat;
  sent : list request;
  console : list log_entry;
  status : run_status
}.

(** The process when the watch starts: [const pending = []]. *)
Definition init_proc : proc := mkProc [] ∅ 0 [] [] Running.

(** ** Field updates *)

Definition set_pending (l : list string) (s : proc) : proc :=
  mkProc l (tasks s) (next_task s) (sent s) (console s) (status s).
Definition set_tasks (m : gmap nat task) (s : proc) : proc :=
  mkProc (pending s) m (next_task s) (sent s) (console s) (status s).
Definition set_status (st : run_status) (s : proc) : proc :=
  mkProc (pending s) (tasks s) (next_task s) (sent s) (console s) st.

(** ** Primitive operations *)

(** [console.log(...)]. *)
Definition console_log (e : log_entry) : St proc unit :=
  modify (fun s => mkProc (pending s) (tasks s) (next_task s) (sent s)
                      (console s ++ [e]) (status s)).

(** Send [r] and register the callback [t] that its completion runs;
    the identifier is fresh. *)
Definition issue (r : request) (t : task) : St proc nat :=
  fun s => (Ok (next_task s),
            mkProc (pending s) (<[next_task s := t]> (tasks s)) (S (next_task s))
                   (sent s ++ [r]) (console s) (status s)).

(** A callback that has run and will not run again. *)
Definition retire (id : nat) : St proc unit :=
  modify (fun s => set_tasks (delete id (tasks s)) s).

(** The callback [id] replaced by [t] (a response stream that now has
    its ['data'] listener). *)
Definition rearm (id : nat) (t : task) : St proc unit :=
  modify (fun s => set_tasks (<[id := t]> (tasks s)) s).

(** The [Authorization] header of lines 98 and 126. *)
Definition bearer (jwt : string) : string := "Bearer " +:+ jwt.

(** ** Lemmas on the primitives *)

Lemma console_log_run e s :
  console_log e s = (Ok tt, mkProc (pending s) (tasks s) (next_task s) (sent s)
                               (console s ++ [e]) (status s)).
Proof. reflexivity. Qed.

Lemma issue_run r t s :
  issue r t s = (Ok (next_task s),
    mkProc (pending s) (<[next_task s := t]> (tasks s)) (S (next_task s))
           (sent s ++ [r]) (console s) (status s)).
Proof. reflexivity. Qed.

#[export] Hint Rewrite console_log_run issue_run : js_rw.

(** ** Frame conditions of the primitives *)

Lemma console_log_keeps_pending e : keeps pending (console_log e).
Proof. done. Qed.
Lemma issue_keeps_pending r t : keeps pending (issue r t).
Proof. done. Qed.
Lemma retire_keeps_pending id : keeps pending (retire id).
Proof. done. Qed.
Lemma rearm_keeps_pending id t : keeps pending (rearm id t).
Proof. done. Qed.

#[export] Hint Resolve console_log_keeps_pending issue_keeps_pending
  retire_keeps_pending rearm_keeps_pending : js.
