(* ===== verification/Auth.v ===== *)
(** * Authenticator: [authenticateApp] (src/app.js lines 23-53)

    [authenticateApp(callback)] calls [callback(USER_JWT)] at once when
    the user token is truthy; otherwise it sends the client-credentials
    request and registers the response callback.  That callback exits the
    process on a status other than 200 and otherwise calls [callback]
    with [JSON.parse(body).access_token].

    The callbacks are first-order data ([auth_cont]); running one is the
    Section variable [resume], which [Upload] instantiates with the two
    closures of the source.  The theorems say which of the two paths is
    taken, that the user-token path sends no token request, and what the
    response callback does on each kind of response. *)

From stdpp Require Import base list gmap strings.
From S2P Require Import JsPrelude Env Payload Proc.

Open Scope Z_scope.

Module Auth.
Section Auth.
Context (cfg : config) `{!Libs}.
Variable resume : auth_cont -> string -> St proc unit.

(** Lines 31-43: the token request. *)
Definition authenticationOptions : request :=
  ReqToken (watsonWork +:+ "/" +:+ "oauth/token")
           (appId cfg) (appSecret cfg) "client_credentials".

(** Lines 24-53 up to the response: [if(USER_JWT) return callback(USER_JWT)]
    and otherwise [request(authenticationOptions, ...)]. *)
Definition authenticateApp (k : auth_cont) : St proc unit :=
  if js_truthy_str (USER_JWT cfg) then resume k (default "" (USER_JWT cfg))
  else _ ← issue authenticationOptions (TAuth k); mret tt.

(** Lines 45-52: the response callback.  With a transport error
    [response] is undefined and [response.statusCode] throws. *)
Definition on_token_response (k : auth_cont) (r : http_response) : St proc unit :=
  match r with
  | HttpError _ => throw (TypeError "Cannot read properties of undefined (reading 'statusCode')")
  | HttpResponse code body =>
      if negb (code =? 200) then
        console_log (LogText "Error authentication application. Exiting.");;
        exit 1
      else match json_access_token body with
           | Some jwt => resume k jwt
           | None => throw (SyntaxError "JSON.parse")
           end
  end.

(** ** Functional behaviour *)

Section Truthy.
Hypothesis Hjwt : js_truthy_str (USER_JWT cfg) = true.

Lemma authenticateApp_user_token k s :
  exists jwt, USER_JWT cfg = Some jwt /\ authenticateApp k s = resume k jwt s.
Proof.
  unfold authenticateApp. rewrite Hjwt.
  destruct (USER_JWT cfg) as [jwt|]; [by exists jwt | done].
Qed.
End Truthy.

Lemma authenticateApp_exchange k s :
  js_truthy_str (USER_JWT cfg) = false ->
  authenticateApp k s =
    (Ok tt, mkProc (pending s) (<[next_task s := TAuth k]> (tasks s)) (S (next_task s))
                   (sent s ++ [authenticationOptions]) (console s) (status s)).
Proof. intros Hf. unfold authenticateApp. by rewrite Hf. Qed.

Lemma on_token_response_reject k code body s :
  code <> 200 ->
  on_token_response k (HttpResponse code body) s =
    (Exit 1, mkProc (pending s) (tasks s) (next_task s) (sent s)
               (console s ++ [LogText "Error authentication application. Exiting."])
               (status s)).
Proof.
  intros Hc. unfold on_token_response.
  rewrite (proj2 (Z.eqb_neq _ _) Hc). reflexivity.
Qed.

Lemma on_token_response_accept k body jwt s :
  json_access_token body = Some jwt ->
  on_token_response k (HttpResponse 200 body) s = resume k jwt s.
Proof. intros Hj. unfold on_token_response. cbn. by rewrite Hj. Qed.

(** C26: with a non-empty [USER_JWT], [authenticateApp] runs its
    callback at once with that exact token: no request is sent and no
    callback is registered. *)
Theorem user_token_short_circuit jwt k s :
  USER_JWT cfg = Some jwt -> jwt <> "" -> authenticateApp k s = resume k jwt s.
Proof.
  intros Hj Hne. unfold authenticateApp. rewrite Hj.
  destruct jwt as [|c rest]; [done|]. reflexivity.
Qed.

(** C27: [USER_JWT] set to the empty string is falsy in [if(USER_JWT)]:
    the program falls back to the client-credentials exchange. *)
Theorem empty_user_token_exchanges k s :
  USER_JWT cfg = Some "" ->
  authenticateApp k s =
    (Ok tt, mkProc (pending s) (<[next_task s := TAuth k]> (tasks s)) (S (next_task s))
                   (sent s ++ [authenticationOptions]) (console s) (status s)).
Proof. intros Hj. apply authenticateApp_exchange. by rewrite Hj. Qed.

(** ** Frame: authentication does not touch [pending] *)

Section Frame.
Hypothesis resume_keeps_pending : forall k jwt, keeps pending (resume k jwt).

Lemma authenticateApp_keeps_pending k : keeps pending (authenticateApp k).
Proof. unfold authenticateApp. destruct (js_truthy_str _); eauto with js. Qed.

Lemma on_token_response_keeps_pending k r : keeps pending (on_token_response k r).
Proof.
  unfold on_token_response.
  destruct r as [|code body]; [|destruct (negb _); [|destruct (json_access_token body)]];
    eauto with js.
Qed.
End Frame.
End Auth.

(** ** Witnesses *)

(** A callback that does nothing, to run [authenticateApp] alone. *)
Definition noop_resume : auth_cont -> string -> St proc unit := fun _ _ => mret tt.

Lemma user_token_short_circuit_witness :
  USER_JWT demo_config_jwt = Some "user-jwt" /\ "user-jwt" <> "" /\
  authenticateApp demo_config_jwt noop_resume (KMessage "space-1" (mkMessageData "appMessage" 1 []))
    init_proc = noop_resume (KMessage "space-1" (mkMessageData "appMessage" 1 [])) "user-jwt" init_proc.
Proof.
  assert (H1 : USER_JWT demo_config_jwt = Some "user-jwt") by reflexivity.
  assert (H2 : "user-jwt" <> "") by discriminate.
  split; [exact H1|]. split; [exact H2|].
  exact (user_token_short_circuit demo_config_jwt _ "user-jwt" _ init_proc H1 H2).
Defined.

Lemma empty_user_token_exchanges_witness :
  let cfg := mkConfig (Some "app-id") (Some "app-secret") "/watch" "space-1" (Some "") in
  let k := KMessage "space-1" (mkMessageData "appMessage" 1 []) in
  USER_JWT cfg = Some "" /\
  authenticateApp cfg noop_resume k init_proc =
    (Ok tt, mkProc [] (<[0%nat := TAuth k]> ∅) 1 ([] ++ [authenticationOptions cfg]) [] Running).
Proof.
  intros cfg k. assert (H : USER_JWT cfg = Some "") by reflexivity.
  split; [exact H | exact (empty_user_token_exchanges cfg _ k init_proc H)].
Defined.
End Auth.
