(* ===== verification/Message.v ===== *)
(** * Message composer: [sendMessage] (src/app.js lines 55-111)

    [sendMessage(spaceId, fileId, fileName, fileSize)] strips [folder]
    from the path with [String.prototype.replace], looks the MIME type up,
    reads the image dimensions when the type contains ["image"], builds
    the message object, logs it, and authenticates with a callback that
    posts the message; the post's callback logs a status other than 201.

    [mime.lookup] answers [false] for an unknown extension and
    [false.indexOf] throws: the model keeps that exception.  The theorems
    give the message built on each branch, the exception, and the
    behaviour of the post's callback, including a transport error, on
    which [response.statusCode] throws. *)

From stdpp Require Import base list gmap strings.
From S2P Require Import JsPrelude Env Payload Proc Auth.

Open Scope Z_scope.

Module Message.
Section Message.
Context (cfg : config) `{!Libs}.
Variable resume : auth_cont -> string -> St proc unit.

(** Lines 60 and 115: [fileName.replace(folder, '')]. *)
Definition shortName_of (fileName : string) : string :=
  str_replace fileName (folder cfg) "".

(** Line 59. *)
Definition spacesAPI (spaceId : string) : string :=
  "v1/spaces/" +:+ spaceId +:+ "/messages".

(** Line 63: [mimeType.indexOf('image') > -1]. *)
Definition is_image_type (mimeType : string) : bool :=
  bool_decide (str_indexOf mimeType "image" > -1).

(** Lines 62-65: [imageSize(fileName)] for an image, [{0, 0}] otherwise. *)
Definition dimensions_of (fileName mimeType : string) : St proc dims :=
  if is_image_type mimeType then
    match image_size fileName with
    | Some d => mret d
    | None => throw (LibError "imageSize")
    end
  else mret no_dims.

(** Lines 94-109 up to the response: the callback given to
    [authenticateApp] posts the message with the token. *)
Definition post_message (spaceId : string) (msg : message_data) (jwt : string)
    : St proc unit :=
  _ ← issue (ReqMessage (watsonWork +:+ "/" +:+ spacesAPI spaceId) (bearer jwt) msg) TPost;
  mret tt.

(** Lines 103-109: the post's callback.  [err] is [null] when a
    response arrived. *)
Definition on_post_response (r : http_response) : St proc unit :=
  match r with
  | HttpError _ => throw (TypeError "Cannot read properties of undefined (reading 'statusCode')")
  | HttpResponse code _ =>
      when (negb (code =? 201))
        (console_log (LogText "Error posting newrelic information.");;
         console_log (LogStatus code);;
         console_log (LogErr None))
  end.

(** Lines 56-111. *)
Definition sendMessage (spaceId fileId fileName : string) (fileSize : N)
    : St proc unit :=
  let shortName := shortName_of fileName in
  match mime_lookup shortName with
  | None => throw (TypeError "mimeType.indexOf is not a function")
  | Some mimeType =>
      d ← dimensions_of fileName mimeType;
      let msg := messageData fileId shortName mimeType fileSize d in
      console_log (LogMessage msg);;
      Auth.authenticateApp cfg resume (KMessage spaceId msg)
  end.

(** ** Functional behaviour *)

(** The dimensions [sendMessage] puts in the message, when it gets that
    far: the image's for a type containing ["image"], zero otherwise. *)
Definition message_dims (fileName mimeType : string) : option dims :=
  if is_image_type mimeType then image_size fileName else Some no_dims.

Lemma dimensions_of_ok fileName mimeType d s :
  message_dims fileName mimeType = Some d -> dimensions_of fileName mimeType s = (Ok d, s).
Proof.
  unfold message_dims, dimensions_of. destruct (is_image_type _); [|by intros [= ->]].
  by intros ->.
Qed.

Lemma sendMessage_unfold spaceId fileId fileName fileSize mimeType d s :
  mime_lookup (shortName_of fileName) = Some mimeType ->
  message_dims fileName mimeType = Some d ->
  let msg := messageData fileId (shortName_of fileName) mimeType fileSize d in
  sendMessage spaceId fileId fileName fileSize s =
    Auth.authenticateApp cfg resume (KMessage spaceId msg) (console_log (LogMessage msg) s).2.
Proof.
  intros Hm Hd msg. unfold sendMessage. rewrite Hm.
  by rewrite (st_bind_ok _ _ _ d s (dimensions_of_ok _ _ _ s Hd)).
Qed.

(** [mime.lookup] answers [false]: [false.indexOf] throws before
    anything else happens. *)
Lemma sendMessage_unknown_type spaceId fileId fileName fileSize s :
  mime_lookup (shortName_of fileName) = None ->
  sendMessage spaceId fileId fileName fileSize s =
    (Throw (TypeError "mimeType.indexOf is not a function"), s).
Proof. intros Hm. unfold sendMessage. by rewrite Hm. Qed.

(** [sendMessage] either throws before any effect, or logs the message
    and authenticates with the message's closure. *)
Lemma sendMessage_cases spaceId fileId fileName fileSize s :
  (exists e, sendMessage spaceId fileId fileName fileSize s = (Throw e, s)) \/
  exists m d, let msg := messageData fileId (shortName_of fileName) m fileSize d in
    sendMessage spaceId fileId fileName fileSize s =
      Auth.authenticateApp cfg resume (KMessage spaceId msg) (console_log (LogMessage msg) s).2.
Proof.
  destruct (mime_lookup (shortName_of fileName)) as [m|] eqn:Hm;
    [|left; eexists; by apply sendMessage_unknown_type].
  destruct (message_dims fileName m) as [d|] eqn:Hd; [right; exists m, d; by apply sendMessage_unfold|].
  left. eexists. unfold sendMessage. rewrite Hm. unfold message_dims in Hd. unfold dimensions_of.
  destruct (is_image_type m); [|done]. by rewrite Hd.
Qed.

(** C25: [replace] with the folder removes it from the front of any
    path under it, leaving the rest unchanged. *)
Theorem shortName_strips_folder rest : shortName_of (folder cfg +:+ rest) = rest.
Proof. apply str_replace_prefix. Qed.

(** C29: the test of line 63 is substring search: a MIME type counts as
    an image exactly when ["image"] occurs anywhere in it. *)
Theorem is_image_type_iff mimeType :
  is_image_type mimeType = true <-> exists a, occurs_at mimeType "image" a.
Proof.
  unfold is_image_type, str_indexOf. rewrite bool_decide_eq_true.
  destruct (str_indexOf_from_spec mimeType "image" 0) as [[-> Hno]|(a & Ha & -> & _)].
  - split; [lia|]. intros [a Ha]. by destruct (Hno a).
  - split; [intros _; by exists a | lia].
Qed.

(** C24: the message [sendMessage] logs and then posts: the generic
    annotation's text is [<$file|fileId|shortName>], the file annotation
    carries the MIME type, the id, the short name, the size, and the
    image's height and width when the type contains ["image"], 0 and 0
    otherwise. *)
Theorem sendMessage_payload spaceId fileId fileName fileSize mimeType s :
  mime_lookup (shortName_of fileName) = Some mimeType ->
  is_image_type mimeType = false \/ is_Some (image_size fileName) ->
  exists d, (if is_image_type mimeType then image_size fileName = Some d else d = no_dims) /\
  let msg := mkMessageData "appMessage" 1
    [GenericAnnotation 1 ("<$file|" +:+ fileId +:+ "|" +:+ shortName_of fileName +:+ ">");
     FileAnnotation mimeType fileId (shortName_of fileName) 1 fileSize (height d) (width d)] in
  sendMessage spaceId fileId fileName fileSize s =
    Auth.authenticateApp cfg resume (KMessage spaceId msg) (console_log (LogMessage msg) s).2.
Proof.
  intros Hm Himg.
  assert (Hd : exists d, message_dims fileName mimeType = Some d /\
            (if is_image_type mimeType then image_size fileName = Some d else d = no_dims)).
  { unfold message_dims. destruct (is_image_type mimeType); [|by eexists].
    destruct Himg as [|[d Hd]]; [done|]. by exists d. }
  destruct Hd as (d & Hd & Hdef). exists d. split; [done|].
  exact (sendMessage_unfold spaceId fileId fileName fileSize mimeType d s Hm Hd).
Qed.

(** ** Frame: composing and posting a message does not touch [pending] *)

Lemma post_message_keeps_pending spaceId msg jwt :
  keeps pending (post_message spaceId msg jwt).
Proof. unfold post_message. eauto with js. Qed.

Lemma on_post_response_keeps_pending r : keeps pending (on_post_response r).
Proof. unfold on_post_response. destruct r; eauto with js. Qed.

Lemma dimensions_of_keeps_pending fileName mimeType :
  keeps pending (dimensions_of fileName mimeType).
Proof.
  unfold dimensions_of. destruct (is_image_type _); [destruct (image_size _)|]; eauto with js.
Qed.

Section Frame.
Hypothesis resume_keeps_pending : forall k jwt, keeps pending (resume k jwt).

Lemma sendMessage_keeps_pending spaceId fileId fileName fileSize :
  keeps pending (sendMessage spaceId fileId fileName fileSize).
Proof.
  unfold sendMessage. destruct (mime_lookup _); [|eauto with js].
  apply keeps_bind; [apply dimensions_of_keeps_pending|]. intros d.
  apply keeps_bind; [eauto with js|]. intros [].
  by apply Auth.authenticateApp_keeps_pending.
Qed.
End Frame.
End Message.


(** ** Witness *)

Lemma sendMessage_payload_witness :
  mime_lookup (shortName_of demo_config "/watch/photo.jpg") = Some "image/jpeg" /\
  (is_image_type "image/jpeg" = false \/ is_Some (image_size "/watch/photo.jpg")) /\
  exists d, (if is_image_type "image/jpeg" then image_size "/watch/photo.jpg" = Some d else d = no_dims) /\
  let msg := mkMessageData "appMessage" 1
    [GenericAnnotation 1 ("<$file|" +:+ "42" +:+ "|" +:+ shortName_of demo_config "/watch/photo.jpg" +:+ ">");
     FileAnnotation "image/jpeg" "42" (shortName_of demo_config "/watch/photo.jpg") 1 2048 (height d) (width d)] in
  sendMessage demo_config (fun _ _ => mret tt) "space-1" "42" "/watch/photo.jpg" 2048 init_proc =
    Auth.authenticateApp demo_config (fun _ _ => mret tt) (KMessage "space-1" msg)
      (console_log (LogMessage msg) init_proc).2.
Proof.
  assert (H1 : mime_lookup (shortName_of demo_config "/watch/photo.jpg") = Some "image/jpeg")
    by (vm_compute; reflexivity).
  assert (H2 : is_image_type "image/jpeg" = false \/ is_Some (image_size "/watch/photo.jpg"))
    by (right; eexists; reflexivity).
  split; [exact H1|]. split; [exact H2|].
  exact (sendMessage_payload demo_config _ "space-1" "42" "/watch/photo.jpg" 2048 "image/jpeg" init_proc H1 H2).
Defined.
End Message.
