(* ===== verification/Upload.v ===== *)
(** * File uploader: [uploadFile] (src/app.js lines 113-143)

    [uploadFile(spaceId, fileName, fileSize)] builds a multipart form
    (the file's read stream and the JSON attributes), authenticates, and
    submits the form with the token.  The submit callback logs a
    transport error; otherwise it listens for ['data'] on the response,
    and each chunk is parsed for [entries[0].id], handed to [sendMessage],
    and then [fileName] is removed from [pending].

    [resume] runs the two closures passed to [authenticateApp]: this is
    where the Auth, Message and Upload components meet. *)

From stdpp Require Import base list gmap strings.
From S2P Require Import JsPrelude Env Payload Proc Auth Message.

Open Scope Z_scope.

Module Upload.
Section Upload.
Context (cfg : config) `{!Libs}.

(** Line 114. *)
Definition filesAPI : string := "/files/api/v1/files/file/".

(** Lines 122-127 up to the response: [form.submit] with the token. *)
Definition form_submit (spaceId fileName : string) (fileSize : N)
    (form : form_data) (jwt : string) : St proc unit :=
  _ ← issue (ReqUpload "api.watsonwork.ibm.com" filesAPI (bearer jwt) form)
            (TSubmit spaceId fileName fileSize);
  mret tt.

(** The closures given to [authenticateApp]: lines 121-142 for an
    upload, lines 92-110 for a message. *)
Definition resume (k : auth_cont) (jwt : string) : St proc unit :=
  match k with
  | KUpload spaceId fileName fileSize form => form_submit spaceId fileName fileSize form jwt
  | KMessage spaceId msg => Message.post_message spaceId msg jwt
  end.

(** Lines 115-119: the form. *)
Definition upload_form (spaceId fileName : string) : form_data :=
  mkForm fileName (attributes_json (Message.shortName_of cfg fileName) spaceId).

(** Lines 113-143. *)
Definition uploadFile (spaceId fileName : string) (fileSize : N) : St proc unit :=
  Auth.authenticateApp cfg resume
    (KUpload spaceId fileName fileSize (upload_form spaceId fileName)).

(** Lines 134-137: [indexOf], then [splice(index, 1)] when found. *)
Definition remove_pending (fileName : string) : St proc unit :=
  modify (fun s =>
    let index := arr_indexOf (pending s) fileName in
    if bool_decide (index <> -1) then set_pending (arr_splice1 (pending s) index) s
    else s).

(** Lines 127-141: the submit callback of task [id].  On success the
    response stream keeps a ['data'] listener. *)
Definition on_submit (id : nat) (spaceId fileName : string) (fileSize : N)
    (err : option string) : St proc unit :=
  match err with
  | Some e => console_log (LogSendError e)
  | None => rearm id (TStream spaceId fileName fileSize)
  end.

(** Lines 131-138: the ['data'] listener, run once per chunk. *)
Definition on_data (spaceId fileName : string) (fileSize : N) (body : string)
    : St proc unit :=
  console_log (LogText ("BODY: " +:+ body));;
  match json_entry_id body with
  | None => throw (SyntaxError "JSON.parse")
  | Some fileId =>
      Message.sendMessage cfg resume spaceId fileId fileName fileSize;;
      remove_pending fileName
  end.

(** ** Frame and effect on [pending] *)

Lemma resume_keeps_pending k jwt : keeps pending (resume k jwt).
Proof.
  destruct k; cbn [resume];
    [unfold form_submit; eauto with js | apply Message.post_message_keeps_pending].
Qed.

Lemma uploadFile_keeps_pending spaceId fileName fileSize :
  keeps pending (uploadFile spaceId fileName fileSize).
Proof. apply Auth.authenticateApp_keeps_pending, resume_keeps_pending. Qed.

Lemma on_submit_keeps_pending id spaceId fileName fileSize err :
  keeps pending (on_submit id spaceId fileName fileSize err).
Proof. unfold on_submit. destruct err; eauto with js. Qed.

(** The removal of lines 134-137 removes the first occurrence, and does
    nothing when the path is absent. *)
Lemma remove_pending_run fileName s :
  remove_pending fileName s = (Ok tt, set_pending (remove_first fileName (pending s)) s).
Proof.
  unfold remove_pending, modify. case_bool_decide as Hi.
  - rewrite arr_splice1_indexOf; [done|].
    destruct (decide (fileName ∈ pending s)) as [|Hn]; [done|].
    by apply arr_indexOf_neg1_iff in Hn.
  - apply arr_indexOf_neg1_iff in Hi. rewrite remove_first_absent by done.
    by destruct s.
Qed.

Lemma remove_pending_effect fileName s :
  pending (remove_pending fileName s).2 = remove_first fileName (pending s).
Proof. by rewrite remove_pending_run. Qed.

(** C28: with [pending] free of duplicates, lines 134-137 remove exactly
    the given path: every other path keeps its membership. *)
Theorem remove_pending_removes fileName s g :
  NoDup (pending s) ->
  g ∈ pending (remove_pending fileName s).2 <-> g ∈ pending s /\ g <> fileName.
Proof.
  intros Hnd. rewrite remove_pending_run. cbn. by apply elem_of_remove_first_NoDup.
Qed.

(** A chunk removes the path when the listener runs to its end, and
    leaves [pending] as it was when parsing or [sendMessage] throws
    before the removal. *)
Lemma on_data_outcome_pending spaceId fileName fileSize body s :
  pending (on_data spaceId fileName fileSize body s).2 =
    match (on_data spaceId fileName fileSize body s).1 with
    | Ok _ => remove_first fileName (pending s)
    | _ => pending s
    end.
Proof.
  unfold on_data. rewrite (st_bind_ok _ _ _ tt _ (console_log_run _ _)).
  destruct (json_entry_id body) as [fileId|]; [|done].
  unfold mbind, St_bind.
  pose proof (Message.sendMessage_keeps_pending cfg resume resume_keeps_pending
                spaceId fileId fileName fileSize (console_log (LogText ("BODY: " +:+ body)) s).2)
    as Hkeep.
  destruct (Message.sendMessage _ _ _ _ _ _ _) as [[[]|e|c] s']; cbn -[remove_pending] in Hkeep |- *;
    [rewrite remove_pending_run; cbn; by rewrite Hkeep|done..].
Qed.

Lemma on_data_pending spaceId fileName fileSize body s :
  pending (on_data spaceId fileName fileSize body s).2 = pending s \/
  pending (on_data spaceId fileName fileSize body s).2 = remove_first fileName (pending s).
Proof. rewrite on_data_outcome_pending. destruct (on_data _ _ _ _ _).1; auto. Qed.
End Upload.

Lemma remove_pending_removes_witness :
  let s := mkProc ["/watch/a.txt"; "/watch/b.png"] ∅ 0 [] [] Running in
  NoDup (pending s) /\
  ("/watch/b.png" ∈ pending (remove_pending "/watch/a.txt" s).2 <->
     "/watch/b.png" ∈ pending s /\ "/watch/b.png" <> "/watch/a.txt").
Proof.
  intros s. assert (H : NoDup (pending s)) by (apply (bool_decide_unpack _); vm_compute; reflexivity).
  split; [exact H | exact (remove_pending_removes "/watch/a.txt" s "/watch/b.png" H)].
Defined.
End Upload.
