(* ===== verification/Watcher.v ===== *)
(** * Directory watcher: the [watch.watchTree] callback (src/app.js lines 145-161)

    The [watch] library calls [callback(files, null, null)] once the
    initial walk is done, [callback(f, stat, null)] for a new file,
    [callback(f, curr, prev)] with [curr.nlink === 0] for a removed one
    and with both stats for a change.  [watch_event] is that contract;
    the stat of a new file is [undefined] when its [fs.stat] failed,
    hence [option stat].

    On a creation the callback pushes the path on [pending] when
    [pending.indexOf(f) == -1] and starts [uploadFile]; the other events
    only log. *)

From stdpp Require Import base list gmap strings.
From S2P Require Import JsPrelude Env Payload Proc Auth Message Upload.

Open Scope Z_scope.

Module Watcher.

(** The calls the [watch] library makes: [WalkDone] is the call with the
    [files] object and two [null] stats; [FileEvent f curr prev] the call
    for path [f], [prev = None] standing for [null]. *)
Inductive watch_event : Type :=
  | WalkDone
  | FileEvent (f : string) (curr prev : option stat).

Section Watcher.
Context (cfg : config) `{!Libs}.

(** [curr.size] and [curr.nlink] on a possibly undefined [curr]. *)
Definition read_size (curr : option stat) : St proc N :=
  match curr with
  | Some st => mret (size st)
  | None => throw (TypeError "Cannot read properties of undefined (reading 'size')")
  end.

Definition read_nlink (curr : option stat) : St proc N :=
  match curr with
  | Some st => mret (nlink st)
  | None => throw (TypeError "Cannot read properties of undefined (reading 'nlink')")
  end.

(** Lines 151-155: the creation branch. *)
Definition on_created (f : string) (curr : option stat) : St proc unit :=
  p ← gets pending;
  when (bool_decide (arr_indexOf p f = -1))
    (modify (set_pending (arr_push p f));;
     console_log (LogFileEvent "File Created:" f curr None);;
     sz ← read_size curr;
     Upload.uploadFile cfg (SPACE_ID cfg) f sz).

(** Lines 147-161. *)
Definition watch_callback (ev : watch_event) : St proc unit :=
  match ev with
  | WalkDone => console_log (LogText "Finished Walking Tree. Watching all folders")
  | FileEvent f curr None => on_created f curr
  | FileEvent f curr (Some prev) =>
      n ← read_nlink curr;
      if (n =? 0)%N then console_log (LogFileEvent "File Removed:" f curr (Some prev))
      else console_log (LogFileEvent "File Changed:" f curr (Some prev))
  end.

(** ** Effect on [pending] *)

Lemma read_size_keeps_pending curr : keeps pending (read_size curr).
Proof. destruct curr; eauto with js. Qed.

Lemma read_nlink_keeps_pending curr : keeps pending (read_nlink curr).
Proof. destruct curr; eauto with js. Qed.

(** A creation pushes the path exactly when it is not pending, whatever
    happens afterwards in [uploadFile]. *)
Lemma on_created_pending f curr s :
  pending (on_created f curr s).2 =
    if bool_decide (f ∈ pending s) then pending s else pending s ++ [f].
Proof.
  unfold on_created. rewrite st_bind_gets.
  case_bool_decide as Hi; case_bool_decide as Hin.
  - by apply arr_indexOf_neg1_iff in Hi.
  - cbn [when]. rewrite st_bind_modify. keeps_rewrite pending; [|done].
    apply keeps_bind; [eauto with js|]. intros [].
    apply keeps_bind; [apply read_size_keeps_pending|]. intros sz.
    apply Upload.uploadFile_keeps_pending.
  - done.
  - by rewrite arr_indexOf_neg1_iff in Hi.
Qed.

Lemma watch_callback_pending ev s :
  pending (watch_callback ev s).2 = pending s \/
  exists f curr, ev = FileEvent f curr None /\
    pending (watch_callback ev s).2 =
      if bool_decide (f ∈ pending s) then pending s else pending s ++ [f].
Proof.
  destruct ev as [|f curr [prev|]]; cbn [watch_callback].
  - by left.
  - left. keeps_rewrite pending; [|done].
    apply keeps_bind; [apply read_nlink_keeps_pending|].
    intros n. destruct (n =? 0)%N; eauto with js.
  - right. exists f, curr. split; [done|]. apply on_created_pending.
Qed.

(** ** Functional behaviour of the callback *)

(** What [uploadFile] sends first and the callback it registers: the
    multipart upload itself under a user token, the token request
    otherwise. *)
Definition upload_first_request (f : string) : request :=
  if js_truthy_str (USER_JWT cfg) then
    ReqUpload "api.watsonwork.ibm.com" Upload.filesAPI (bearer (default "" (USER_JWT cfg)))
              (Upload.upload_form cfg (SPACE_ID cfg) f)
  else Auth.authenticationOptions cfg.

Definition upload_first_task (f : string) (sz : N) : task :=
  if js_truthy_str (USER_JWT cfg) then TSubmit (SPACE_ID cfg) f sz
  else TAuth (KUpload (SPACE_ID cfg) f sz (Upload.upload_form cfg (SPACE_ID cfg) f)).

Lemma on_created_fresh f st s :
  f ∉ pending s ->
  on_created f (Some st) s =
    (Ok tt, mkProc (pending s ++ [f])
                   (<[next_task s := upload_first_task f (size st)]> (tasks s))
                   (S (next_task s))
                   (sent s ++ [upload_first_request f])
                   (console s ++ [LogFileEvent "File Created:" f (Some st) None])
                   (status s)).
Proof.
  intros Hf. unfold on_created. rewrite st_bind_gets.
  rewrite bool_decide_eq_true_2 by (by apply arr_indexOf_neg1_iff).
  unfold upload_first_task, upload_first_request, Upload.uploadFile, Auth.authenticateApp.
  destruct (js_truthy_str (USER_JWT cfg)); reflexivity.
Qed.

(** C1: a creation event for a path that is not pending appends it to
    [pending], logs it, and starts exactly one upload: one request sent
    and one callback registered under a fresh identifier. *)
Theorem creation_starts_one_upload f st s :
  f ∉ pending s ->
  watch_callback (FileEvent f (Some st) None) s =
    (Ok tt, mkProc (pending s ++ [f])
                   (<[next_task s := upload_first_task f (size st)]> (tasks s))
                   (S (next_task s))
                   (sent s ++ [upload_first_request f])
                   (console s ++ [LogFileEvent "File Created:" f (Some st) None])
                   (status s)).
Proof. apply on_created_fresh. Qed.

Lemma on_created_member f curr s :
  f ∈ pending s -> on_created f curr s = (Ok tt, s).
Proof.
  intros Hf. unfold on_created. rewrite st_bind_gets.
  rewrite bool_decide_eq_false_2; [done|]. intros Hi. by apply arr_indexOf_neg1_iff in Hi.
Qed.

(** C2: a creation event for a path already pending changes nothing:
    no upload, no log line, [pending] as it was. *)
Theorem duplicate_creation_ignored f curr s :
  f ∈ pending s -> watch_callback (FileEvent f curr None) s = (Ok tt, s).
Proof. apply on_created_member. Qed.

(** Removal and change events only log (lines 156-160). *)
Theorem other_events_only_log f curr prev s :
  watch_callback (FileEvent f (Some curr) (Some prev)) s =
    (Ok tt, mkProc (pending s) (tasks s) (next_task s) (sent s)
              (console s ++ [LogFileEvent (if (nlink curr =? 0)%N then "File Removed:"
                                           else "File Changed:") f (Some curr) (Some prev)])
              (status s)).
Proof. cbn [watch_callback read_nlink]. rewrite st_bind_ret_l. by destruct (nlink curr =? 0)%N. Qed.

(** C23: a creation event whose stat is undefined throws at [curr.size]
    after the path was pushed: the process stops with the path
    pending and no upload started. *)
Theorem creation_without_stat_throws f s :
  f ∉ pending s ->
  watch_callback (FileEvent f None None) s =
    (Throw (TypeError "Cannot read properties of undefined (reading 'size')"),
     mkProc (pending s ++ [f]) (tasks s) (next_task s) (sent s)
            (console s ++ [LogFileEvent "File Created:" f None None]) (status s)).
Proof.
  intros Hf. cbn [watch_callback]. unfold on_created. rewrite st_bind_gets.
  rewrite bool_decide_eq_true_2 by (by apply arr_indexOf_neg1_iff). reflexivity.
Qed.
End Watcher.

(** ** Witnesses *)

Lemma creation_starts_one_upload_witness :
  "/watch/a.txt" ∉ pending init_proc /\
  watch_callback demo_config (FileEvent "/watch/a.txt" (Some (mkStat 12 1)) None) init_proc =
    (Ok tt, mkProc ([] ++ ["/watch/a.txt"])
                   (<[0%nat := upload_first_task demo_config "/watch/a.txt" 12]> ∅) 1
                   ([] ++ [upload_first_request demo_config "/watch/a.txt"])
                   ([] ++ [LogFileEvent "File Created:" "/watch/a.txt" (Some (mkStat 12 1)) None])
                   Running).
Proof.
  assert (Hf : "/watch/a.txt" ∉ pending init_proc) by (apply (bool_decide_unpack _); vm_compute; reflexivity).
  split; [exact Hf | apply (creation_starts_one_upload demo_config _ (mkStat 12 1) init_proc Hf)].
Defined.

Lemma duplicate_creation_ignored_witness :
  let s := mkProc ["/watch/a.txt"] ∅ 1 [] [] Running in
  "/watch/a.txt" ∈ pending s /\
  watch_callback demo_config (FileEvent "/watch/a.txt" (Some (mkStat 12 1)) None) s = (Ok tt, s).
Proof.
  intros s.
  assert (Hf : "/watch/a.txt" ∈ pending s) by (apply (bool_decide_unpack _); vm_compute; reflexivity).
  split; [exact Hf | apply (duplicate_creation_ignored demo_config _ _ s Hf)].
Defined.

Lemma creation_without_stat_throws_witness :
  "/watch/b.png" ∉ pending init_proc /\
  watch_callback demo_config (FileEvent "/watch/b.png" None None) init_proc =
    (Throw (TypeError "Cannot read properties of undefined (reading 'size')"),
     mkProc ([] ++ ["/watch/b.png"]) ∅ 0 [] ([] ++ [LogFileEvent "File Created:" "/watch/b.png" None None])
            Running).
Proof.
  assert (Hf : "/watch/b.png" ∉ pending init_proc) by (apply (bool_decide_unpack _); vm_compute; reflexivity).
  split; [exact Hf | apply (creation_without_stat_throws demo_config _ init_proc Hf)].
Defined.
End Watcher.
