(* ===== verification/EventLoop.v ===== *)
(** * The Node event loop running app.js

    Node runs one callback at a time to completion.  The inputs are what
    can wake the program: a call of the watch callback, or the completion
    of one registered callback (a token response, the submit callback, a
    chunk or the end of the upload response stream, a message-post
    response).  [step] runs the corresponding handler on the process
    state; an uncaught exception or [process.exit] stops the process,
    after which no input has any effect.  [run] replays a list of inputs
    and [reachable] is the set of states the loop can reach from
    [init_proc], by rule induction.

    The theorems here are the invariants of the whole program: [pending]
    never holds a path twice, task identifiers are fresh, and a stopped
    process stays stopped. *)

From stdpp Require Import base list gmap strings.
From S2P Require Import JsPrelude Env Payload Proc Auth Message Upload Watcher.

Open Scope Z_scope.

Module EventLoop.

(** What the environment can deliver; the [nat] is the identifier under
    which the callback was registered. *)
Inductive input : Type :=
  | FsEvent (ev : Watcher.watch_event)
  | TokenReply (id : nat) (r : http_response)
  | SubmitReply (id : nat) (err : option string)
  | StreamData (id : nat) (chunk : string)
  | StreamEnd (id : nat)
  | PostReply (id : nat) (r : http_response).

Section Loop.
Context (cfg : config) `{!Libs}.

(** The callback that input [i] runs.  A completion for an identifier
  that has no callback of the matching kind runs nothing. *)
Definition dispatch (i : input) : St proc unit :=
match i with
| FsEvent ev => Watcher.watch_callback cfg ev
| TokenReply id r =>
    t ← gets (fun s => tasks s !! id);
    match t with
    | Some (TAuth k) => retire id;; Auth.on_token_response Upload.resume k r
    | _ => mret tt
    end
| SubmitReply id err =>
    t ← gets (fun s => tasks s !! id);
    match t with
    | Some (TSubmit sp fn fs) => retire id;; Upload.on_submit id sp fn fs err
    | _ => mret tt
    end
| StreamData id chunk =>
    t ← gets (fun s => tasks s !! id);
    match t with
    | Some (TStream sp fn fs) => Upload.on_data cfg sp fn fs chunk
    | _ => mret tt
    end
| StreamEnd id =>
    t ← gets (fun s => tasks s !! id);
    match t with
    | Some (TStream _ _ _) => retire id
    | _ => mret tt
    end
| PostReply id r =>
    t ← gets (fun s => tasks s !! id);
    match t with
    | Some TPost => retire id;; Message.on_post_response r
    | _ => mret tt
    end
end.

(** One turn of the event loop. *)
Definition step (s : proc) (i : input) : proc :=
match status s with
| Running =>
    match dispatch i s with
    | (Ok _, s') => s'
    | (Throw e, s') => set_status (Crashed e) s'
    | (Exit c, s') => set_status (Exited c) s'
    end
| _ => s
end.

Definition run (s : proc) (inputs : list input) : proc := fold_left step inputs s.

Inductive reachable : proc -> Prop :=
| reachable_init : reachable init_proc
| reachable_step s i : reachable s -> reachable (step s i).

(** ** Reachability and the executable replay *)

Lemma reachable_run_from s inputs : reachable s -> reachable (run s inputs).
Proof.
revert s. induction inputs as [|i inputs IH]; intros s Hs; [done|].
apply IH. by constructor.
Qed.

Lemma run_cons s i l : run s (i :: l) = run (step s i) l.
Proof. reflexivity. Qed.

Lemma run_app s l1 l2 : run s (l1 ++ l2) = run (run s l1) l2.
Proof. apply fold_left_app. Qed.

Lemma reachable_run s : reachable s <-> exists inputs, s = run init_proc inputs.
Proof.
split.
- induction 1 as [|s i _ [inputs ->]]; [by exists []|].
  exists (inputs ++ [i]). by rewrite run_app.
- intros [inputs ->]. apply reachable_run_from. constructor.
Qed.

(** Invariants are proved once for [step] and hold on every reachable
  state. *)
Lemma reachable_ind_inv (P : proc -> Prop) :
P init_proc -> (forall s i, reachable s -> P s -> P (step s i)) ->
forall s, reachable s -> P s.
Proof. intros Hinit Hstep s Hs. induction Hs; eauto. Qed.

(** A step keeps [P] when the handler does and [P] ignores the status. *)
Lemma step_preserves (P : proc -> Prop) s i :
(forall st s', P s' -> P (set_status st s')) ->
preserves P (dispatch i) -> P s -> P (step s i).
Proof.
intros Hst Hd Hs. unfold step.
destruct (status s); [|done..].
specialize (Hd s Hs). destruct (dispatch i s) as [[]] ; cbn in Hd; auto.
Qed.

(** ** A stopped process *)

(** After [process.exit] or an uncaught exception no input runs any
    code: the state stays as it is. *)
Theorem run_stopped s inputs : status s <> Running -> run s inputs = s.
Proof.
  revert s. induction inputs as [|i inputs IH]; intros s Hs; [done|].
  cbn. unfold step at 2. destruct (status s) eqn:E; [done| |]; by apply IH; rewrite E.
Qed.

(** The state after a step on a running process, from the handler's
    outcome. *)
Lemma step_running s i :
  status s = Running ->
  step s i = match dispatch i s with
             | (Ok _, s') => s'
             | (Throw e, s') => set_status (Crashed e) s'
             | (Exit c, s') => set_status (Exited c) s'
             end.
Proof. intros Hs. unfold step. by rewrite Hs. Qed.

(** ** [pending] holds no path twice *)

(** Every handler leaves [pending] as it was, pushes a path that was not
  in it, or removes the first occurrence of a path. *)
Lemma dispatch_pending i s :
pending (dispatch i s).2 = pending s \/
(exists f, f ∉ pending s /\ pending (dispatch i s).2 = pending s ++ [f]) \/
(exists f, pending (dispatch i s).2 = remove_first f (pending s)).
Proof.
destruct i as [ev|id r|id err|id chunk|id|id r]; cbn [dispatch];
  try (rewrite st_bind_gets; destruct (tasks s !! id) as [[]|]; try (left; done)).
- destruct (Watcher.watch_callback_pending cfg ev s) as [|(f & curr & -> & ->)]; [by left|].
  case_bool_decide; [by left|]. right; left. by exists f.
- left. keeps_rewrite pending; [|done]. apply keeps_bind; [eauto with js|]. intros [].
  apply Auth.on_token_response_keeps_pending, Upload.resume_keeps_pending.
- left. keeps_rewrite pending; [|done]. apply keeps_bind; [eauto with js|]. intros [].
  apply Upload.on_submit_keeps_pending.
- destruct (Upload.on_data_pending cfg spaceId fileName fileSize chunk s); [by left|].
  right; right. by exists fileName.
- left. keeps_rewrite pending; [|done]. apply keeps_bind; [eauto with js|]. intros [].
  apply Message.on_post_response_keeps_pending.
Qed.

Lemma step_pending_NoDup s i : NoDup (pending s) -> NoDup (pending (step s i)).
Proof.
intros Hs. apply step_preserves; [done| |done]. intros s' Hs'.
destruct (dispatch_pending i s') as [->|[(f & Hf & ->)|(f & ->)]]; eauto with js.
Qed.

(** C3: the de-duplication of lines 151-152 works: in every state the
  event loop reaches, the [pending] array holds each path at most
  once. *)
Theorem pending_NoDup s : reachable s -> NoDup (pending s).
Proof.
apply (reachable_ind_inv (fun s => NoDup (pending s))); [constructor|].
intros s' i _. apply step_pending_NoDup.
Qed.
End Loop.

(** ** Witnesses *)

(** Two creation events for the same path and one for another, under
    the demo configuration. *)
Definition demo_inputs : list input :=
  [FsEvent Watcher.WalkDone;
   FsEvent (Watcher.FileEvent "/watch/a.txt" (Some (mkStat 3 1)) None);
   FsEvent (Watcher.FileEvent "/watch/a.txt" (Some (mkStat 5 1)) None);
   FsEvent (Watcher.FileEvent "/watch/b.png" (Some (mkStat 7 1)) None)].

Lemma pending_NoDup_witness :
  reachable demo_config (run demo_config init_proc demo_inputs) /\
  NoDup (pending (run demo_config init_proc demo_inputs)).
Proof.
  assert (Hr : reachable demo_config (run demo_config init_proc demo_inputs))
    by (apply reachable_run; exists demo_inputs; reflexivity).
  split; [exact Hr | apply (pending_NoDup demo_config _ Hr)].
Defined.
End EventLoop.
