(* ===== verification/Footprint.v ===== *)
(** * The footprint of the program's handlers

    Every handler of app.js is built from four effects on the process
    state: logging, sending a request with its callback, retiring a
    callback, and writing [pending]; the submit callback also re-arms its
    own identifier with the response stream's listener.  A property of
    the state that these effects preserve is preserved by every handler
    and holds in every reachable state.  This Section states that once,
    over an arbitrary property; retiring and re-arming need only be
    shown for the callbacks the inputs considered are delivered to.  Its
    instances: the freshness of callback identifiers (the identifier
    [issue] hands out is never in use) and the typing of callbacks
    against the requests they answer. *)

From stdpp Require Import base list gmap strings.
From S2P Require Import JsPrelude Env Payload Proc Auth Message Upload Watcher EventLoop.

Open Scope Z_scope.

Module Footprint.

(** ** Which callback answers which request

    [issue r t] sends [r] and registers [t] for its completion.  The
    program only ever pairs a token request with a token callback, an
    upload with the submit callback of the same file, and a message post
    with the post callback; the submit callback later becomes the
    response stream's listener for the same file.  The closure of an
    upload holds the form of the file it uploads. *)
Definition cont_ok (k : auth_cont) : Prop :=
  match k with
  | KUpload _ fileName _ form => form_file form = fileName
  | KMessage _ _ => True
  end.

Definition answers (r : request) (t : task) : Prop :=
  match r, t with
  | ReqToken _ _ _ _, TAuth k => cont_ok k
  | ReqUpload _ _ _ form, TSubmit _ fileName _
  | ReqUpload _ _ _ form, TStream _ fileName _ => form_file form = fileName
  | ReqMessage _ _ _, TPost => True
  | _, _ => False
  end.

Definition task_ok (t : task) : Prop :=
  match t with TAuth k => cont_ok k | _ => True end.

Definition conts_ok (s : proc) : Prop := map_Forall (fun _ t => task_ok t) (tasks s).

Lemma answers_task_ok r t : answers r t -> task_ok t.
Proof. by destruct r, t. Qed.

(** The callback an input is delivered to, if it is a completion. *)
Definition input_target (i : EventLoop.input) : option nat :=
  match i with
  | EventLoop.FsEvent _ => None
  | EventLoop.TokenReply id _ | EventLoop.SubmitReply id _ | EventLoop.StreamData id _
  | EventLoop.StreamEnd id | EventLoop.PostReply id _ => Some id
  end.

(** [P] is a property of states; [target_ok] says which callbacks the
    inputs considered may be delivered to, the only ones a handler
    retires or re-arms. *)
Section Footprint.
Context (cfg : config) `{!Libs}.
Variable P : proc -> Prop.
Variable target_ok : nat -> Prop.
Hypothesis P_log : forall e, preserves P (console_log e).
Hypothesis P_issue : forall r t, answers r t -> preserves P (issue r t).
Hypothesis P_retire : forall id, target_ok id -> preserves P (retire id).
Hypothesis P_pending : forall l s, P s -> P (set_pending l s).
Hypothesis P_rearm : forall s id sp f fs,
  target_ok id -> P s -> tasks s !! id = Some (TSubmit sp f fs) ->
  P (set_tasks (<[id := TStream sp f fs]> (delete id (tasks s))) s).
Hypothesis P_status : forall st s, P s -> P (set_status st s).

(** The handlers are shown to preserve [P] together with [conts_ok],
    which the token callback needs to know the form it submits. *)
Definition Q (s : proc) : Prop := P s /\ conts_ok s.

Lemma Q_log e : preserves Q (console_log e).
Proof. intros s [Hs Hc]. split; [by apply P_log|done]. Qed.

Lemma Q_issue r t : answers r t -> preserves Q (issue r t).
Proof.
  intros Hrt s [Hs Hc]. split; [by apply P_issue|].
  apply map_Forall_insert_2; [by eapply answers_task_ok|done].
Qed.

Lemma Q_retire id : target_ok id -> preserves Q (retire id).
Proof. intros Hid s [Hs Hc]. split; [by apply P_retire|]. by apply map_Forall_delete. Qed.

#[local] Hint Resolve Q_log Q_retire : js.

Lemma resume_fp k jwt : cont_ok k -> preserves Q (Upload.resume k jwt).
Proof.
  intros Hk. destruct k; cbn [Upload.resume];
    [unfold Upload.form_submit | unfold Message.post_message];
    (apply preserves_bind; [by apply Q_issue|eauto with js]).
Qed.

Lemma authenticateApp_fp k : cont_ok k -> preserves Q (Auth.authenticateApp cfg Upload.resume k).
Proof.
  intros Hk. unfold Auth.authenticateApp. destruct (js_truthy_str _); [by apply resume_fp|].
  apply preserves_bind; [by apply Q_issue|eauto with js].
Qed.

Lemma on_token_response_fp k r :
  cont_ok k -> preserves Q (Auth.on_token_response Upload.resume k r).
Proof.
  intros Hk. unfold Auth.on_token_response.
  destruct r as [|code body]; [|destruct (negb _); [|destruct (json_access_token body)]];
    eauto using resume_fp with js.
Qed.

Lemma sendMessage_fp spaceId fileId fileName fileSize :
  preserves Q (Message.sendMessage cfg Upload.resume spaceId fileId fileName fileSize).
Proof.
  unfold Message.sendMessage. destruct (mime_lookup _); [|eauto with js].
  apply preserves_bind; [|intros d; apply preserves_bind; [eauto with js|intros []; by apply authenticateApp_fp]].
  unfold Message.dimensions_of. destruct (Message.is_image_type _); [destruct (image_size _)|]; eauto with js.
Qed.

Lemma remove_pending_fp fileName : preserves Q (Upload.remove_pending fileName).
Proof.
  intros s [Hs Hc]. rewrite Upload.remove_pending_run. split; [by apply P_pending|done].
Qed.

Lemma on_data_fp spaceId fileName fileSize body :
  preserves Q (Upload.on_data cfg spaceId fileName fileSize body).
Proof.
  unfold Upload.on_data. apply preserves_bind; [eauto with js|]. intros [].
  destruct (json_entry_id body); [|eauto with js].
  apply preserves_bind; [apply sendMessage_fp|]. intros []. apply remove_pending_fp.
Qed.

Lemma watch_callback_fp ev : preserves Q (Watcher.watch_callback cfg ev).
Proof.
  destruct ev as [|f curr [prev|]]; cbn [Watcher.watch_callback]; [eauto with js| |].
  - apply preserves_bind; [destruct curr; cbn; eauto with js|].
    intros n. destruct (n =? 0)%N; eauto with js.
  - unfold Watcher.on_created. apply preserves_gets_bind. intros s Hs.
    case_bool_decide; [|done]. cbn [when]. rewrite st_bind_modify.
    apply preserves_bind; [eauto with js|intros [] |by split; [apply P_pending, Hs|apply Hs]].
    apply preserves_bind; [destruct curr; cbn; eauto with js|]. intros sz.
    by apply authenticateApp_fp.
Qed.

Lemma dispatch_fp i :
  (forall id, input_target i = Some id -> target_ok id) -> preserves Q (EventLoop.dispatch cfg i).
Proof.
  intros Hi. destruct i as [ev|id r|id err|id chunk|id|id r]; cbn [EventLoop.dispatch];
    [apply watch_callback_fp|..]; specialize (Hi _ eq_refl); apply preserves_gets_bind; intros s Hs;
    destruct (tasks s !! id) as [t|] eqn:Ht; try destruct t; try done.
  - apply preserves_bind; [eauto with js|intros [] |done].
    apply on_token_response_fp. exact (proj2 Hs id _ Ht).
  - unfold Upload.on_submit. destruct err.
    + apply preserves_bind; [eauto with js|intros [] |done]. eauto with js.
    + destruct Hs as [Hs Hc]. split; [by apply (P_rearm s id _ _ _ Hi)|].
      apply map_Forall_insert_2; [done|]. by apply map_Forall_delete.
  - by apply on_data_fp.
  - by apply Q_retire.
  - apply preserves_bind; [eauto with js|intros [] |done].
    unfold Message.on_post_response. destruct r; [eauto with js|].
    apply preserves_when. eauto with js.
Qed.

Lemma step_fp s i :
  (forall id, input_target i = Some id -> target_ok id) -> Q s -> Q (EventLoop.step cfg s i).
Proof.
  intros Hi Hs. apply EventLoop.step_preserves; [|by apply dispatch_fp|done].
  intros st s' [H1 H2]. split; [by apply P_status|done].
Qed.

Lemma footprint_reachable_Q s :
  (forall id, target_ok id) -> P init_proc -> EventLoop.reachable cfg s -> Q s.
Proof.
  intros Hall Hinit. apply (EventLoop.reachable_ind_inv cfg Q); [split; [done|apply map_Forall_empty]|].
  intros s' i _ Hs'. apply step_fp; [intros; apply Hall|done].
Qed.

Lemma footprint_reachable s :
  (forall id, target_ok id) -> P init_proc -> EventLoop.reachable cfg s -> P s.
Proof. intros Hall Hinit Hr. by apply footprint_reachable_Q. Qed.

End Footprint.

(** ** Callback identifiers are fresh *)

Definition ids_below_next (s : proc) : Prop :=
  map_Forall (fun id _ => (id < next_task s)%nat) (tasks s).

Lemma reachable_ids_below cfg `{!Libs} s : EventLoop.reachable cfg s -> ids_below_next s.
Proof.
  intros Hs.
  apply (footprint_reachable cfg ids_below_next (fun _ => True));
    [| | | | | |done|apply map_Forall_empty|done]; unfold ids_below_next.
  - by intros e s'.
  - intros r t _ s' Hs'. unfold issue. cbn. apply map_Forall_insert_2; [lia|].
    eapply map_Forall_impl; [exact Hs'|]. cbn. lia.
  - intros id _ s' Hs'. unfold retire, modify. cbn. by apply map_Forall_delete.
  - done.
  - intros s' id sp f fs _ Hs' Ht. apply map_Forall_insert_2; [by apply (Hs' id _ Ht)|].
    by apply map_Forall_delete.
  - done.
Qed.

(** The identifiers [issue] hands out from a reachable state are not in use. *)
Lemma reachable_fresh cfg `{!Libs} s k :
  EventLoop.reachable cfg s -> (next_task s <= k)%nat -> tasks s !! k = None.
Proof.
  intros Hs Hk. apply eq_None_not_Some. intros [t Ht].
  pose proof (reachable_ids_below cfg s Hs k t Ht). cbn in *. lia.
Qed.


(** A file's upload in flight with a user token, its response stream
    open under identifier 0. *)
Definition s_stream_a : proc :=
  EventLoop.run demo_config_jwt init_proc
    [EventLoop.FsEvent (Watcher.FileEvent "/watch/a.txt" (Some (mkStat 12 1)) None);
     EventLoop.SubmitReply 0 None].

(** ** Every callback answers the request sent under its identifier *)

Definition callbacks_typed (s : proc) : Prop :=
  length (sent s) = next_task s /\
  map_Forall (fun id t => exists r, sent s !! id = Some r /\ answers r t) (tasks s).

Lemma callbacks_typed_issue r t s :
  answers r t -> callbacks_typed s -> callbacks_typed (issue r t s).2.
Proof.
  intros Hrt [Hl Hm]. rewrite issue_run. split; [cbn [sent next_task snd]; rewrite length_app; cbn; lia|]. cbn [tasks sent snd].
  apply map_Forall_insert_2.
  - exists r. split; [|done]. rewrite lookup_app_r, Hl, Nat.sub_diag by lia. done.
  - eapply map_Forall_impl; [exact Hm|]. intros id t' (r' & Hr' & Ha).
    exists r'. split; [by apply lookup_app_l_Some|done].
Qed.

(** C14: in every reachable state the program has sent exactly
    [next_task] requests, and every registered callback answers the
    request sent under its identifier: a token callback a token request,
    the submit callback and the response stream's listener of a file the
    upload of that same file, the post callback a message post. *)
Theorem callbacks_answer_requests cfg `{!Libs} s id t :
  EventLoop.reachable cfg s -> tasks s !! id = Some t ->
  length (sent s) = next_task s /\ exists r, sent s !! id = Some r /\ answers r t.
Proof.
  intros Hs Ht.
  assert (Hwt : callbacks_typed s).
  { apply (footprint_reachable cfg callbacks_typed (fun _ => True));
      [| | | | | |done|split; [done|apply map_Forall_empty]|done].
    - by intros e s'.
    - intros r t' Hrt s' Hs'. by apply callbacks_typed_issue.
    - intros id' _ s' [Hl Hm]. split; [done|]. by apply map_Forall_delete.
    - done.
    - intros s' id' sp f fs _ [Hl Hm] Ht'. split; [done|].
      apply map_Forall_insert_2; [|by apply map_Forall_delete].
      destruct (Hm id' _ Ht') as (r & Hr & Ha). exists r. split; [done|]. by destruct r.
    - done. }
  split; [apply Hwt|]. exact (proj2 Hwt id t Ht).
Qed.

Lemma callbacks_answer_requests_witness :
  EventLoop.reachable demo_config_jwt s_stream_a /\
  tasks s_stream_a !! 0%nat = Some (TStream "space-1" "/watch/a.txt" 12) /\
  length (sent s_stream_a) = next_task s_stream_a /\
  exists r, sent s_stream_a !! 0%nat = Some r /\ answers r (TStream "space-1" "/watch/a.txt" 12).
Proof.
  assert (Hr : EventLoop.reachable demo_config_jwt s_stream_a)
    by (apply EventLoop.reachable_run; eexists; reflexivity).
  assert (Ht : tasks s_stream_a !! 0%nat = Some (TStream "space-1" "/watch/a.txt" 12))
    by (vm_compute; reflexivity).
  split; [exact Hr|]. split; [exact Ht|].
  exact (callbacks_answer_requests demo_config_jwt _ 0 _ Hr Ht).
Defined.



End Footprint.
