(* ===== verification/PendingSpec.v ===== *)
(** * The pending set: abstract specification and refinement

    The spec describes [pending] as a set of paths mid-upload: a
    creation event adds a path that is not in it and leaves it alone
    otherwise; a completion removes the path.  [spec_step] is that
    machine over [gset string], with the events [PCreate], [PComplete]
    and [POther].  A fourth event, [PAbort], is a completion whose
    listener throws before it reaches the removal (an unparsable chunk,
    an unknown MIME type): [spec_steps] allows it only as the last
    event that does anything, with the set unchanged, because the
    uncaught exception ends the process.

    [abs] reads the concrete [pending] array as a set.  [label] is the
    abstract event of an input: a creation event, or a ['data'] chunk
    of a registered upload response, labelled [PComplete] when the
    listener of lines 131-138 returns and [PAbort] when it throws.
    Every other turn of the event loop from a state without duplicates
    is a step of the abstract machine ([step_refines]), an aborted
    chunk keeps the set and stops the process ([step_abort]); the
    refinement theorem lifts this to whole runs ([spec_steps] on the
    run's [labels]), and the array stays a faithful representation (its
    length is the set's size).  The labels show where the code
    completes a path: on the upload response's ['data'] event, not when
    the message is posted. *)

From stdpp Require Import base list gmap strings.
From S2P Require Import JsPrelude Env Payload Proc Auth Message Upload Watcher EventLoop.

Open Scope Z_scope.

Module PendingSpec.

Inductive pending_event : Type :=
  | PCreate (f : string)
  | PComplete (f : string)
  | PAbort (f : string)
  | POther.

Inductive spec_step : gset string -> pending_event -> gset string -> Prop :=
  | spec_create_new S f : f ∉ S -> spec_step S (PCreate f) ({[f]} ∪ S)
  | spec_create_dup S f : f ∈ S -> spec_step S (PCreate f) S
  | spec_complete S f : spec_step S (PComplete f) (S ∖ {[f]})
  | spec_other S : spec_step S POther S.

(** Runs of the abstract machine: an aborted completion keeps the set
    and ends the run, after which no event does anything. *)
Inductive spec_steps : gset string -> list pending_event -> gset string -> Prop :=
  | spec_steps_nil S : spec_steps S [] S
  | spec_steps_cons S e S' l S'' :
      spec_step S e S' -> spec_steps S' l S'' -> spec_steps S (e :: l) S''
  | spec_steps_abort S f l :
      Forall (fun e => e = POther) l -> spec_steps S (PAbort f :: l) S.

Definition abs (s : proc) : gset string := list_to_set (pending s).

Lemma abs_pending_eq s s' : pending s = pending s' -> abs s = abs s'.
Proof. unfold abs. by intros ->. Qed.

Lemma list_to_set_remove_first (l : list string) f :
  NoDup l -> list_to_set (remove_first f l) = (list_to_set l ∖ {[f]} : gset string).
Proof.
  intros Hnd. apply set_eq. intros g.
  rewrite elem_of_list_to_set, elem_of_difference, elem_of_list_to_set,
    elem_of_remove_first_NoDup by done.
  set_solver.
Qed.

Lemma length_NoDup_size (l : list string) :
  NoDup l -> length l = base.size (list_to_set l : gset string).
Proof. intros Hnd. by rewrite size_list_to_set. Qed.

Section Refinement.
Context (cfg : config) `{!Libs}.

(** The abstract event of input [i] in state [s]: a chunk of a
    registered upload response completes its path when the listener
    returns, and aborts when it throws. *)
Definition label (s : proc) (i : EventLoop.input) : pending_event :=
  match status s, i with
  | Running, EventLoop.FsEvent (Watcher.FileEvent f _ None) => PCreate f
  | Running, EventLoop.StreamData id _ =>
      match tasks s !! id with
      | Some (TStream _ f _) =>
          match (EventLoop.dispatch cfg i s).1 with Ok _ => PComplete f | _ => PAbort f end
      | _ => POther
      end
  | _, _ => POther
  end.

(** The abstract events of a run of the loop from [s]. *)
Fixpoint labels (s : proc) (l : list EventLoop.input) : list pending_event :=
  match l with
  | [] => []
  | i :: l' => label s i :: labels (EventLoop.step cfg s i) l'
  end.

Lemma step_pending s i :
  pending (EventLoop.step cfg s i) =
    match status s with Running => pending (EventLoop.dispatch cfg i s).2 | _ => pending s end.
Proof.
  unfold EventLoop.step. destruct (status s); [|done..].
  by destruct (EventLoop.dispatch cfg i s) as [[]].
Qed.

Lemma dispatch_keeps_pending_other s i :
  (forall f curr, i <> EventLoop.FsEvent (Watcher.FileEvent f curr None)) ->
  (forall id chunk, i <> EventLoop.StreamData id chunk) ->
  pending (EventLoop.dispatch cfg i s).2 = pending s.
Proof.
  intros Hc Hd.
  destruct i as [[|f curr [prev|]]|id r|id err|id chunk|id|id r]; cbn [EventLoop.dispatch].
  - done.
  - destruct (Watcher.watch_callback_pending cfg (Watcher.FileEvent f curr (Some prev)) s)
      as [->|(g & c & [=] & _)]; done.
  - by destruct (Hc f curr).
  - rewrite st_bind_gets. destruct (tasks s !! id) as [[]|]; try done.
    keeps_rewrite pending; [|done]. apply keeps_bind; [eauto with js|]. intros [].
    apply Auth.on_token_response_keeps_pending, Upload.resume_keeps_pending.
  - rewrite st_bind_gets. destruct (tasks s !! id) as [[]|]; try done.
    keeps_rewrite pending; [|done]. apply keeps_bind; [eauto with js|]. intros [].
    apply Upload.on_submit_keeps_pending.
  - by destruct (Hd id chunk).
  - rewrite st_bind_gets. by destruct (tasks s !! id) as [[]|].
  - rewrite st_bind_gets. destruct (tasks s !! id) as [[]|]; try done.
    keeps_rewrite pending; [|done]. apply keeps_bind; [eauto with js|]. intros [].
    apply Message.on_post_response_keeps_pending.
Qed.

(** One turn of the loop that does not abort is one step of the
    abstract machine. *)
Lemma step_refines s i :
  NoDup (pending s) -> (forall f, label s i <> PAbort f) ->
  spec_step (abs s) (label s i) (abs (EventLoop.step cfg s i)).
Proof.
  intros Hnd Hna. unfold abs, label in *. rewrite step_pending. destruct (status s); [|constructor..].
  destruct i as [[|f curr [prev|]]|id r|id err|id chunk|id|id r];
    try (rewrite dispatch_keeps_pending_other; [constructor|intros; congruence..]).
  - cbn [EventLoop.dispatch Watcher.watch_callback]. rewrite Watcher.on_created_pending.
    case_bool_decide as Hf.
    + apply spec_create_dup. by apply elem_of_list_to_set.
    + rewrite list_to_set_app_L. cbn. rewrite union_empty_r_L, union_comm_L.
      apply spec_create_new. by rewrite elem_of_list_to_set.
  - cbn [EventLoop.dispatch] in *. rewrite !st_bind_gets in *.
    destruct (tasks s !! id) as [[| |sp f fs|]|]; try constructor.
    rewrite Upload.on_data_outcome_pending in *.
    destruct (Upload.on_data cfg sp f fs chunk s).1; [|by destruct (Hna f)..].
    rewrite list_to_set_remove_first by done. constructor.
Qed.

(** An aborted chunk leaves [pending] as it was and stops the process. *)
Lemma step_abort s i f :
  label s i = PAbort f ->
  pending (EventLoop.step cfg s i) = pending s /\ status (EventLoop.step cfg s i) <> Running.
Proof.
  unfold label, EventLoop.step. destruct (status s); [|discriminate..].
  destruct i as [[|g curr [prev|]]|id r|id err|id chunk|id|id r]; try discriminate.
  cbn [EventLoop.dispatch]. rewrite !st_bind_gets.
  destruct (tasks s !! id) as [[| |sp g fs|]|]; try discriminate.
  pose proof (Upload.on_data_outcome_pending cfg sp g fs chunk s) as Hp.
  destruct (Upload.on_data cfg sp g fs chunk s) as [[[]|e|c] s']; cbn in Hp |- *;
    [discriminate|intros _; by split..].
Qed.

(** A stopped process has only [POther] events. *)
Lemma labels_stopped s l :
  status s <> Running -> Forall (fun e => e = POther) (labels s l).
Proof.
  revert s. induction l as [|i l IH]; intros s Hs; constructor.
  - unfold label. by destruct (status s).
  - change (EventLoop.step cfg s i) with (EventLoop.run cfg s [i]).
    rewrite EventLoop.run_stopped by done. by apply IH.
Qed.

(** C9: the [pending] array refines the abstract pending set: from a
    state whose array has no duplicates (every reachable one), every run
    of the loop is a run of [spec_steps] on the run's abstract events:
    a new path is added, a duplicate creation changes nothing, a
    completed ['data'] listener removes its path, an aborted one keeps
    the set and ends the run; and the array at the end holds exactly
    the set's elements, each once. *)
Theorem pending_refines_spec s l :
  NoDup (pending s) ->
  spec_steps (abs s) (labels s l) (abs (EventLoop.run cfg s l)) /\
  length (pending (EventLoop.run cfg s l)) = base.size (abs (EventLoop.run cfg s l)).
Proof.
  revert s. induction l as [|i l IH]; intros s Hnd.
  - split; [constructor|by apply length_NoDup_size].
  - destruct (IH (EventLoop.step cfg s i)) as [Hrun Hlen]; [by apply EventLoop.step_pending_NoDup|].
    split; [|done]. cbn [labels]. rewrite EventLoop.run_cons.
    destruct (label s i) eqn:Hl; try (econstructor; [rewrite <- Hl; apply step_refines; congruence|exact Hrun]).
    destruct (step_abort s i f Hl) as [Hp Hs].
    rewrite EventLoop.run_stopped, (abs_pending_eq _ _ Hp) by done.
    constructor. by apply labels_stopped.
Qed.
End Refinement.

(** Two paths pending: [/watch/a.txt] under token request 0 and
    [/watch/b.png] under token request 1. *)
Definition s_two : proc :=
  EventLoop.run demo_config init_proc (take 2 (drop 1 EventLoop.demo_inputs) ++ [EventLoop.FsEvent
    (Watcher.FileEvent "/watch/b.png" (Some (mkStat 7 1)) None)]).

(** [/watch/a.txt] completes; [/watch/c.zzz], of unknown type, is
    created, uploaded, and its listener aborts; a later creation runs
    nothing. *)
Definition refine_inputs : list EventLoop.input :=
  [EventLoop.TokenReply 0 (HttpResponse 200 "tok"); EventLoop.SubmitReply 2 None;
   EventLoop.StreamData 2 "file-1";
   EventLoop.FsEvent (Watcher.FileEvent "/watch/c.zzz" (Some (mkStat 4 1)) None);
   EventLoop.TokenReply 4 (HttpResponse 200 "tok"); EventLoop.SubmitReply 5 None;
   EventLoop.StreamData 5 "file-2";
   EventLoop.FsEvent (Watcher.FileEvent "/watch/d.png" (Some (mkStat 2 1)) None)].

Lemma pending_refines_spec_witness :
  NoDup (pending s_two) /\
  labels demo_config s_two refine_inputs =
    [POther; POther; PComplete "/watch/a.txt"; PCreate "/watch/c.zzz"; POther; POther;
     PAbort "/watch/c.zzz"; POther] /\
  spec_steps (abs s_two) (labels demo_config s_two refine_inputs)
    (abs (EventLoop.run demo_config s_two refine_inputs)) /\
  length (pending (EventLoop.run demo_config s_two refine_inputs)) =
    base.size (abs (EventLoop.run demo_config s_two refine_inputs)).
Proof.
  assert (H : NoDup (pending s_two)) by (apply (bool_decide_unpack _); vm_compute; reflexivity).
  split; [exact H|split; [vm_compute; reflexivity|]].
  exact (pending_refines_spec demo_config s_two refine_inputs H).
Defined.
End PendingSpec.
