(* ===== verification/UserToken.v ===== *)
(** * The user-token mode

    With [USER_JWT] set to a non-empty string, [authenticateApp] calls
    its callback with that token at once (line 26).  This file proves the
    consequence for the whole program: the token endpoint is never
    called, no token-response callback is ever registered, and every
    upload and message request carries [Bearer USER_JWT].  The invariant
    [token_mode_inv] is shown preserved by every operation of every
    component, then by every step of the event loop. *)

From stdpp Require Import base list gmap strings.
From S2P Require Import JsPrelude Env Payload Proc Auth Message Upload Watcher EventLoop.

Open Scope Z_scope.

Module UserToken.

(** A request authorised with the user token [jwt]: never a token
    request. *)
Definition uses_token (jwt : string) (r : request) : Prop :=
  match r with
  | ReqToken _ _ _ _ => False
  | ReqUpload _ _ auth _ => auth = bearer jwt
  | ReqMessage _ auth _ => auth = bearer jwt
  end.

Definition not_token_callback (t : task) : Prop :=
  match t with TAuth _ => False | _ => True end.

Definition token_mode_inv (jwt : string) (s : proc) : Prop :=
  Forall (uses_token jwt) (sent s) /\
  map_Forall (fun _ t => not_token_callback t) (tasks s).

Section UserToken.
Context (cfg : config) `{!Libs} (jwt : string).
Hypothesis Hjwt : USER_JWT cfg = Some jwt.
Hypothesis Htruthy : js_truthy_str (Some jwt) = true.

#[local] Abbreviation inv := (token_mode_inv jwt).

(** ** The primitives *)

Lemma inv_set_status st s : inv s -> inv (set_status st s).
Proof. done. Qed.

Lemma console_log_inv e : preserves inv (console_log e).
Proof. by intros s. Qed.

Lemma retire_inv id : preserves inv (retire id).
Proof. intros s [Hr Ht]. split; [done|]. by apply map_Forall_delete. Qed.

Lemma issue_inv r t :
  uses_token jwt r -> not_token_callback t -> preserves inv (issue r t).
Proof.
  intros Hr Ht s [Hs Hm]. split; cbn.
  - apply Forall_app. by split; [|constructor].
  - by apply map_Forall_insert_2.
Qed.

Lemma rearm_inv id t : not_token_callback t -> preserves inv (rearm id t).
Proof. intros Ht s [Hs Hm]. split; [done|]. by apply map_Forall_insert_2. Qed.

#[local] Hint Resolve console_log_inv retire_inv : js.

(** ** The components *)

Lemma resume_inv k : preserves inv (Upload.resume k jwt).
Proof.
  destruct k; cbn [Upload.resume];
    [unfold Upload.form_submit | unfold Message.post_message];
    apply preserves_bind; [apply issue_inv; done| |apply issue_inv; done|]; eauto with js.
Qed.

Lemma authenticateApp_inv k : preserves inv (Auth.authenticateApp cfg Upload.resume k).
Proof.
  unfold Auth.authenticateApp. rewrite Hjwt, Htruthy. apply resume_inv.
Qed.

Lemma sendMessage_inv spaceId fileId fileName fileSize :
  preserves inv (Message.sendMessage cfg Upload.resume spaceId fileId fileName fileSize).
Proof.
  unfold Message.sendMessage. destruct (mime_lookup _); [|eauto with js].
  apply preserves_bind; [|intros d; apply preserves_bind; [eauto with js|intros []; apply authenticateApp_inv]].
  unfold Message.dimensions_of. destruct (Message.is_image_type _); [destruct (image_size _)|]; eauto with js.
Qed.

Lemma remove_pending_inv fileName : preserves inv (Upload.remove_pending fileName).
Proof. intros s Hs. cbn. by case_bool_decide. Qed.

Lemma on_data_inv spaceId fileName fileSize body :
  preserves inv (Upload.on_data cfg spaceId fileName fileSize body).
Proof.
  unfold Upload.on_data. apply preserves_bind; [eauto with js|]. intros [].
  destruct (json_entry_id body); [|eauto with js].
  apply preserves_bind; [apply sendMessage_inv|]. intros []. apply remove_pending_inv.
Qed.

Lemma watch_callback_inv ev : preserves inv (Watcher.watch_callback cfg ev).
Proof.
  destruct ev as [|f curr [prev|]]; cbn [Watcher.watch_callback]; [eauto with js| |].
  - apply preserves_bind; [destruct curr; cbn; eauto with js|].
    intros n. destruct (n =? 0)%N; eauto with js.
  - unfold Watcher.on_created. apply preserves_gets_bind. intros s Hs.
    case_bool_decide; [|done]. cbn [when]. rewrite st_bind_modify.
    apply preserves_bind; [eauto with js|intros [] |done].
    apply preserves_bind; [destruct curr; cbn; eauto with js|]. intros sz.
    apply authenticateApp_inv.
Qed.

(** No token-response callback can be delivered: the invariant rules out
    a [TAuth] task. *)
Lemma dispatch_inv i : preserves inv (EventLoop.dispatch cfg i).
Proof.
  destruct i as [ev|id r|id err|id chunk|id|id r]; cbn [EventLoop.dispatch];
    [apply watch_callback_inv|..]; apply preserves_gets_bind; intros s Hs;
    destruct (tasks s !! id) as [t|] eqn:Ht; try destruct t; try done.
  - destruct Hs as [_ Hm]. by specialize (Hm _ _ Ht).
  - apply preserves_bind; [eauto with js|intros [] |done].
    unfold Upload.on_submit. destruct err; [eauto with js|apply rearm_inv; done].
  - by apply on_data_inv.
  - by apply retire_inv.
  - apply preserves_bind; [eauto with js|intros [] |done].
    unfold Message.on_post_response. destruct r; [eauto with js|].
    apply preserves_when. eauto with js.
Qed.

Lemma token_mode_reachable s : EventLoop.reachable cfg s -> inv s.
Proof.
  apply (EventLoop.reachable_ind_inv cfg inv); [split; [constructor|apply map_Forall_empty]|].
  intros s' i _ Hs'. apply EventLoop.step_preserves; [intros; by apply inv_set_status | apply dispatch_inv | done].
Qed.

(** C4: in user-token mode no request ever goes to the token endpoint,
    and every request the program has sent carries the header
    [Bearer USER_JWT]. *)
Theorem user_token_never_exchanges s r :
  EventLoop.reachable cfg s -> r ∈ sent s ->
  match r with
  | ReqToken _ _ _ _ => False
  | ReqUpload _ _ auth _ | ReqMessage _ auth _ => auth = "Bearer " +:+ jwt
  end.
Proof.
  intros Hs Hr. destruct (token_mode_reachable s Hs) as [Hsent _].
  rewrite Forall_forall in Hsent. by apply (Hsent r).
Qed.
End UserToken.

(** ** Witness *)

Lemma user_token_never_exchanges_witness :
  let s := EventLoop.run demo_config_jwt init_proc EventLoop.demo_inputs in
  let r := ReqUpload "api.watsonwork.ibm.com" Upload.filesAPI (bearer "user-jwt")
             (Upload.upload_form demo_config_jwt "space-1" "/watch/a.txt") in
  USER_JWT demo_config_jwt = Some "user-jwt" /\ js_truthy_str (Some "user-jwt") = true /\
  EventLoop.reachable demo_config_jwt s /\ r ∈ sent s /\
  match r with
  | ReqToken _ _ _ _ => False
  | ReqUpload _ _ auth _ | ReqMessage _ auth _ => auth = "Bearer " +:+ "user-jwt"
  end.
Proof.
  intros s r.
  assert (Hj : USER_JWT demo_config_jwt = Some "user-jwt") by reflexivity.
  assert (Ht : js_truthy_str (Some "user-jwt") = true) by reflexivity.
  assert (Hs : EventLoop.reachable demo_config_jwt s)
    by (apply EventLoop.reachable_run; exists EventLoop.demo_inputs; reflexivity).
  assert (Hr : r ∈ sent s) by (apply (bool_decide_unpack _); vm_compute; reflexivity).
  split; [exact Hj|]. split; [exact Ht|]. split; [exact Hs|]. split; [exact Hr|].
  exact (user_token_never_exchanges demo_config_jwt "user-jwt" Hj Ht s r Hs Hr).
Defined.
End UserToken.
