(* ===== verification/Pipeline.v ===== *)
(** * One file's pipeline through the event loop

    A creation event starts authenticate, upload, authenticate, post for
    one path.  This file follows each completion through [step]: what
    the process does when the token request is refused, when the upload
    fails, when the upload response arrives (the path leaves [pending]
    before the message is posted), when the MIME type is unknown, and
    when the message post answers or fails.  Each theorem is about one
    turn of the loop from a state where the matching callback is
    registered. *)

From stdpp Require Import base list gmap strings.
From S2P Require Import JsPrelude Env Payload Proc Auth Message Upload Watcher EventLoop Footprint.

Open Scope Z_scope.

Module Pipeline.
Section Pipeline.
Context (cfg : config) `{!Libs}.

(** ** Delivering a completion to its callback *)

Lemma dispatch_token s id k r :
  tasks s !! id = Some (TAuth k) ->
  EventLoop.dispatch cfg (EventLoop.TokenReply id r) s =
    Auth.on_token_response Upload.resume k r (set_tasks (delete id (tasks s)) s).
Proof. intros Ht. cbn [EventLoop.dispatch]. by rewrite st_bind_gets, Ht. Qed.

Lemma dispatch_submit s id sp fn fs err :
  tasks s !! id = Some (TSubmit sp fn fs) ->
  EventLoop.dispatch cfg (EventLoop.SubmitReply id err) s =
    Upload.on_submit id sp fn fs err (set_tasks (delete id (tasks s)) s).
Proof. intros Ht. cbn [EventLoop.dispatch]. by rewrite st_bind_gets, Ht. Qed.

Lemma dispatch_data s id sp fn fs chunk :
  tasks s !! id = Some (TStream sp fn fs) ->
  EventLoop.dispatch cfg (EventLoop.StreamData id chunk) s =
    Upload.on_data cfg sp fn fs chunk s.
Proof. intros Ht. cbn [EventLoop.dispatch]. by rewrite st_bind_gets, Ht. Qed.

Lemma dispatch_post s id r :
  tasks s !! id = Some TPost ->
  EventLoop.dispatch cfg (EventLoop.PostReply id r) s =
    Message.on_post_response r (set_tasks (delete id (tasks s)) s).
Proof. intros Ht. cbn [EventLoop.dispatch]. by rewrite st_bind_gets, Ht. Qed.

(** ** Authentication refused *)

(** C5: a token response with a status other than 200 ends the process
    with exit code 1 before its callback runs: nothing more is sent, and
    no later input has any effect. *)
Theorem auth_failure_halts s id k code body :
  status s = Running -> tasks s !! id = Some (TAuth k) -> code <> 200 ->
  let s' := EventLoop.step cfg s (EventLoop.TokenReply id (HttpResponse code body)) in
  status s' = Exited 1 /\ sent s' = sent s /\ pending s' = pending s /\
  forall inputs, EventLoop.run cfg s' inputs = s'.
Proof.
  intros Hrun Ht Hc s'.
  assert (Hs' : status s' = Exited 1 /\ sent s' = sent s /\ pending s' = pending s).
  { subst s'. rewrite EventLoop.step_running, (dispatch_token s id k) by done.
    by rewrite Auth.on_token_response_reject. }
  split; [apply Hs'|]. split; [apply Hs'|]. split; [apply Hs'|].
  intros inputs. apply EventLoop.run_stopped. by rewrite (proj1 Hs').
Qed.

(** C20: a transport error on the token request crashes the process
    with a [TypeError] at [response.statusCode]: the callback is
    retired, nothing is logged and the process does not exit with code 1
    as it does for a refused token; [pending] keeps the path. *)
Theorem token_transport_error_crashes s id k e :
  status s = Running -> tasks s !! id = Some (TAuth k) ->
  EventLoop.step cfg s (EventLoop.TokenReply id (HttpError e)) =
    mkProc (pending s) (delete id (tasks s)) (next_task s) (sent s) (console s)
           (Crashed (TypeError "Cannot read properties of undefined (reading 'statusCode')")).
Proof.
  intros Hrun Ht. by rewrite EventLoop.step_running, (dispatch_token s id k) by done.
Qed.

(** ** The upload response *)

(** What authenticating for a message sends first and registers: the
    post itself under a user token, the token request otherwise. *)
Definition message_first_request (spaceId : string) (msg : message_data) : request :=
  if js_truthy_str (USER_JWT cfg) then
    ReqMessage (watsonWork +:+ "/" +:+ Message.spacesAPI spaceId)
               (bearer (default "" (USER_JWT cfg))) msg
  else Auth.authenticationOptions cfg.

Definition message_first_task (spaceId : string) (msg : message_data) : task :=
  if js_truthy_str (USER_JWT cfg) then TPost else TAuth (KMessage spaceId msg).

Lemma authenticate_message spaceId msg s :
  Auth.authenticateApp cfg Upload.resume (KMessage spaceId msg) s =
    (Ok tt, mkProc (pending s) (<[next_task s := message_first_task spaceId msg]> (tasks s))
                   (S (next_task s)) (sent s ++ [message_first_request spaceId msg])
                   (console s) (status s)).
Proof.
  unfold Auth.authenticateApp, message_first_task, message_first_request.
  by destruct (js_truthy_str _).
Qed.

Lemma on_data_first_steps sp f fs body s fileId :
  json_entry_id body = Some fileId ->
  Upload.on_data cfg sp f fs body s =
    (Message.sendMessage cfg Upload.resume sp fileId f fs ≫= fun _ => Upload.remove_pending f)
      (console_log (LogText ("BODY: " +:+ body)) s).2.
Proof.
  intros Hj. unfold Upload.on_data.
  rewrite (st_bind_ok _ _ _ tt _ (console_log_run _ _)). by rewrite Hj.
Qed.

Lemma step_data_chunk s id sp f fs body fileId m d :
  status s = Running -> tasks s !! id = Some (TStream sp f fs) ->
  json_entry_id body = Some fileId ->
  mime_lookup (Message.shortName_of cfg f) = Some m -> Message.message_dims f m = Some d ->
  let msg := messageData fileId (Message.shortName_of cfg f) m fs d in
  EventLoop.step cfg s (EventLoop.StreamData id body) =
    mkProc (remove_first f (pending s)) (<[next_task s := message_first_task sp msg]> (tasks s))
           (S (next_task s)) (sent s ++ [message_first_request sp msg])
           (console s ++ [LogText ("BODY: " +:+ body); LogMessage msg]) (status s).
Proof.
  intros Hrun Ht Hj Hm Hd msg.
  rewrite EventLoop.step_running, (dispatch_data s id sp f fs) by done.
  rewrite (on_data_first_steps _ _ _ _ _ fileId Hj).
  rewrite (st_bind_ok _ _ _ tt _ (eq_trans (Message.sendMessage_unfold cfg _ _ _ _ _ m d _ Hm Hd)
                                            (authenticate_message _ _ _))).
  rewrite Upload.remove_pending_run. cbn. by rewrite <- app_assoc.
Qed.

(** C6: when the upload response arrives, its ['data'] listener takes
    the path out of [pending] in the same turn, while the message is
    only starting: its first request is sent and its callback is
    registered, the message is not delivered yet.  The listener stays
    registered for later chunks. *)
Theorem data_chunk_removes_before_post s id sp f fs body fileId m d :
  status s = Running -> tasks s !! id = Some (TStream sp f fs) -> NoDup (pending s) ->
  json_entry_id body = Some fileId ->
  mime_lookup (Message.shortName_of cfg f) = Some m -> Message.message_dims f m = Some d ->
  let msg := messageData fileId (Message.shortName_of cfg f) m fs d in
  let s' := EventLoop.step cfg s (EventLoop.StreamData id body) in
  status s' = Running /\ pending s' = remove_first f (pending s) /\ f ∉ pending s' /\
  tasks s' = <[next_task s := message_first_task sp msg]> (tasks s) /\
  sent s' = sent s ++ [message_first_request sp msg] /\
  LogMessage msg ∈ console s'.
Proof.
  intros Hrun Ht Hnd Hj Hm Hd msg s'.
  subst s'. rewrite (step_data_chunk s id sp f fs body fileId m d) by done. cbn.
  split; [done|]. split; [done|]. split.
  - intros Hin. apply (elem_of_remove_first_NoDup _ _ _ Hnd) in Hin. naive_solver.
  - split; [done|]. split; [done|]. set_solver.
Qed.

(** C8: the ['data'] listener runs for every chunk of the response.  A
    late chunk of an earlier upload's response takes the path out of
    [pending] while a newer upload of the same path is in flight, and
    the next creation event starts a second, concurrent upload of that
    path: the de-duplication the [pending] array is for fails. *)
Theorem late_chunk_allows_duplicate_upload s id id2 sp f fs fs2 body fileId m d st :
  status s = Running -> NoDup (pending s) -> (id2 < next_task s)%nat ->
  tasks s !! id = Some (TStream sp f fs) -> tasks s !! id2 = Some (TSubmit sp f fs2) ->
  json_entry_id body = Some fileId ->
  mime_lookup (Message.shortName_of cfg f) = Some m -> Message.message_dims f m = Some d ->
  let s1 := EventLoop.step cfg s (EventLoop.StreamData id body) in
  let s2 := EventLoop.step cfg s1 (EventLoop.FsEvent (Watcher.FileEvent f (Some st) None)) in
  status s2 = Running /\
  tasks s2 !! id2 = Some (TSubmit sp f fs2) /\
  tasks s2 !! S (next_task s) = Some (Watcher.upload_first_task cfg f (size st)).
Proof.
  intros Hrun Hnd Hid Ht Ht2 Hj Hm Hd s1 s2.
  assert (Hf : f ∉ pending s1).
  { subst s1. rewrite (step_data_chunk s id sp f fs body fileId m d) by done. cbn.
    intros Hin. apply (elem_of_remove_first_NoDup _ _ _ Hnd) in Hin. naive_solver. }
  assert (Hrun1 : status s1 = Running)
    by (subst s1; by rewrite (step_data_chunk s id sp f fs body fileId m d)).
  assert (Hs2 : s2 = (Watcher.on_created cfg f (Some st) s1).2).
  { subst s2. rewrite EventLoop.step_running by done. cbn [EventLoop.dispatch Watcher.watch_callback].
    by rewrite (Watcher.on_created_fresh cfg f st s1 Hf). }
  rewrite Hs2, (Watcher.on_created_fresh cfg f st s1 Hf). subst s1.
  rewrite (step_data_chunk s id sp f fs body fileId m d) by done. cbn.
  split; [done|]. split.
  - rewrite !lookup_insert_ne by lia. done.
  - by rewrite lookup_insert_eq.
Qed.

(** C12: the listener is not removed after the first chunk: when the
    response arrives in two chunks that both parse, each one starts a
    message for the file, so the space receives two messages for one
    upload. *)
Theorem every_chunk_posts_message s id sp f fs b1 b2 fileId1 fileId2 m d :
  EventLoop.reachable cfg s -> status s = Running -> tasks s !! id = Some (TStream sp f fs) ->
  json_entry_id b1 = Some fileId1 -> json_entry_id b2 = Some fileId2 ->
  mime_lookup (Message.shortName_of cfg f) = Some m -> Message.message_dims f m = Some d ->
  let msg i := messageData i (Message.shortName_of cfg f) m fs d in
  let s2 := EventLoop.run cfg s [EventLoop.StreamData id b1; EventLoop.StreamData id b2] in
  status s2 = Running /\
  sent s2 = sent s ++ [message_first_request sp (msg fileId1); message_first_request sp (msg fileId2)].
Proof.
  intros Hr Hrun Ht Hj1 Hj2 Hm Hd msg s2. subst s2. cbn [EventLoop.run fold_left].
  rewrite (step_data_chunk s id sp f fs b1 fileId1 m d) by done.
  pose proof (Footprint.reachable_ids_below cfg s Hr id _ Ht) as Hid. cbn in Hid.
  rewrite (step_data_chunk _ id sp f fs b2 fileId2 m d); cbn; [|done|by lookup_simpl|done..].
  split; [done|]. by rewrite <- app_assoc.
Qed.

(** C19: when [mime.lookup] answers [false], [sendMessage] throws inside
    the ['data'] listener: the process crashes before the removal from
    [pending], with no message request sent. *)
Theorem unknown_type_crashes_with_path_pending s id sp f fs body fileId :
  status s = Running -> tasks s !! id = Some (TStream sp f fs) ->
  json_entry_id body = Some fileId -> mime_lookup (Message.shortName_of cfg f) = None ->
  let s' := EventLoop.step cfg s (EventLoop.StreamData id body) in
  status s' = Crashed (TypeError "mimeType.indexOf is not a function") /\
  pending s' = pending s /\ sent s' = sent s /\ tasks s' = tasks s.
Proof.
  intros Hrun Ht Hj Hm s'. subst s'.
  rewrite EventLoop.step_running, (dispatch_data s id sp f fs) by done.
  rewrite (on_data_first_steps _ _ _ _ _ fileId Hj).
  rewrite (st_bind_throw _ _ _ _ _ (Message.sendMessage_unknown_type cfg _ _ _ _ _ _ Hm)).
  done.
Qed.

(** ** A failed upload *)

(** Watch events never take a path out of [pending]. *)
Lemma watch_events_keep_pending f s evs :
  f ∈ pending s -> f ∈ pending (EventLoop.run cfg s (map EventLoop.FsEvent evs)).
Proof.
  revert s. induction evs as [|ev evs IH]; intros s Hf; [done|]. cbn. apply IH.
  apply (EventLoop.step_preserves cfg (fun s => f ∈ pending s)); [done| |done].
  intros s1 Hs1. cbn [EventLoop.dispatch].
  destruct (Watcher.watch_callback_pending cfg ev s1) as [->|(g & curr & _ & ->)];
    [done|]. case_bool_decide; set_solver.
Qed.

Lemma step_creation_member f curr s :
  f ∈ pending s -> EventLoop.step cfg s (EventLoop.FsEvent (Watcher.FileEvent f curr None)) = s.
Proof.
  intros Hf. unfold EventLoop.step. destruct (status s); [|done..].
  cbn [EventLoop.dispatch Watcher.watch_callback]. by rewrite Watcher.on_created_member.
Qed.

(** C7: when the upload's transport fails, the submit callback only logs:
    the path stays in [pending], no later watch event removes it, and so
    every later creation event for that path is ignored; the file is
    never uploaded again. *)
Theorem upload_error_path_stuck s id sp f fs e :
  status s = Running -> tasks s !! id = Some (TSubmit sp f fs) -> f ∈ pending s ->
  let s' := EventLoop.step cfg s (EventLoop.SubmitReply id (Some e)) in
  status s' = Running /\ pending s' = pending s /\ tasks s' = delete id (tasks s) /\
  forall evs curr,
    let s'' := EventLoop.run cfg s' (map EventLoop.FsEvent evs) in
    EventLoop.step cfg s'' (EventLoop.FsEvent (Watcher.FileEvent f curr None)) = s''.
Proof.
  intros Hrun Ht Hf s'.
  assert (Hs' : s' = mkProc (pending s) (delete id (tasks s)) (next_task s) (sent s)
                            (console s ++ [LogSendError e]) (status s)).
  { subst s'. rewrite EventLoop.step_running, (dispatch_submit s id sp f fs) by done. done. }
  rewrite Hs'. split; [done|]. split; [done|]. split; [done|].
  intros evs curr. apply step_creation_member, watch_events_keep_pending. done.
Qed.

(** ** The message post's response *)

(** C21: a transport error on the message post crashes the process:
    [response] is undefined and [response.statusCode] throws. *)
Theorem post_transport_error_crashes s id e :
  status s = Running -> tasks s !! id = Some TPost ->
  status (EventLoop.step cfg s (EventLoop.PostReply id (HttpError e))) =
    Crashed (TypeError "Cannot read properties of undefined (reading 'statusCode')").
Proof.
  intros Hrun Ht. rewrite EventLoop.step_running, (dispatch_post s id) by done. done.
Qed.

(** C22: a post answered with a status other than 201 logs the error
    text, the status and [null], retires the callback, and the process
    keeps running; nothing is retried. *)
Theorem post_rejected_logged s id code body :
  status s = Running -> tasks s !! id = Some TPost -> code <> 201 ->
  EventLoop.step cfg s (EventLoop.PostReply id (HttpResponse code body)) =
    mkProc (pending s) (delete id (tasks s)) (next_task s) (sent s)
           (console s ++ [LogText "Error posting newrelic information."; LogStatus code; LogErr None])
           Running.
Proof.
  intros Hrun Ht Hc. rewrite EventLoop.step_running, (dispatch_post s id) by done.
  unfold Message.on_post_response. rewrite (proj2 (Z.eqb_neq _ _) Hc).
  unfold console_log, set_tasks. st_simpl.
  by rewrite <- !app_assoc, Hrun.
Qed.

End Pipeline.

(** ** Witnesses: one file's pipeline replayed *)

Definition create_a : EventLoop.input :=
  EventLoop.FsEvent (Watcher.FileEvent "/watch/a.txt" (Some (mkStat 12 1)) None).

Definition form_a : form_data := Upload.upload_form demo_config "space-1" "/watch/a.txt".

(** After the creation event, with application credentials: the token
    request is in flight under identifier 0. *)
Definition s_auth : proc := EventLoop.run demo_config init_proc [create_a].

(** With a user token: the upload is in flight under 0; then its
    response stream; then the message post under 1. *)
Definition s_submit : proc := EventLoop.run demo_config_jwt init_proc [create_a].
Definition s_stream : proc :=
  EventLoop.run demo_config_jwt init_proc [create_a; EventLoop.SubmitReply 0 None].
Definition s_post : proc :=
  EventLoop.run demo_config_jwt init_proc
    [create_a; EventLoop.SubmitReply 0 None; EventLoop.StreamData 0 "file-42"].

Lemma auth_failure_halts_witness :
  status s_auth = Running /\ tasks s_auth !! 0%nat = Some (TAuth (KUpload "space-1" "/watch/a.txt" 12 form_a)) /\
  500 <> 200 /\
  let s' := EventLoop.step demo_config s_auth (EventLoop.TokenReply 0 (HttpResponse 500 "denied")) in
  status s' = Exited 1 /\ sent s' = sent s_auth /\ pending s' = pending s_auth /\
  forall inputs, EventLoop.run demo_config s' inputs = s'.
Proof.
  assert (H1 : status s_auth = Running) by reflexivity.
  assert (H2 : tasks s_auth !! 0%nat = Some (TAuth (KUpload "space-1" "/watch/a.txt" 12 form_a)))
    by (vm_compute; reflexivity).
  assert (H3 : 500 <> 200) by lia.
  split; [exact H1|]. split; [exact H2|]. split; [exact H3|].
  exact (auth_failure_halts demo_config s_auth 0 _ 500 "denied" H1 H2 H3).
Defined.

Lemma data_chunk_removes_before_post_witness :
  status s_stream = Running /\ tasks s_stream !! 0%nat = Some (TStream "space-1" "/watch/a.txt" 12) /\
  NoDup (pending s_stream) /\ json_entry_id "file-42" = Some "file-42" /\
  mime_lookup (Message.shortName_of demo_config_jwt "/watch/a.txt") = Some "text/plain" /\
  Message.message_dims "/watch/a.txt" "text/plain" = Some no_dims /\
  let msg := messageData "file-42" (Message.shortName_of demo_config_jwt "/watch/a.txt") "text/plain" 12 no_dims in
  let s' := EventLoop.step demo_config_jwt s_stream (EventLoop.StreamData 0 "file-42") in
  status s' = Running /\ pending s' = remove_first "/watch/a.txt" (pending s_stream) /\
  "/watch/a.txt" ∉ pending s' /\
  tasks s' = <[next_task s_stream := message_first_task demo_config_jwt "space-1" msg]> (tasks s_stream) /\
  sent s' = sent s_stream ++ [message_first_request demo_config_jwt "space-1" msg] /\
  LogMessage msg ∈ console s'.
Proof.
  assert (H1 : status s_stream = Running) by reflexivity.
  assert (H2 : tasks s_stream !! 0%nat = Some (TStream "space-1" "/watch/a.txt" 12)) by (vm_compute; reflexivity).
  assert (H3 : NoDup (pending s_stream)) by (apply (bool_decide_unpack _); vm_compute; reflexivity).
  assert (H4 : json_entry_id "file-42" = Some "file-42") by reflexivity.
  assert (H5 : mime_lookup (Message.shortName_of demo_config_jwt "/watch/a.txt") = Some "text/plain")
    by (vm_compute; reflexivity).
  assert (H6 : Message.message_dims "/watch/a.txt" "text/plain" = Some no_dims) by (vm_compute; reflexivity).
  do 6 (split; [assumption|]).
  exact (data_chunk_removes_before_post demo_config_jwt s_stream 0 _ _ _ _ _ _ _ H1 H2 H3 H4 H5 H6).
Defined.

Definition s_stream_xyz : proc :=
  EventLoop.run demo_config_jwt init_proc
    [EventLoop.FsEvent (Watcher.FileEvent "/watch/notes.xyz" (Some (mkStat 3 1)) None);
     EventLoop.SubmitReply 0 None].

Lemma unknown_type_crashes_with_path_pending_witness :
  status s_stream_xyz = Running /\
  tasks s_stream_xyz !! 0%nat = Some (TStream "space-1" "/watch/notes.xyz" 3) /\
  json_entry_id "file-7" = Some "file-7" /\
  mime_lookup (Message.shortName_of demo_config_jwt "/watch/notes.xyz") = None /\
  let s' := EventLoop.step demo_config_jwt s_stream_xyz (EventLoop.StreamData 0 "file-7") in
  status s' = Crashed (TypeError "mimeType.indexOf is not a function") /\
  pending s' = pending s_stream_xyz /\ sent s' = sent s_stream_xyz /\ tasks s' = tasks s_stream_xyz.
Proof.
  assert (H1 : status s_stream_xyz = Running) by reflexivity.
  assert (H2 : tasks s_stream_xyz !! 0%nat = Some (TStream "space-1" "/watch/notes.xyz" 3))
    by (vm_compute; reflexivity).
  assert (H3 : json_entry_id "file-7" = Some "file-7") by reflexivity.
  assert (H4 : mime_lookup (Message.shortName_of demo_config_jwt "/watch/notes.xyz") = None)
    by (vm_compute; reflexivity).
  do 4 (split; [assumption|]).
  exact (unknown_type_crashes_with_path_pending demo_config_jwt _ 0 _ _ _ _ _ H1 H2 H3 H4).
Defined.

Lemma upload_error_path_stuck_witness :
  status s_submit = Running /\ tasks s_submit !! 0%nat = Some (TSubmit "space-1" "/watch/a.txt" 12) /\
  "/watch/a.txt" ∈ pending s_submit /\
  let s' := EventLoop.step demo_config_jwt s_submit (EventLoop.SubmitReply 0 (Some "ECONNRESET")) in
  status s' = Running /\ pending s' = pending s_submit /\ tasks s' = delete 0%nat (tasks s_submit) /\
  forall evs curr,
    let s'' := EventLoop.run demo_config_jwt s' (map EventLoop.FsEvent evs) in
    EventLoop.step demo_config_jwt s'' (EventLoop.FsEvent (Watcher.FileEvent "/watch/a.txt" curr None)) = s''.
Proof.
  assert (H1 : status s_submit = Running) by reflexivity.
  assert (H2 : tasks s_submit !! 0%nat = Some (TSubmit "space-1" "/watch/a.txt" 12)) by (vm_compute; reflexivity).
  assert (H3 : "/watch/a.txt" ∈ pending s_submit) by (apply (bool_decide_unpack _); vm_compute; reflexivity).
  do 3 (split; [assumption|]).
  exact (upload_error_path_stuck demo_config_jwt s_submit 0 _ _ _ "ECONNRESET" H1 H2 H3).
Defined.

Lemma post_transport_error_crashes_witness :
  status s_post = Running /\ tasks s_post !! 1%nat = Some TPost /\
  status (EventLoop.step demo_config_jwt s_post (EventLoop.PostReply 1 (HttpError "ETIMEDOUT"))) =
    Crashed (TypeError "Cannot read properties of undefined (reading 'statusCode')").
Proof.
  assert (H1 : status s_post = Running) by reflexivity.
  assert (H2 : tasks s_post !! 1%nat = Some TPost) by (vm_compute; reflexivity).
  split; [exact H1|]. split; [exact H2|].
  exact (post_transport_error_crashes demo_config_jwt s_post 1 "ETIMEDOUT" H1 H2).
Defined.

Lemma post_rejected_logged_witness :
  status s_post = Running /\ tasks s_post !! 1%nat = Some TPost /\ 403 <> 201 /\
  EventLoop.step demo_config_jwt s_post (EventLoop.PostReply 1 (HttpResponse 403 "forbidden")) =
    mkProc (pending s_post) (delete 1%nat (tasks s_post)) (next_task s_post) (sent s_post)
           (console s_post ++ [LogText "Error posting newrelic information."; LogStatus 403; LogErr None])
           Running.
Proof.
  assert (H1 : status s_post = Running) by reflexivity.
  assert (H2 : tasks s_post !! 1%nat = Some TPost) by (vm_compute; reflexivity).
  assert (H3 : 403 <> 201) by lia.
  split; [exact H1|]. split; [exact H2|]. split; [exact H3|].
  exact (post_rejected_logged demo_config_jwt s_post 1 403 "forbidden" H1 H2 H3).
Defined.
(** The first upload of [/watch/a.txt] answered, its path re-created,
    and the second upload in flight under identifier 2, while the first
    response stream (identifier 0) is still open. *)
Definition s_race : proc :=
  EventLoop.run demo_config_jwt init_proc
    [create_a; EventLoop.SubmitReply 0 None; EventLoop.StreamData 0 "file-1"; create_a].

Lemma late_chunk_allows_duplicate_upload_witness :
  status s_race = Running /\ NoDup (pending s_race) /\ (2 < next_task s_race)%nat /\
  tasks s_race !! 0%nat = Some (TStream "space-1" "/watch/a.txt" 12) /\
  tasks s_race !! 2%nat = Some (TSubmit "space-1" "/watch/a.txt" 12) /\
  json_entry_id "file-1" = Some "file-1" /\
  mime_lookup (Message.shortName_of demo_config_jwt "/watch/a.txt") = Some "text/plain" /\
  Message.message_dims "/watch/a.txt" "text/plain" = Some no_dims /\
  let s1 := EventLoop.step demo_config_jwt s_race (EventLoop.StreamData 0 "file-1") in
  let s2 := EventLoop.step demo_config_jwt s1
              (EventLoop.FsEvent (Watcher.FileEvent "/watch/a.txt" (Some (mkStat 12 1)) None)) in
  status s2 = Running /\
  tasks s2 !! 2%nat = Some (TSubmit "space-1" "/watch/a.txt" 12) /\
  tasks s2 !! S (next_task s_race) = Some (Watcher.upload_first_task demo_config_jwt "/watch/a.txt" 12).
Proof.
  assert (H1 : status s_race = Running) by reflexivity.
  assert (H2 : NoDup (pending s_race)) by (apply (bool_decide_unpack _); vm_compute; reflexivity).
  assert (H3 : (2 < next_task s_race)%nat) by (vm_compute; lia).
  assert (H4 : tasks s_race !! 0%nat = Some (TStream "space-1" "/watch/a.txt" 12)) by (vm_compute; reflexivity).
  assert (H5 : tasks s_race !! 2%nat = Some (TSubmit "space-1" "/watch/a.txt" 12)) by (vm_compute; reflexivity).
  assert (H6 : json_entry_id "file-1" = Some "file-1") by reflexivity.
  assert (H7 : mime_lookup (Message.shortName_of demo_config_jwt "/watch/a.txt") = Some "text/plain")
    by (vm_compute; reflexivity).
  assert (H8 : Message.message_dims "/watch/a.txt" "text/plain" = Some no_dims) by (vm_compute; reflexivity).
  do 8 (split; [assumption|]).
  exact (late_chunk_allows_duplicate_upload demo_config_jwt s_race 0 2 _ _ _ _ _ _ _ _ (mkStat 12 1)
           H1 H2 H3 H4 H5 H6 H7 H8).
Defined.

Lemma token_transport_error_crashes_witness :
  status s_auth = Running /\
  tasks s_auth !! 0%nat = Some (TAuth (KUpload "space-1" "/watch/a.txt" 12 form_a)) /\
  EventLoop.step demo_config s_auth (EventLoop.TokenReply 0 (HttpError "ECONNREFUSED")) =
    mkProc (pending s_auth) (delete 0%nat (tasks s_auth)) (next_task s_auth) (sent s_auth)
           (console s_auth)
           (Crashed (TypeError "Cannot read properties of undefined (reading 'statusCode')")).
Proof.
  assert (H1 : status s_auth = Running) by reflexivity.
  assert (H2 : tasks s_auth !! 0%nat = Some (TAuth (KUpload "space-1" "/watch/a.txt" 12 form_a)))
    by (vm_compute; reflexivity).
  split; [exact H1|]. split; [exact H2|].
  exact (token_transport_error_crashes demo_config s_auth 0 _ "ECONNREFUSED" H1 H2).
Defined.

Lemma every_chunk_posts_message_witness :
  EventLoop.reachable demo_config_jwt s_stream /\ status s_stream = Running /\
  tasks s_stream !! 0%nat = Some (TStream "space-1" "/watch/a.txt" 12) /\
  json_entry_id "file-1" = Some "file-1" /\ json_entry_id "file-2" = Some "file-2" /\
  mime_lookup (Message.shortName_of demo_config_jwt "/watch/a.txt") = Some "text/plain" /\
  Message.message_dims "/watch/a.txt" "text/plain" = Some no_dims /\
  (let msg i := messageData i (Message.shortName_of demo_config_jwt "/watch/a.txt") "text/plain" 12 no_dims in
   let s2 := EventLoop.run demo_config_jwt s_stream
               [EventLoop.StreamData 0 "file-1"; EventLoop.StreamData 0 "file-2"] in
   status s2 = Running /\
   sent s2 = sent s_stream ++ [message_first_request demo_config_jwt "space-1" (msg "file-1");
                               message_first_request demo_config_jwt "space-1" (msg "file-2")]).
Proof.
  assert (H0 : EventLoop.reachable demo_config_jwt s_stream)
    by (apply EventLoop.reachable_run; eexists; reflexivity).
  assert (H1 : status s_stream = Running) by reflexivity.
  assert (H2 : tasks s_stream !! 0%nat = Some (TStream "space-1" "/watch/a.txt" 12)) by (vm_compute; reflexivity).
  assert (H3 : json_entry_id "file-1" = Some "file-1") by reflexivity.
  assert (H4 : json_entry_id "file-2" = Some "file-2") by reflexivity.
  assert (H5 : mime_lookup (Message.shortName_of demo_config_jwt "/watch/a.txt") = Some "text/plain")
    by (vm_compute; reflexivity).
  assert (H6 : Message.message_dims "/watch/a.txt" "text/plain" = Some no_dims) by (vm_compute; reflexivity).
  do 7 (split; [assumption|]).
  exact (every_chunk_posts_message demo_config_jwt s_stream 0 _ _ _ _ _ _ _ _ _ H0 H1 H2 H3 H4 H5 H6).
Defined.
End Pipeline.
