(* ===== verification/Liveness.v ===== *)
(** * Progress of one file under a cooperating network

    The program cannot make the network answer, so its liveness is
    relative to the environment: when every request of a file's pipeline
    is answered successfully, the pipeline runs to its end.  This file
    follows a creation event from an arbitrary reachable state through
    the six turns the code needs with application credentials (token,
    upload, response chunk, token, post, post response) and shows the
    end state: the upload and the message were sent with the tokens
    received, the path is out of [pending], and of the callbacks the
    pipeline registered only the response stream's listener remains.
    Each turn is a lemma about [EventLoop.step] on any state where the
    matching callback is registered. *)

From stdpp Require Import base list gmap strings.
From S2P Require Import JsPrelude Env Payload Proc Auth Message Upload Watcher EventLoop.
From S2P Require Import Footprint Pipeline.

Open Scope Z_scope.

Module Liveness.
Section Liveness.
Context (cfg : config) `{!Libs}.

(** ** One turn per completion *)

Lemma step_create s f st :
  status s = Running -> f ∉ pending s ->
  EventLoop.step cfg s (EventLoop.FsEvent (Watcher.FileEvent f (Some st) None)) =
    mkProc (pending s ++ [f])
           (<[next_task s := Watcher.upload_first_task cfg f (size st)]> (tasks s))
           (S (next_task s)) (sent s ++ [Watcher.upload_first_request cfg f])
           (console s ++ [LogFileEvent "File Created:" f (Some st) None]) (status s).
Proof.
  intros Hrun Hf. rewrite EventLoop.step_running by done.
  cbn [EventLoop.dispatch Watcher.watch_callback]. by rewrite Watcher.on_created_fresh.
Qed.

Lemma step_token_upload s id sp f fs form tb tok :
  status s = Running -> tasks s !! id = Some (TAuth (KUpload sp f fs form)) ->
  json_access_token tb = Some tok ->
  EventLoop.step cfg s (EventLoop.TokenReply id (HttpResponse 200 tb)) =
    mkProc (pending s) (<[next_task s := TSubmit sp f fs]> (delete id (tasks s)))
           (S (next_task s))
           (sent s ++ [ReqUpload "api.watsonwork.ibm.com" Upload.filesAPI (bearer tok) form])
           (console s) (status s).
Proof.
  intros Hrun Ht Hj. rewrite EventLoop.step_running, (Pipeline.dispatch_token cfg s id _ _ Ht) by done.
  by erewrite Auth.on_token_response_accept by exact Hj.
Qed.

Lemma step_token_message s id sp msg tb tok :
  status s = Running -> tasks s !! id = Some (TAuth (KMessage sp msg)) ->
  json_access_token tb = Some tok ->
  EventLoop.step cfg s (EventLoop.TokenReply id (HttpResponse 200 tb)) =
    mkProc (pending s) (<[next_task s := TPost]> (delete id (tasks s))) (S (next_task s))
           (sent s ++ [ReqMessage (watsonWork +:+ "/" +:+ Message.spacesAPI sp) (bearer tok) msg])
           (console s) (status s).
Proof.
  intros Hrun Ht Hj. rewrite EventLoop.step_running, (Pipeline.dispatch_token cfg s id _ _ Ht) by done.
  by erewrite Auth.on_token_response_accept by exact Hj.
Qed.

Lemma step_submit_ok s id sp f fs :
  status s = Running -> tasks s !! id = Some (TSubmit sp f fs) ->
  EventLoop.step cfg s (EventLoop.SubmitReply id None) =
    set_tasks (<[id := TStream sp f fs]> (delete id (tasks s))) s.
Proof.
  intros Hrun Ht. by rewrite EventLoop.step_running, (Pipeline.dispatch_submit cfg s id sp f fs _ Ht) by done.
Qed.

Lemma step_post_ok s id body :
  status s = Running -> tasks s !! id = Some TPost ->
  EventLoop.step cfg s (EventLoop.PostReply id (HttpResponse 201 body)) =
    set_tasks (delete id (tasks s)) s.
Proof.
  intros Hrun Ht. by rewrite EventLoop.step_running, (Pipeline.dispatch_post cfg s id _ Ht) by done.
Qed.

(** ** The whole pipeline *)

(** The inputs a cooperating network delivers for one file created
    when [next_task] is [n]: the token, the upload's success, one
    response chunk, the token for the message, and the post's 201. *)
Definition pipeline_inputs (f : string) (st : stat) (n : nat) (tb body pb : string)
    : list EventLoop.input :=
  [EventLoop.FsEvent (Watcher.FileEvent f (Some st) None);
   EventLoop.TokenReply n (HttpResponse 200 tb);
   EventLoop.SubmitReply (S n) None;
   EventLoop.StreamData (S n) body;
   EventLoop.TokenReply (S (S n)) (HttpResponse 200 tb);
   EventLoop.PostReply (S (S (S n))) (HttpResponse 201 pb)].

(** C10: with application credentials, from any reachable running
    state in which [f] is not pending, a cooperating network completes
    [f]'s pipeline in six turns: the token request, the upload with the
    token received, a second token request and the message post with it
    are sent in this order; [pending] is as before the creation; the
    process keeps running; and of the callbacks it registered only the
    response stream's listener remains. *)
Theorem file_pipeline_completes s f st tb tok body fileId pb m d :
  EventLoop.reachable cfg s -> status s = Running -> f ∉ pending s ->
  js_truthy_str (USER_JWT cfg) = false -> json_access_token tb = Some tok ->
  json_entry_id body = Some fileId ->
  mime_lookup (Message.shortName_of cfg f) = Some m -> Message.message_dims f m = Some d ->
  let n := next_task s in
  let sp := SPACE_ID cfg in
  let msg := messageData fileId (Message.shortName_of cfg f) m (size st) d in
  let s' := EventLoop.run cfg s (pipeline_inputs f st n tb body pb) in
  status s' = Running /\ pending s' = pending s /\
  tasks s' = <[S n := TStream sp f (size st)]> (tasks s) /\
  sent s' = sent s ++
    [Auth.authenticationOptions cfg;
     ReqUpload "api.watsonwork.ibm.com" Upload.filesAPI (bearer tok) (Upload.upload_form cfg sp f);
     Auth.authenticationOptions cfg;
     ReqMessage (watsonWork +:+ "/" +:+ Message.spacesAPI sp) (bearer tok) msg].
Proof.
  intros Hr Hrun Hf Hjs Htok Hid Hm Hd n sp msg s'. subst s'. unfold pipeline_inputs.
  rewrite EventLoop.run_cons, step_create by done.
  unfold Watcher.upload_first_task, Watcher.upload_first_request. rewrite Hjs.
  rewrite EventLoop.run_cons, (step_token_upload _ n sp f (size st) _ _ tok) by (cbn; by rewrite ?Hrun, ?lookup_insert_eq).
  rewrite EventLoop.run_cons, (step_submit_ok _ (S n) sp f (size st)) by (cbn; by rewrite ?Hrun, ?lookup_insert_eq).
  rewrite EventLoop.run_cons, (Pipeline.step_data_chunk cfg _ (S n) sp f (size st) body fileId m d)
    by (cbn; by rewrite ?Hrun, ?lookup_insert_eq).
  unfold Pipeline.message_first_task, Pipeline.message_first_request. rewrite Hjs.
  rewrite EventLoop.run_cons, (step_token_message _ (S (S n)) sp _ _ tok)
    by (cbn; by rewrite ?Hrun, ?lookup_insert_eq).
  rewrite EventLoop.run_cons, (step_post_ok _ (S (S (S n))))
    by (cbn; by rewrite ?Hrun, ?lookup_insert_eq).
  cbn. rewrite Hrun, remove_first_app_absent, decide_True by done.
  split; [done|]. split; [done|]. split; [|by rewrite <- !app_assoc].
  pose proof (Footprint.reachable_fresh cfg s) as Hfresh.
  apply map_eq. intros j. fold n.
  destruct (decide (j = n)) as [->|]; [lookup_simpl; symmetry; apply Hfresh; [done|lia]|].
  destruct (decide (j = S n)) as [->|]; [by lookup_simpl|].
  destruct (decide (j = S (S n))) as [->|]; [lookup_simpl; symmetry; apply Hfresh; [done|lia]|].
  destruct (decide (j = S (S (S n)))) as [->|]; [lookup_simpl; symmetry; apply Hfresh; [done|lia]|].
  by lookup_simpl.
Qed.

(** The inputs for one file in user-token mode: the upload's success,
    one response chunk and the post's 201. *)
Definition pipeline_inputs_user (f : string) (st : stat) (n : nat) (body pb : string)
    : list EventLoop.input :=
  [EventLoop.FsEvent (Watcher.FileEvent f (Some st) None);
   EventLoop.SubmitReply n None;
   EventLoop.StreamData n body;
   EventLoop.PostReply (S n) (HttpResponse 201 pb)].

(** C11: with a non-empty [USER_JWT], from any reachable running state
    in which [f] is not pending, a cooperating network completes [f]'s
    pipeline in four turns: the upload and the message post are sent
    with [Bearer USER_JWT] and nothing else is sent; [pending] is as
    before the creation; the process keeps running; only the response
    stream's listener remains registered. *)
Theorem file_pipeline_completes_user_token s f st jwt body fileId pb m d :
  EventLoop.reachable cfg s -> status s = Running -> f ∉ pending s ->
  USER_JWT cfg = Some jwt -> js_truthy_str (Some jwt) = true ->
  json_entry_id body = Some fileId ->
  mime_lookup (Message.shortName_of cfg f) = Some m -> Message.message_dims f m = Some d ->
  let n := next_task s in
  let sp := SPACE_ID cfg in
  let msg := messageData fileId (Message.shortName_of cfg f) m (size st) d in
  let s' := EventLoop.run cfg s (pipeline_inputs_user f st n body pb) in
  status s' = Running /\ pending s' = pending s /\
  tasks s' = <[n := TStream sp f (size st)]> (tasks s) /\
  sent s' = sent s ++
    [ReqUpload "api.watsonwork.ibm.com" Upload.filesAPI (bearer jwt) (Upload.upload_form cfg sp f);
     ReqMessage (watsonWork +:+ "/" +:+ Message.spacesAPI sp) (bearer jwt) msg].
Proof.
  intros Hr Hrun Hf Hjwt Hjs Hid Hm Hd n sp msg s'. subst s'. unfold pipeline_inputs_user.
  rewrite EventLoop.run_cons, step_create by done.
  unfold Watcher.upload_first_task, Watcher.upload_first_request. rewrite Hjwt, Hjs.
  rewrite EventLoop.run_cons, (step_submit_ok _ n sp f (size st)) by (cbn; by rewrite ?Hrun, ?lookup_insert_eq).
  rewrite EventLoop.run_cons, (Pipeline.step_data_chunk cfg _ n sp f (size st) body fileId m d)
    by (cbn; by rewrite ?Hrun, ?lookup_insert_eq).
  unfold Pipeline.message_first_task, Pipeline.message_first_request. rewrite Hjwt, Hjs.
  rewrite EventLoop.run_cons, (step_post_ok _ (S n)) by (cbn; by rewrite ?Hrun, ?lookup_insert_eq).
  cbn. rewrite Hrun, remove_first_app_absent, decide_True by done.
  split; [done|]. split; [done|]. split; [|by rewrite <- !app_assoc].
  pose proof (Footprint.reachable_fresh cfg s) as Hfresh.
  apply map_eq. intros j. fold n.
  destruct (decide (j = n)) as [->|]; [by lookup_simpl|].
  destruct (decide (j = S n)) as [->|]; [lookup_simpl; symmetry; apply Hfresh; [done|lia]|].
  by lookup_simpl.
Qed.

End Liveness.

(** ** Witness: an image created after two other files *)

Definition s_two_pending : proc := EventLoop.run demo_config init_proc EventLoop.demo_inputs.

Lemma file_pipeline_completes_witness :
  let f := "/watch/c.png" in
  let st := mkStat 9 1 in
  let msg := messageData "file-9" (Message.shortName_of demo_config f) "image/png" 9 (mkDims 50 100) in
  EventLoop.reachable demo_config s_two_pending /\ status s_two_pending = Running /\
  (f ∉ pending s_two_pending) /\ js_truthy_str (USER_JWT demo_config) = false /\
  json_access_token "tok" = Some "tok" /\ json_entry_id "file-9" = Some "file-9" /\
  mime_lookup (Message.shortName_of demo_config f) = Some "image/png" /\
  Message.message_dims f "image/png" = Some (mkDims 50 100) /\
  (let s' := EventLoop.run demo_config s_two_pending
              (pipeline_inputs f st (next_task s_two_pending) "tok" "file-9" "ok") in
  status s' = Running /\ pending s' = pending s_two_pending /\
  tasks s' = <[S (next_task s_two_pending) := TStream "space-1" f 9]> (tasks s_two_pending) /\
  sent s' = sent s_two_pending ++
    [Auth.authenticationOptions demo_config;
     ReqUpload "api.watsonwork.ibm.com" Upload.filesAPI (bearer "tok") (Upload.upload_form demo_config "space-1" f);
     Auth.authenticationOptions demo_config;
     ReqMessage (watsonWork +:+ "/" +:+ Message.spacesAPI "space-1") (bearer "tok") msg]).
Proof.
  intros f st msg.
  assert (H1 : EventLoop.reachable demo_config s_two_pending)
    by (apply EventLoop.reachable_run; eexists; reflexivity).
  assert (H2 : status s_two_pending = Running) by reflexivity.
  assert (H3 : f ∉ pending s_two_pending) by (apply (bool_decide_unpack _); vm_compute; reflexivity).
  assert (H4 : js_truthy_str (USER_JWT demo_config) = false) by reflexivity.
  assert (H5 : json_access_token "tok" = Some "tok") by reflexivity.
  assert (H6 : json_entry_id "file-9" = Some "file-9") by reflexivity.
  assert (H7 : mime_lookup (Message.shortName_of demo_config f) = Some "image/png") by (vm_compute; reflexivity).
  assert (H8 : Message.message_dims f "image/png" = Some (mkDims 50 100)) by (vm_compute; reflexivity).
  do 8 (split; [assumption|]).
  exact (file_pipeline_completes demo_config s_two_pending f st "tok" "tok" "file-9" "file-9" "ok"
           "image/png" (mkDims 50 100) H1 H2 H3 H4 H5 H6 H7 H8).
Defined.

Lemma file_pipeline_completes_user_token_witness :
  let f := "/watch/d.txt" in
  let st := mkStat 4 1 in
  let s0 := EventLoop.run demo_config_jwt init_proc EventLoop.demo_inputs in
  let msg := messageData "file-4" (Message.shortName_of demo_config_jwt f) "text/plain" 4 no_dims in
  EventLoop.reachable demo_config_jwt s0 /\ status s0 = Running /\
  (f ∉ pending s0) /\ USER_JWT demo_config_jwt = Some "user-jwt" /\
  js_truthy_str (Some "user-jwt") = true /\ json_entry_id "file-4" = Some "file-4" /\
  mime_lookup (Message.shortName_of demo_config_jwt f) = Some "text/plain" /\
  Message.message_dims f "text/plain" = Some no_dims /\
  (let s' := EventLoop.run demo_config_jwt s0 (pipeline_inputs_user f st (next_task s0) "file-4" "ok") in
   status s' = Running /\ pending s' = pending s0 /\
   tasks s' = <[next_task s0 := TStream "space-1" f 4]> (tasks s0) /\
   sent s' = sent s0 ++
     [ReqUpload "api.watsonwork.ibm.com" Upload.filesAPI (bearer "user-jwt")
        (Upload.upload_form demo_config_jwt "space-1" f);
      ReqMessage (watsonWork +:+ "/" +:+ Message.spacesAPI "space-1") (bearer "user-jwt") msg]).
Proof.
  intros f st s0 msg.
  assert (H1 : EventLoop.reachable demo_config_jwt s0)
    by (apply EventLoop.reachable_run; eexists; reflexivity).
  assert (H2 : status s0 = Running) by reflexivity.
  assert (H3 : f ∉ pending s0) by (apply (bool_decide_unpack _); vm_compute; reflexivity).
  assert (H4 : USER_JWT demo_config_jwt = Some "user-jwt") by reflexivity.
  assert (H5 : js_truthy_str (Some "user-jwt") = true) by reflexivity.
  assert (H6 : json_entry_id "file-4" = Some "file-4") by reflexivity.
  assert (H7 : mime_lookup (Message.shortName_of demo_config_jwt f) = Some "text/plain")
    by (vm_compute; reflexivity).
  assert (H8 : Message.message_dims f "text/plain" = Some no_dims) by (vm_compute; reflexivity).
  do 8 (split; [assumption|]).
  exact (file_pipeline_completes_user_token demo_config_jwt s0 f st "user-jwt" "file-4" "file-4" "ok"
           "text/plain" no_dims H1 H2 H3 H4 H5 H6 H7 H8).
Defined.
End Liveness.
