(* ===== verification/Ordering.v ===== *)
(** * Uploads come before their messages

    The spec (section 5) promises that for one file the upload
    completes before the message is composed.  In app.js the message is
    built only inside the upload response's ['data'] listener, and its
    closure travels through [authenticateApp] to the post.  This file
    proves the consequence on what the process sends: every message
    post names (in its file annotation) a file whose upload request was
    sent earlier.  The invariant [ordered] adds to the typing of
    callbacks ([Footprint.callbacks_typed]) that every pending message
    closure names an uploaded file; it is preserved by every handler,
    each lemma taking as hypothesis what the caller knows about the
    closure it passes. *)

From stdpp Require Import base list gmap strings.
From S2P Require Import JsPrelude Env Payload Proc Auth Message Upload Watcher EventLoop.
From S2P Require Import Footprint.

Open Scope Z_scope.

Module Ordering.

(** The file a message is about: the [name] of its file annotation. *)
Definition msg_name (msg : message_data) : option string :=
  match annotations msg with
  | [_; FileAnnotation _ _ name _ _ _ _] => Some name
  | _ => None
  end.

Section Ordering.
Context (cfg : config) `{!Libs}.

(** The short name of the file an upload request sends. *)
Definition upload_of (r : request) : option string :=
  match r with
  | ReqUpload _ _ _ form => Some (Message.shortName_of cfg (form_file form))
  | _ => None
  end.

(** An upload of [name] is among the first [j] requests sent. *)
Definition uploaded_before (s : proc) (j : nat) (name : string) : Prop :=
  exists i r, (i < j)%nat /\ sent s !! i = Some r /\ upload_of r = Some name.

Definition msg_ok (s : proc) (j : nat) (msg : message_data) : Prop :=
  exists name, msg_name msg = Some name /\ uploaded_before s j name.

Definition ordered (s : proc) : Prop :=
  Footprint.callbacks_typed s /\
  (forall j url auth msg, sent s !! j = Some (ReqMessage url auth msg) -> msg_ok s j msg) /\
  (forall id sp msg, tasks s !! id = Some (TAuth (KMessage sp msg)) ->
     msg_ok s (length (sent s)) msg).

(** What the closure passed to [authenticateApp] must satisfy. *)
Definition cont_ordered (s : proc) (k : auth_cont) : Prop :=
  Footprint.cont_ok k /\
  match k with KMessage _ msg => msg_ok s (length (sent s)) msg | KUpload _ _ _ _ => True end.

(** ** Monotonicity: requests once sent stay sent *)

Lemma msg_ok_mono s s' j j' msg :
  sent s `prefix_of` sent s' -> (j <= j')%nat -> msg_ok s j msg -> msg_ok s' j' msg.
Proof.
  intros Hp Hj (name & Hn & i & r & Hi & Hr & Hu). exists name. split; [done|].
  exists i, r. split; [lia|]. split; [|done]. by eapply prefix_lookup_Some.
Qed.

Lemma msg_ok_same_sent s s' j msg : sent s' = sent s -> msg_ok s j msg -> msg_ok s' j msg.
Proof. intros He. apply msg_ok_mono; [by rewrite He|lia]. Qed.

(** ** The primitives *)

Lemma ordered_same s s' :
  sent s' = sent s -> tasks s' = tasks s -> next_task s' = next_task s -> ordered s -> ordered s'.
Proof.
  intros Hs Ht Hn (Hty & Hm & Hk). split; [unfold Footprint.callbacks_typed; by rewrite Hs, Ht, Hn|].
  split.
  - intros j url auth msg Hj. rewrite Hs in Hj. apply (msg_ok_same_sent s); [done|]. by eapply Hm.
  - intros id sp msg Hid. rewrite Ht in Hid. rewrite Hs. apply (msg_ok_same_sent s); [done|].
    by eapply Hk.
Qed.

Lemma console_log_ordered e : preserves ordered (console_log e).
Proof. intros s. by apply ordered_same. Qed.

Lemma set_pending_ordered l s : ordered s -> ordered (set_pending l s).
Proof. by apply ordered_same. Qed.

Lemma set_status_ordered st s : ordered s -> ordered (set_status st s).
Proof. by apply ordered_same. Qed.

Lemma retire_ordered id : preserves ordered (retire id).
Proof.
  intros s ([Hl Hty] & Hm & Hk). split; [split; [done|by apply map_Forall_delete]|].
  split; [done|]. intros id' sp msg Hid. cbn in Hid. apply lookup_delete_Some in Hid as [_ Hid].
  by eapply Hk.
Qed.

#[local] Hint Resolve console_log_ordered retire_ordered : js.

(** What a request and its callback must satisfy when they are issued. *)
Definition issue_ok (s : proc) (r : request) (t : task) : Prop :=
  Footprint.answers r t /\
  match r with ReqMessage _ _ msg => msg_ok s (length (sent s)) msg | _ => True end /\
  match t with TAuth (KMessage _ msg) => msg_ok s (length (sent s)) msg | _ => True end.

Lemma issue_ordered r t s : ordered s -> issue_ok s r t -> ordered (issue r t s).2.
Proof.
  intros (Hty & Hm & Hk) (Ha & Hr & Ht).
  assert (Hp : sent s `prefix_of` sent (issue r t s).2) by (cbn; by eexists).
  split; [by apply Footprint.callbacks_typed_issue|]. split.
  - intros j url auth msg Hj. cbn in Hj. apply lookup_app_Some in Hj as [Hj|[Hl Hj]].
    + eapply msg_ok_mono; [exact Hp|done|]. by eapply Hm.
    + apply list_lookup_singleton_Some in Hj as [Hj ->]. eapply msg_ok_mono; [exact Hp| |exact Hr]; lia.
  - intros id sp msg Hid. cbn in Hid. apply lookup_insert_Some in Hid as [[<- ->]|[_ Hid]].
    + eapply msg_ok_mono; [exact Hp| |exact Ht]. cbn. rewrite length_app. cbn. lia.
    + eapply msg_ok_mono; [exact Hp| |by eapply Hk]. cbn. rewrite length_app. cbn. lia.
Qed.

Lemma rearm_ordered s id sp f fs :
  ordered s -> tasks s !! id = Some (TSubmit sp f fs) ->
  ordered (set_tasks (<[id := TStream sp f fs]> (delete id (tasks s))) s).
Proof.
  intros ([Hl Hty] & Hm & Hk) Hid. split; [split; [done|]|split; [done|]].
  - apply map_Forall_insert_2; [|by apply map_Forall_delete].
    destruct (Hty id _ Hid) as (r & Hr & Ha). exists r. split; [done|]. by destruct r.
  - intros id' sp' msg Hid'. cbn in Hid'.
    apply lookup_insert_Some in Hid' as [[_ Heq]|[_ Hid']]; [done|].
    apply lookup_delete_Some in Hid' as [_ Hid']. by eapply Hk.
Qed.

(** ** The components *)

Lemma issue_ret_state r t s : ((_ ← issue r t; mret tt) s).2 = (issue r t s).2.
Proof. reflexivity. Qed.

Lemma resume_ordered k jwt s : ordered s -> cont_ordered s k -> ordered (Upload.resume k jwt s).2.
Proof.
  intros Hs [Hok Hk]. destruct k; cbn [Upload.resume];
    [unfold Upload.form_submit | unfold Message.post_message];
    rewrite issue_ret_state; apply issue_ordered; done.
Qed.

Lemma authenticateApp_ordered k s :
  ordered s -> cont_ordered s k -> ordered (Auth.authenticateApp cfg Upload.resume k s).2.
Proof.
  intros Hs Hk. unfold Auth.authenticateApp. destruct (js_truthy_str _); [by apply resume_ordered|].
  rewrite issue_ret_state. apply issue_ordered; [done|]. destruct Hk as [Hok Hk].
  split; [done|]. split; [done|]. by destruct k.
Qed.

Lemma on_token_response_ordered k r s :
  ordered s -> cont_ordered s k -> ordered (Auth.on_token_response Upload.resume k r s).2.
Proof.
  intros Hs Hk. unfold Auth.on_token_response.
  destruct r as [|code body]; [done|]. destruct (negb _); [by apply console_log_ordered|].
  destruct (json_access_token body); [by apply resume_ordered|done].
Qed.

Lemma sendMessage_ordered sp fileId f fs s :
  ordered s -> uploaded_before s (length (sent s)) (Message.shortName_of cfg f) ->
  ordered (Message.sendMessage cfg Upload.resume sp fileId f fs s).2.
Proof.
  intros Hs Hu.
  destruct (Message.sendMessage_cases cfg Upload.resume sp fileId f fs s) as [[e ->]|(m & d & ->)];
    [done|].
  apply authenticateApp_ordered; [by apply console_log_ordered|].
  split; [done|]. by exists (Message.shortName_of cfg f).
Qed.

Lemma on_data_ordered sp f fs body s :
  ordered s -> uploaded_before s (length (sent s)) (Message.shortName_of cfg f) ->
  ordered (Upload.on_data cfg sp f fs body s).2.
Proof.
  intros Hs Hu. unfold Upload.on_data.
  rewrite (st_bind_ok _ _ _ tt _ (console_log_run _ _)).
  destruct (json_entry_id body) as [fileId|]; [|by apply console_log_ordered].
  rewrite st_bind_state.
  pose proof (sendMessage_ordered sp fileId f fs _ (console_log_ordered (LogText ("BODY: " +:+ body)) s Hs) Hu)
    as Hm.
  destruct (Message.sendMessage cfg Upload.resume sp fileId f fs _) as [[] s'];
    [rewrite Upload.remove_pending_run; by apply set_pending_ordered|done..].
Qed.

Lemma watch_callback_ordered ev s : ordered s -> ordered (Watcher.watch_callback cfg ev s).2.
Proof.
  intros Hs. destruct ev as [|f curr [prev|]]; cbn [Watcher.watch_callback];
    [by apply console_log_ordered| |].
  - destruct curr as [st|]; [|done]. cbn [Watcher.read_nlink]. rewrite st_bind_ret_l.
    destruct (nlink st =? 0)%N; by apply console_log_ordered.
  - unfold Watcher.on_created. rewrite st_bind_gets. case_bool_decide; [|done].
    cbn [when]. rewrite st_bind_modify, (st_bind_ok _ _ _ tt _ (console_log_run _ _)).
    destruct curr as [st|]; [|done]. cbn [Watcher.read_size]. rewrite st_bind_ret_l.
    apply authenticateApp_ordered; [by apply console_log_ordered, set_pending_ordered|done].
Qed.

(** The callbacks of the loop learn what they need from [ordered]: a
    token callback's closure is well formed, a data listener's file was
    uploaded under the listener's identifier. *)
Lemma token_cont_ordered s id k :
  ordered s -> tasks s !! id = Some (TAuth k) -> cont_ordered (retire id s).2 k.
Proof.
  intros ([Hl Hty] & Hm & Hk) Hid. destruct (Hty id _ Hid) as (r & Hr & Ha).
  split; [by destruct r|]. destruct k as [|sp msg]; [done|]. by apply (Hk id sp).
Qed.

Lemma stream_uploaded s id sp f fs :
  ordered s -> tasks s !! id = Some (TStream sp f fs) ->
  uploaded_before s (length (sent s)) (Message.shortName_of cfg f).
Proof.
  intros ([Hl Hty] & Hm & Hk) Hid. destruct (Hty id _ Hid) as (r & Hr & Ha).
  exists id, r. split; [by apply lookup_lt_Some in Hr|]. split; [done|].
  destruct r; try done. cbn in Ha |- *. by rewrite Ha.
Qed.

Lemma dispatch_ordered i s : ordered s -> ordered (EventLoop.dispatch cfg i s).2.
Proof.
  intros Hs. destruct i as [ev|id r|id err|id chunk|id|id r]; cbn [EventLoop.dispatch];
    [by apply watch_callback_ordered|..]; rewrite st_bind_gets;
    destruct (tasks s !! id) as [t|] eqn:Ht; try destruct t; try done;
    try (rewrite (st_bind_ok _ _ _ tt _ (eq_refl (retire id s)))).
  - apply on_token_response_ordered; [by apply retire_ordered|by apply token_cont_ordered].
  - unfold Upload.on_submit. destruct err; [by apply console_log_ordered, retire_ordered|].
    exact (rearm_ordered s id _ _ _ Hs Ht).
  - by apply on_data_ordered; [|eapply stream_uploaded].
  - by apply retire_ordered.
  - cut (preserves ordered (Message.on_post_response r)); [intros Hp; by apply Hp, retire_ordered|].
    unfold Message.on_post_response. destruct r; [eauto with js|]. apply preserves_when. eauto with js.
Qed.

Lemma reachable_ordered s : EventLoop.reachable cfg s -> ordered s.
Proof.
  apply (EventLoop.reachable_ind_inv cfg ordered).
  - split; [split; [done|apply map_Forall_empty]|]. split; [done|]. by intros ?.
  - intros s' i _ Hs'. apply EventLoop.step_preserves; [intros; by apply set_status_ordered| |done].
    intros s''. apply dispatch_ordered.
Qed.

(** C15: every message the process has posted names, in its file
    annotation, the short name of a file whose upload request was sent
    before the post: a message is never composed for a file that was
    not uploaded first. *)
Theorem message_after_upload s j url auth msg :
  EventLoop.reachable cfg s -> sent s !! j = Some (ReqMessage url auth msg) ->
  exists i host path auth' form, (i < j)%nat /\
    sent s !! i = Some (ReqUpload host path auth' form) /\
    msg_name msg = Some (Message.shortName_of cfg (form_file form)).
Proof.
  intros Hr Hj. destruct (reachable_ordered s Hr) as (_ & Hm & _).
  destruct (Hm j url auth msg Hj) as (name & Hn & i & r & Hi & Hri & Hu).
  destruct r as [| host path auth' form |]; try done.
  injection Hu as <-. by exists i, host, path, auth', form.
Qed.

End Ordering.

(** A file uploaded with a user token and its message posted. *)
Definition s_posted : proc :=
  EventLoop.run demo_config_jwt init_proc
    [EventLoop.FsEvent (Watcher.FileEvent "/watch/a.txt" (Some (mkStat 12 1)) None);
     EventLoop.SubmitReply 0 None; EventLoop.StreamData 0 "file-42"].

Lemma message_after_upload_witness :
  let msg := messageData "file-42" (Message.shortName_of demo_config_jwt "/watch/a.txt")
               "text/plain" 12 no_dims in
  let url := watsonWork +:+ "/" +:+ Message.spacesAPI "space-1" in
  EventLoop.reachable demo_config_jwt s_posted /\
  sent s_posted !! 1%nat = Some (ReqMessage url (bearer "user-jwt") msg) /\
  exists i host path auth' form, (i < 1)%nat /\
    sent s_posted !! i = Some (ReqUpload host path auth' form) /\
    msg_name msg = Some (Message.shortName_of demo_config_jwt (form_file form)).
Proof.
  intros msg url.
  assert (Hr : EventLoop.reachable demo_config_jwt s_posted)
    by (apply EventLoop.reachable_run; eexists; reflexivity).
  assert (Hj : sent s_posted !! 1%nat = Some (ReqMessage url (bearer "user-jwt") msg))
    by (vm_compute; reflexivity).
  split; [exact Hr|]. split; [exact Hj|].
  exact (message_after_upload demo_config_jwt s_posted 1 url _ msg Hr Hj).
Defined.
End Ordering.
