(* ===== verification/Interleave.v ===== *)
(** * Interleaving: notifications that only log

    The console is written by every handler but read by none.  Two
    process states that differ only in their console are equivalent
    ([≡], an stdpp [Equiv] instance): every handler maps equivalent
    states to the same outcome and equivalent states ([blind]), which
    makes [EventLoop.step] and [EventLoop.run] [Proper] for [≡].  The
    watcher's notifications that are not creations (the end of the
    initial walk, a change or a removal with its stat) only log, so
    they can be interleaved anywhere in a run, in any number, without
    changing the state beyond the console. *)

From stdpp Require Import base list gmap strings.
From S2P Require Import JsPrelude Env Payload Proc Auth Message Upload Watcher EventLoop.

Open Scope Z_scope.

Module Interleave.

(** ** States equal up to the console *)

Definition core (s : proc) : list string * gmap nat task * nat * list request * run_status :=
  (pending s, tasks s, next_task s, sent s, status s).

#[export] Instance proc_equiv : Equiv proc := fun s s' => core s = core s'.

#[export] Instance proc_equiv_equivalence : Equivalence (≡@{proc}).
Proof. split; repeat intro; unfold equiv, proc_equiv in *; congruence. Qed.

Lemma proc_equiv_fields s s' :
  s ≡ s' <-> pending s = pending s' /\ tasks s = tasks s' /\ next_task s = next_task s' /\
             sent s = sent s' /\ status s = status s'.
Proof. unfold equiv, proc_equiv, core. split; [intros H; by inversion H|by intros (-> & -> & -> & -> & ->)]. Qed.

#[export] Instance pending_proper : Proper ((≡) ==> (=)) pending.
Proof. intros s s' [Hp _]%proc_equiv_fields. done. Qed.
#[export] Instance tasks_proper : Proper ((≡) ==> (=)) tasks.
Proof. intros s s' (_ & Ht & _)%proc_equiv_fields. done. Qed.
#[export] Instance status_proper : Proper ((≡) ==> (=)) status.
Proof. intros s s' (_ & _ & _ & _ & Hs)%proc_equiv_fields. done. Qed.

(** ** Handlers that do not read the console *)

Definition blind {A} (m : St proc A) : Prop :=
  forall s s', s ≡ s' -> (m s).1 = (m s').1 /\ (m s).2 ≡ (m s').2.

Lemma blind_ret {A} (a : A) : blind (mret a).
Proof. by intros s s' H. Qed.
Lemma blind_throw {A} e : blind (throw (A:=A) e).
Proof. by intros s s' H. Qed.
Lemma blind_exit {A} c : blind (exit (A:=A) c).
Proof. by intros s s' H. Qed.

Lemma blind_bind {A B} (m : St proc A) (k : A -> St proc B) :
  blind m -> (forall a, blind (k a)) -> blind (m ≫= k).
Proof.
  intros Hm Hk s s' H. unfold mbind, St_bind.
  destruct (Hm s s' H) as [Ho Hs]. destruct (m s) as [o1 s1], (m s') as [o2 s2].
  cbn in Ho, Hs. subst o2. destruct o1; [by apply Hk|done..].
Qed.

Lemma blind_gets {A} (f : proc -> A) (k : A -> St proc unit) :
  Proper ((≡) ==> (=)) f -> (forall a, blind (k a)) -> blind (gets f ≫= k).
Proof. intros Hf Hk s s' H. rewrite !st_bind_gets, (Hf s s' H). by apply Hk. Qed.

Lemma blind_modify (h : proc -> proc) : Proper ((≡) ==> (≡)) h -> blind (modify h).
Proof. intros Hh s s' H. split; [done|]. by apply Hh. Qed.

Lemma blind_when b m : blind m -> blind (when b m).
Proof. intros Hm. destruct b; [done|apply blind_ret]. Qed.

Lemma console_log_blind e : blind (console_log e).
Proof. apply blind_modify. intros s s' H%proc_equiv_fields. apply proc_equiv_fields. naive_solver. Qed.

Lemma issue_blind r t : blind (issue r t).
Proof.
  intros s s' H%proc_equiv_fields. destruct H as (Hp & Ht & Hn & Hs & Hst).
  split; [cbn; by rewrite Hn|]. apply proc_equiv_fields. cbn. by rewrite Hp, Ht, Hn, Hs, Hst.
Qed.

Lemma set_tasks_blind f : blind (modify (fun s => set_tasks (f (tasks s)) s)).
Proof.
  apply blind_modify. intros s s' (Hp & Ht & Hn & Hs & Hst)%proc_equiv_fields.
  apply proc_equiv_fields. cbn. by rewrite Hp, Ht, Hn, Hs, Hst.
Qed.

Lemma retire_blind id : blind (retire id).
Proof. apply (set_tasks_blind (delete id)). Qed.
Lemma rearm_blind id t : blind (rearm id t).
Proof. apply (set_tasks_blind (insert id t)). Qed.

#[local] Hint Resolve blind_ret blind_throw blind_exit blind_bind blind_when
  console_log_blind issue_blind retire_blind rearm_blind : js.

Lemma set_pending_blind l : blind (modify (set_pending l)).
Proof.
  apply blind_modify. intros s s' (Hp & Ht & Hn & Hs & Hst)%proc_equiv_fields.
  apply proc_equiv_fields. cbn. by rewrite Ht, Hn, Hs, Hst.
Qed.

#[local] Hint Resolve set_pending_blind : js.

Section Handlers.
Context (cfg : config) `{!Libs}.

Lemma resume_blind k jwt : blind (Upload.resume k jwt).
Proof. destruct k; cbn [Upload.resume]; [unfold Upload.form_submit|unfold Message.post_message]; eauto with js. Qed.

Lemma authenticateApp_blind k : blind (Auth.authenticateApp cfg Upload.resume k).
Proof. unfold Auth.authenticateApp. destruct (js_truthy_str _); eauto using resume_blind with js. Qed.

Lemma on_token_response_blind k r : blind (Auth.on_token_response Upload.resume k r).
Proof.
  unfold Auth.on_token_response. destruct r as [|code body]; [eauto with js|].
  destruct (negb _); [eauto with js|]. destruct (json_access_token body); eauto using resume_blind with js.
Qed.

Lemma sendMessage_blind sp fileId f fs : blind (Message.sendMessage cfg Upload.resume sp fileId f fs).
Proof.
  unfold Message.sendMessage, Message.dimensions_of. destruct (mime_lookup _); [|eauto with js].
  apply blind_bind; [destruct (Message.is_image_type _); [destruct (image_size _)|]; eauto with js|].
  intros d. eauto using authenticateApp_blind with js.
Qed.

Lemma remove_pending_blind f : blind (Upload.remove_pending f).
Proof.
  intros s s' Hss. rewrite !Upload.remove_pending_run. split; [done|].
  apply proc_equiv_fields in Hss as (Hp & Ht & Hn & Hs & Hst).
  apply proc_equiv_fields. cbn. by rewrite Hp, Ht, Hn, Hs, Hst.
Qed.

Lemma on_data_blind sp f fs body : blind (Upload.on_data cfg sp f fs body).
Proof.
  unfold Upload.on_data. apply blind_bind; [eauto with js|]. intros [].
  destruct (json_entry_id body); eauto using sendMessage_blind, remove_pending_blind with js.
Qed.

Lemma watch_callback_blind ev : blind (Watcher.watch_callback cfg ev).
Proof.
  destruct ev as [|f curr [prev|]]; cbn [Watcher.watch_callback]; [eauto with js| |].
  - apply blind_bind; [destruct curr; cbn; eauto with js|]. intros n. destruct (n =? 0)%N; eauto with js.
  - unfold Watcher.on_created. apply blind_gets; [apply pending_proper|]. intros p.
    apply blind_when. apply blind_bind; [eauto with js|intros []].
    apply blind_bind; [eauto with js|intros []].
    apply blind_bind; [destruct curr; cbn; eauto with js|]. intros sz. apply authenticateApp_blind.
Qed.

Lemma dispatch_blind i : blind (EventLoop.dispatch cfg i).
Proof.
  destruct i as [ev|id r|id err|id chunk|id|id r]; cbn [EventLoop.dispatch];
    [apply watch_callback_blind|..];
    (apply blind_gets; [intros s s' Hss; by rewrite Hss|]); intros [t|]; try destruct t; eauto with js.
  - apply blind_bind; [eauto with js|intros []]. apply on_token_response_blind.
  - apply blind_bind; [eauto with js|intros []]. unfold Upload.on_submit. destruct err; eauto with js.
  - apply on_data_blind.
  - apply blind_bind; [eauto with js|intros []]. unfold Message.on_post_response.
    destruct r; eauto with js.
Qed.

#[export] Instance step_proper : Proper ((≡) ==> (=) ==> (≡)) (EventLoop.step cfg).
Proof.
  intros s s' Hss i ? <-. unfold EventLoop.step. rewrite (status_proper s s' Hss).
  destruct (status s'); [|done..].
  destruct (dispatch_blind i s s' Hss) as [Ho Hs].
  destruct (EventLoop.dispatch cfg i s) as [o1 s1], (EventLoop.dispatch cfg i s') as [o2 s2].
  cbn in Ho, Hs. subst o2. destruct o1; [done| |];
    apply proc_equiv_fields in Hs as (Hp & Ht & Hn & Hsn & Hst);
    apply proc_equiv_fields; cbn; by rewrite Hp, Ht, Hn, Hsn.
Qed.

#[export] Instance run_proper : Proper ((≡) ==> (=) ==> (≡)) (EventLoop.run cfg).
Proof.
  intros s s' Hss l ? <-. revert s s' Hss. induction l as [|i l IH]; intros s s' Hss; [done|].
  cbn. apply IH. by rewrite Hss.
Qed.

(** ** Notifications that only log *)

(** The end of the initial walk, and a change or removal with its stat. *)
Definition log_only (i : EventLoop.input) : bool :=
  match i with
  | EventLoop.FsEvent Watcher.WalkDone => true
  | EventLoop.FsEvent (Watcher.FileEvent _ (Some _) (Some _)) => true
  | _ => false
  end.

Lemma step_log_only s i : log_only i = true -> EventLoop.step cfg s i ≡ s.
Proof.
  intros Hi. unfold EventLoop.step. destruct (status s) eqn:Hst; [|done..].
  destruct i as [[|f [c|] [p|]]| | | | |]; try discriminate; cbn [EventLoop.dispatch].
  - apply proc_equiv_fields. cbn. by rewrite Hst.
  - rewrite Watcher.other_events_only_log. apply proc_equiv_fields. cbn. by rewrite Hst.
Qed.

(** C16: interleaving any number of notifications that only log (the
    end of the initial walk, changes and removals with their stat) at
    any points of a run changes nothing but the console: [pending], the
    registered callbacks, the identifiers, the requests sent and the
    run status are those of the run without them. *)
Theorem log_only_events_commute s l :
  core (EventLoop.run cfg s l) = core (EventLoop.run cfg s (filter (fun i => log_only i = false) l)).
Proof.
  change (EventLoop.run cfg s l ≡ EventLoop.run cfg s (filter (fun i => log_only i = false) l)).
  revert s. induction l as [|i l IH]; intros s; [done|].
  rewrite filter_cons, EventLoop.run_cons. destruct (log_only i) eqn:Hi.
  - rewrite decide_False by congruence. rewrite (step_log_only s i Hi). apply IH.
  - rewrite decide_True, EventLoop.run_cons by done. apply IH.
Qed.

End Handlers.
End Interleave.
