(* ===== verification/Termination.v ===== *)
(** * Termination: the work a state has left

    Every callback of app.js runs at most a bounded chain of further
    callbacks: a token callback for an upload submits the form, the
    submit callback attaches the data listener, a token callback for a
    message posts it, and a post callback does nothing more.  Only two
    inputs start new work: a creation event (a new upload) and a chunk
    of an upload response (a new message).  [weight] counts the turns a
    registered callback can still cause, [measure] sums it over the
    registered callbacks ([map_fold] over the [gmap]).

    Each handler is given a cost, an upper bound on how much it can
    raise the measure ([costs]); a turn that runs a callback lowers the
    measure by at least one, unless it is a response chunk.  Hence the
    number of turns that run a callback is bounded by the measure plus
    three per stimulus, and without stimuli the turns that run a
    callback form a well-founded relation: the event loop drains. *)

From Stdlib Require Import Wellfounded Wf_nat.
From stdpp Require Import base list gmap strings.
From S2P Require Import JsPrelude Env Payload Proc Auth Message Upload Watcher EventLoop.

Open Scope Z_scope.

Module Termination.
Local Open Scope nat_scope.

(** ** The measure *)

Definition weight (t : task) : nat :=
  match t with
  | TAuth (KUpload _ _ _ _) => 3
  | TSubmit _ _ _ => 2
  | TStream _ _ _ => 1
  | TAuth (KMessage _ _) => 2
  | TPost => 1
  end.

Definition work (m : gmap nat task) : nat := map_fold (fun _ t acc => weight t + acc) 0%nat m.

Definition measure (s : proc) : nat := work (tasks s).

Lemma work_delete m i t : m !! i = Some t -> (work (delete i m) + weight t)%nat = work m.
Proof. intros Hi. unfold work. rewrite (map_fold_delete_L _ _ i t m); [lia|intros; lia|done]. Qed.

Lemma work_insert m i t : (work (<[i := t]> m) <= work m + weight t)%nat.
Proof.
  rewrite <- insert_delete_eq.
  assert (E : work (<[i := t]> (delete i m)) = weight t + work (delete i m)).
  { unfold work. rewrite (map_fold_insert_L _ _ i t); [done|intros; lia|apply lookup_delete_eq]. }
  rewrite E. destruct (m !! i) as [t'|] eqn:Hi.
  - pose proof (work_delete m i t' Hi). lia.
  - rewrite delete_id by done. lia.
Qed.

Lemma work_delete_le m i : (work (delete i m) <= work m)%nat.
Proof.
  destruct (m !! i) as [t|] eqn:Hi; [pose proof (work_delete m i t Hi); lia|].
  by rewrite delete_id.
Qed.

(** ** Costs of handlers *)

(** [costs k m]: running [m] raises the measure by at most [k]. *)
Definition costs {A} (k : nat) (m : St proc A) : Prop :=
  forall s, (measure (m s).2 <= measure s + k)%nat.

Lemma costs_le {A} k k' (m : St proc A) : costs k m -> (k <= k')%nat -> costs k' m.
Proof. intros Hm Hk s. specialize (Hm s). lia. Qed.

Lemma costs_ret {A} k (a : A) : costs k (mret a).
Proof. intros s. cbn. lia. Qed.
Lemma costs_throw {A} k e : costs k (throw (A:=A) e).
Proof. intros s. cbn. lia. Qed.
Lemma costs_exit {A} k c : costs k (exit (A:=A) c).
Proof. intros s. cbn. lia. Qed.

Lemma costs_bind {A B} k1 k2 (m : St proc A) (k : A -> St proc B) :
  costs k1 m -> (forall a, costs k2 (k a)) -> costs (k1 + k2) (m ≫= k).
Proof.
  intros Hm Hk s. unfold mbind, St_bind. specialize (Hm s).
  destruct (m s) as [[a|e|c] s']; cbn in *; [specialize (Hk a s')|..]; lia.
Qed.

(** [costs_bind] with the total stated. *)
Lemma costs_seq {A B} k1 k2 k (m : St proc A) (f : A -> St proc B) :
  costs k1 m -> (forall a, costs k2 (f a)) -> (k1 + k2 <= k)%nat -> costs k (m ≫= f).
Proof. intros Hm Hf Hk. eapply costs_le; [apply costs_bind; [exact Hm|exact Hf]|exact Hk]. Qed.

Lemma costs_gets {A B} k (g : proc -> A) (f : A -> St proc B) :
  (forall a, costs k (f a)) -> costs k (gets g ≫= f).
Proof. intros Hf s. rewrite st_bind_gets. apply Hf. Qed.

Lemma costs_when k b (m : St proc unit) : costs k m -> costs k (when b m).
Proof. intros Hm. destruct b; [done|apply costs_ret]. Qed.

(** A modification that leaves the callbacks alone costs nothing. *)
Lemma costs_modify k (h : proc -> proc) : (forall s, tasks (h s) = tasks s) -> costs k (modify h).
Proof. intros Hh s. unfold measure. cbn. rewrite Hh. lia. Qed.

Lemma console_log_costs k e : costs k (console_log e).
Proof. by apply costs_modify. Qed.

Lemma issue_costs r t : costs (weight t) (issue r t).
Proof. intros s. apply work_insert. Qed.

Lemma retire_costs k id : costs k (retire id).
Proof. intros s. unfold measure. cbn. pose proof (work_delete_le (tasks s) id). lia. Qed.

Lemma rearm_costs id t : costs (weight t) (rearm id t).
Proof. intros s. apply work_insert. Qed.

(** Retiring a registered callback takes its weight off the measure. *)
Lemma retire_measure s id t :
  tasks s !! id = Some t -> (measure (retire id s).2 + weight t)%nat = measure s.
Proof. intros Ht. by apply work_delete. Qed.

#[local] Hint Resolve costs_ret costs_throw costs_exit costs_when console_log_costs retire_costs : js.

Lemma set_pending_costs k l : costs k (modify (set_pending l)).
Proof. by apply costs_modify. Qed.

#[local] Hint Resolve set_pending_costs : js.

Section Handlers.
Context (cfg : config) `{!Libs}.

(** The weight of what a closure given to [authenticateApp] registers. *)
Definition cont_next (k : auth_cont) : nat :=
  match k with KUpload _ _ _ _ => 2 | KMessage _ _ => 1 end.

Lemma resume_costs k jwt : costs (cont_next k) (Upload.resume k jwt).
Proof.
  destruct k; cbn [Upload.resume]; [unfold Upload.form_submit|unfold Message.post_message];
    (eapply (costs_seq _ 0); [apply issue_costs|intros; apply costs_ret|cbn; lia]).
Qed.

Lemma authenticateApp_costs k : costs (weight (TAuth k)) (Auth.authenticateApp cfg Upload.resume k).
Proof.
  unfold Auth.authenticateApp. destruct (js_truthy_str _).
  - eapply costs_le; [apply resume_costs|destruct k; cbn; lia].
  - eapply (costs_seq _ 0); [apply issue_costs|intros; apply costs_ret|lia].
Qed.

Lemma on_token_response_costs k r : costs (cont_next k) (Auth.on_token_response Upload.resume k r).
Proof.
  unfold Auth.on_token_response. destruct r as [|code body]; [eauto with js|].
  destruct (negb _); [apply (costs_seq 0 0); eauto with js; lia|].
  destruct (json_access_token body); [apply resume_costs|eauto with js].
Qed.

Lemma sendMessage_costs sp fileId f fs : costs 2 (Message.sendMessage cfg Upload.resume sp fileId f fs).
Proof.
  unfold Message.sendMessage, Message.dimensions_of. destruct (mime_lookup _); [|eauto with js].
  apply (costs_seq 0 2); [destruct (Message.is_image_type _); [destruct (image_size _)|]; eauto with js| |lia].
  intros d. apply (costs_seq 0 2); [eauto with js|intros; apply authenticateApp_costs|lia].
Qed.

Lemma remove_pending_costs k f : costs k (Upload.remove_pending f).
Proof. intros s. rewrite Upload.remove_pending_run. unfold measure. cbn. lia. Qed.

Lemma on_data_costs sp f fs body : costs 2 (Upload.on_data cfg sp f fs body).
Proof.
  unfold Upload.on_data. apply (costs_seq 0 2); [eauto with js| |lia]. intros [].
  destruct (json_entry_id body); [|eauto with js].
  apply (costs_seq 2 0); [apply sendMessage_costs|intros; apply remove_pending_costs|lia].
Qed.

(** A creation event starts an upload; the other notifications only log. *)
Definition fs_cost (ev : Watcher.watch_event) : nat :=
  match ev with Watcher.FileEvent _ _ None => 3 | _ => 0 end.

Lemma watch_callback_costs ev : costs (fs_cost ev) (Watcher.watch_callback cfg ev).
Proof.
  destruct ev as [|f curr [prev|]]; cbn [Watcher.watch_callback fs_cost]; [eauto with js| |].
  - apply (costs_seq 0 0); [destruct curr; cbn; eauto with js|intros n; destruct (n =? 0)%N; eauto with js|lia].
  - unfold Watcher.on_created. apply costs_gets. intros p. apply costs_when.
    apply (costs_seq 0 3); [eauto with js|intros []|lia].
    apply (costs_seq 0 3); [eauto with js|intros []|lia].
    apply (costs_seq 0 3); [destruct curr; cbn; eauto with js|intros sz; apply authenticateApp_costs|lia].
Qed.

(** ** One turn *)

(** The input finds the callback it is for. *)
Definition registered (s : proc) (i : EventLoop.input) : bool :=
  match i with
  | EventLoop.FsEvent _ => false
  | EventLoop.TokenReply id _ => match tasks s !! id with Some (TAuth _) => true | _ => false end
  | EventLoop.SubmitReply id _ => match tasks s !! id with Some (TSubmit _ _ _) => true | _ => false end
  | EventLoop.StreamData id _ | EventLoop.StreamEnd id =>
      match tasks s !! id with Some (TStream _ _ _) => true | _ => false end
  | EventLoop.PostReply id _ => match tasks s !! id with Some TPost => true | _ => false end
  end.

(** A turn that runs a callback of the running process. *)
Definition callback_turn (s : proc) (i : EventLoop.input) : bool :=
  match status s with Running => registered s i | _ => false end.

(** The inputs that start new work: a creation event and a response
    chunk. *)
Definition stimulus (i : EventLoop.input) : bool :=
  match i with
  | EventLoop.FsEvent (Watcher.FileEvent _ _ None) | EventLoop.StreamData _ _ => true
  | _ => false
  end.

Lemma retire_then {A} id (f : unit -> St proc A) s : (retire id ≫= f) s = f tt (retire id s).2.
Proof. reflexivity. Qed.

Lemma dispatch_measure i s :
  (measure (EventLoop.dispatch cfg i s).2 + (if registered s i then 1 else 0) <=
     measure s + (if stimulus i then 3 else 0))%nat.
Proof.
  destruct i as [ev|id r|id err|id chunk|id|id r]; cbn [EventLoop.dispatch registered stimulus].
  - pose proof (watch_callback_costs ev s). destruct ev as [|f curr [prev|]]; cbn in *; lia.
  - rewrite st_bind_gets. destruct (tasks s !! id) as [[k| | |]|] eqn:Ht; cbv beta iota; try (cbn; lia).
    rewrite retire_then. pose proof (retire_measure s id _ Ht).
    pose proof (on_token_response_costs k r (retire id s).2). destruct k; cbn [weight cont_next] in *; lia.
  - rewrite st_bind_gets. destruct (tasks s !! id) as [[| | |]|] eqn:Ht; cbv beta iota; try (cbn; lia).
    rewrite retire_then. pose proof (retire_measure s id _ Ht). unfold Upload.on_submit.
    destruct err as [e|]; [pose proof (console_log_costs 0 (LogSendError e) (retire id s).2)
                  |pose proof (rearm_costs id (TStream spaceId fileName fileSize) (retire id s).2)];
      cbn [weight] in *; lia.
  - rewrite st_bind_gets. destruct (tasks s !! id) as [[| | |]|] eqn:Ht; cbv beta iota; try (cbn; lia).
    pose proof (on_data_costs spaceId fileName fileSize chunk s). lia.
  - rewrite st_bind_gets. destruct (tasks s !! id) as [[| | |]|] eqn:Ht; cbv beta iota; try (cbn; lia).
    pose proof (retire_measure s id _ Ht). cbn [weight] in *. lia.
  - rewrite st_bind_gets. destruct (tasks s !! id) as [[| | |]|] eqn:Ht; cbv beta iota; try (cbn; lia).
    rewrite retire_then. pose proof (retire_measure s id _ Ht).
    assert (Hp : costs 0 (Message.on_post_response r)).
    { unfold Message.on_post_response. destruct r; [eauto with js|].
      apply costs_when. apply (costs_seq 0 0); [eauto with js|intros []|lia].
      apply (costs_seq 0 0); eauto with js; lia. }
    pose proof (Hp (retire id s).2). cbn [weight] in *. lia.
Qed.

Lemma step_measure s i :
  (measure (EventLoop.step cfg s i) + (if callback_turn s i then 1 else 0) <=
     measure s + (if stimulus i then 3 else 0))%nat.
Proof.
  unfold EventLoop.step, callback_turn. destruct (status s); [|cbn; lia..].
  pose proof (dispatch_measure i s). by destruct (EventLoop.dispatch cfg i s) as [[] s'].
Qed.

(** ** Runs *)

(** The turns of a run that run a callback, and its stimuli. *)
Fixpoint callback_turns (s : proc) (l : list EventLoop.input) : nat :=
  match l with
  | [] => 0
  | i :: l' => (if callback_turn s i then 1 else 0) + callback_turns (EventLoop.step cfg s i) l'
  end.

Definition stimuli (l : list EventLoop.input) : nat := length (filter (fun i => stimulus i = true) l).

(** C18: in any run, the turns that run a callback number at most the
    work the start state has left plus three per creation event and
    response chunk delivered; the work left at the end is counted in. *)
Theorem callback_turns_bounded s l :
  (callback_turns s l + measure (EventLoop.run cfg s l) <= measure s + 3 * stimuli l)%nat.
Proof.
  unfold stimuli. revert s. induction l as [|i l IH]; intros s; [cbn; lia|].
  rewrite EventLoop.run_cons, filter_cons. cbn [callback_turns].
  specialize (IH (EventLoop.step cfg s i)). pose proof (step_measure s i).
  destruct (stimulus i); [rewrite decide_True by done|rewrite decide_False by done];
    cbn [length] in *; lia.
Qed.

(** One turn that runs a callback without a stimulus. *)
Definition quiet_turn (s' s : proc) : Prop :=
  exists i, stimulus i = false /\ callback_turn s i = true /\ s' = EventLoop.step cfg s i.

(** C17: once no file is created and no response chunk arrives, the
    turns that run callbacks cannot go on forever: [quiet_turn] is
    well founded, each such turn lowering [measure]. *)
Theorem quiet_callbacks_terminate : well_founded quiet_turn.
Proof.
  apply (wf_incl _ _ (ltof _ measure)); [|apply well_founded_ltof].
  intros s' s (i & Hst & Hcb & ->). unfold ltof. pose proof (step_measure s i).
  rewrite Hst, Hcb in *. lia.
Qed.

End Handlers.
End Termination.
